(** * ReadmeForge: the signal extraction and classification engine

    A shallow embedding of the analyzers of ReadmeForge
    (src/infrastructure/analyzers/*.py and src/domain/entities/project.py)
    together with the properties of its specification.

    Conventions of the embedding.
    - A Python [str] is a [string]; its characters are the code points
      0..255.  Case mapping is the one Python has on these code points:
      [lower] maps the letters A-Z and the capital letters 192..214 and
      216..222 of Latin-1; [capitalize] title-cases the first character.
    - A Python [int] is a [Z].
    - A Python [dict] keeps its insertion order and is iterated in that
      order ([_convert_technologies_data], the feature counters), so it is
      an association list with unique keys: see [Dict].
    - The file system is a tree, [Fs.entry]; [os.walk], [os.listdir],
      [os.path.isdir] and [os.path.isfile] are functions on it.  A call that
      may raise ([os.path.getsize], [read_file]) is an [option].
    - Paths are POSIX paths ([os.sep] is "/"). *)

From Stdlib Require Import String Ascii List ZArith NArith Bool Lia Arith.
From Stdlib Require Import Sorting.Sorted Sorting.Permutation.
Import ListNotations.

Set Warnings "-register-all".

Local Open Scope string_scope.
Local Open Scope list_scope.
Local Open Scope Z_scope.

(* ================================================================== *)
(** * Python strings *)
(* ================================================================== *)

Module Str.

Definition code (c : ascii) : N := N_of_ascii c.

(** The upper-case letters among the code points 0..255: A-Z and the
    capital letters of Latin-1, 192..214 and 216..222 (215 is the
    multiplication sign). *)
Definition is_upper (c : ascii) : bool :=
  let n := code c in
  (((65 <=? n) && (n <=? 90)) || ((192 <=? n) && (n <=? 214))
   || ((216 <=? n) && (n <=? 222)))%N.

(** The lower-case letters whose capital is 32 code points below them:
    a-z and the letters 224..246 and 248..254 of Latin-1 (247 is the
    division sign). *)
Definition has_capital (c : ascii) : bool :=
  let n := code c in
  (((97 <=? n) && (n <=? 122)) || ((224 <=? n) && (n <=? 246))
   || ((248 <=? n) && (n <=? 254)))%N.

Definition lower_char (c : ascii) : ascii :=
  if is_upper c then ascii_of_N (code c + 32) else c.

(** [str.lower()] *)
Fixpoint lower (s : string) : string :=
  match s with
  | EmptyString => EmptyString
  | String c s' => String (lower_char c) (lower s')
  end.

(** The title case of a character, which is a text: the sharp s (223)
    becomes "Ss".  The title case of the micro sign (181) and of the y with
    diaeresis (255) is a code point above 255 (924 and 376), which the
    strings of the embedding do not have: see [title_in_range]; the
    character is left as it is there. *)
Definition title_char (c : ascii) : string :=
  if has_capital c then String (ascii_of_N (code c - 32)) EmptyString
  else if (code c =? 223)%N then "Ss"
  else String c EmptyString.

(** The title case of the first character is a text of code points
    0..255: the character is neither 181 nor 255. *)
Definition title_in_range (s : string) : bool :=
  match s with
  | EmptyString => true
  | String c _ => negb ((code c =? 181) || (code c =? 255))%N
  end.

(** [str.capitalize()]: the first character title-cased, the rest
    lower-cased; it is Python's result on the texts that satisfy
    [title_in_range]. *)
Definition capitalize (s : string) : string :=
  match s with
  | EmptyString => EmptyString
  | String c s' => title_char c ++ lower s'
  end.

(** The characters [str.strip()] and [str.split()] treat as white space:
    TAB, LF, VT, FF, CR, FS, GS, RS, US, space, NEL and NBSP. *)
Definition is_space (c : ascii) : bool :=
  let n := code c in
  (((9 <=? n) && (n <=? 13)) || ((28 <=? n) && (n <=? 32))
   || (n =? 133) || (n =? 160))%N.

(** The line boundaries of [str.splitlines()] other than CR:
    LF, VT, FF, FS, GS, RS and NEL. *)
Definition is_linebreak (c : ascii) : bool :=
  let n := code c in
  (((10 <=? n) && (n <=? 12)) || ((28 <=? n) && (n <=? 30)) || (n =? 133))%N.

Definition LF : ascii := ascii_of_N 10.
Definition CR : ascii := ascii_of_N 13.

Definition is_empty (s : string) : bool :=
  match s with EmptyString => true | _ => false end.

Fixpoint lstrip (s : string) : string :=
  match s with
  | EmptyString => EmptyString
  | String c s' => if is_space c then lstrip s' else s
  end.

Fixpoint rstrip (s : string) : string :=
  match s with
  | EmptyString => EmptyString
  | String c s' =>
      let r := rstrip s' in
      if is_empty r && is_space c then EmptyString else String c r
  end.

(** [str.strip()] *)
Definition strip (s : string) : string := lstrip (rstrip s).

(** [s.startswith(p)] *)
Definition startswith (s p : string) : bool := String.prefix p s.

(** [s.endswith(p)] *)
Fixpoint endswith (s p : string) : bool :=
  String.eqb s p
  || match s with
     | EmptyString => false
     | String _ s' => endswith s' p
     end.

(** [sub in s] *)
Fixpoint contains (sub s : string) : bool :=
  String.prefix sub s
  || match s with
     | EmptyString => false
     | String _ s' => contains sub s'
     end.

Fixpoint drop (n : nat) (s : string) : string :=
  match n, s with
  | O, _ => s
  | S _, EmptyString => EmptyString
  | S n', String _ s' => drop n' s'
  end.

(** [s[:n]] *)
Fixpoint take (n : nat) (s : string) : string :=
  match n, s with
  | O, _ => EmptyString
  | S _, EmptyString => EmptyString
  | S n', String c s' => String c (take n' s')
  end.

(** [s.split(sep, 1)] for a separator that occurs in [s]: the text before
    and the text after the first (leftmost) occurrence; [None] when [sep]
    does not occur. *)
Fixpoint split_once (sep s : string) : option (string * string) :=
  if String.prefix sep s then Some (EmptyString, drop (String.length sep) s)
  else match s with
       | EmptyString => None
       | String c s' =>
           match split_once sep s' with
           | Some (a, b) => Some (String c a, b)
           | None => None
           end
       end.

(** [s.split(c)] for a one-character separator. *)
Fixpoint split_char (sep : ascii) (s : string) : list string :=
  match s with
  | EmptyString => [EmptyString]
  | String c s' =>
      if Ascii.eqb c sep then EmptyString :: split_char sep s'
      else match split_char sep s' with
           | h :: t => String c h :: t
           | [] => [String c EmptyString]
           end
  end.

(** [s.splitlines()]: CR LF counts as one boundary, and no empty last
    line is produced for a text that ends in a boundary. *)
Fixpoint splitlines (s : string) : list string :=
  match s with
  | EmptyString => []
  | String c s' =>
      if Ascii.eqb c CR then
        match s' with
        | String c2 s'' =>
            if Ascii.eqb c2 LF then EmptyString :: splitlines s''
            else EmptyString :: splitlines s'
        | EmptyString => EmptyString :: splitlines s'
        end
      else if is_linebreak c then EmptyString :: splitlines s'
      else match splitlines s' with
           | h :: t => String c h :: t
           | [] => [String c EmptyString]
           end
  end.

(** [s.split()]: the maximal runs of non-space characters. *)
Fixpoint split_ws (s : string) : list string :=
  match s with
  | EmptyString => []
  | String c s' =>
      if is_space c then split_ws s'
      else match s' with
           | EmptyString => [String c EmptyString]
           | String c2 _ =>
               if is_space c2 then String c EmptyString :: split_ws s'
               else match split_ws s' with
                    | h :: t => String c h :: t
                    | [] => [String c EmptyString]
                    end
           end
  end.

(** [s.replace(a, b)] for one-character [a] and [b]. *)
Fixpoint replace_char (a b : ascii) (s : string) : string :=
  match s with
  | EmptyString => EmptyString
  | String c s' =>
      String (if Ascii.eqb c a then b else c) (replace_char a b s')
  end.

(** [sep.join(l)] *)
Definition join (sep : string) (l : list string) : string :=
  String.concat sep l.

(** [x in l] for a list of strings. *)
Definition mem (x : string) (l : list string) : bool :=
  existsb (String.eqb x) l.

(** [os.path.basename(p)]: what follows the last "/". *)
Definition basename (p : string) : string :=
  last (split_char "/"%char p) EmptyString.

(** [os.path.join(a, b)] for a relative [b]. *)
Definition path_join (a b : string) : string :=
  if is_empty a || endswith a "/" then a ++ b else a ++ "/" ++ b.

(** The suffix of [s] that starts at its last ".", if it has one. *)
Fixpoint last_dot (s : string) : option string :=
  match s with
  | EmptyString => None
  | String c s' =>
      match last_dot s' with
      | Some e => Some e
      | None => if Ascii.eqb c "."%char then Some s else None
      end
  end.

(** [os.path.splitext(name)[1]] for a file name without directory part:
    leading dots do not start an extension. *)
Fixpoint splitext_ext (name : string) : string :=
  match name with
  | EmptyString => EmptyString
  | String c s' =>
      if Ascii.eqb c "."%char then splitext_ext s'
      else match last_dot s' with
           | Some e => e
           | None => EmptyString
           end
  end.

(** [s.lstrip(c)] and [s.strip(c)] for a one-character set. *)
Fixpoint lstrip_char (c : ascii) (s : string) : string :=
  match s with
  | EmptyString => EmptyString
  | String d s' => if Ascii.eqb d c then lstrip_char c s' else s
  end.

Fixpoint rstrip_char (c : ascii) (s : string) : string :=
  match s with
  | EmptyString => EmptyString
  | String d s' =>
      let r := rstrip_char c s' in
      if is_empty r && Ascii.eqb d c then EmptyString else String d r
  end.

Definition strip_char (c : ascii) (s : string) : string :=
  lstrip_char c (rstrip_char c s).

(** [s.replace(old, "")]: the occurrences of [old] are removed from left
    to right, without overlap; [skip] counts the characters of a match
    still to be dropped. *)
Fixpoint remove_from (old : string) (skip : nat) (s : string) : string :=
  match s with
  | EmptyString => EmptyString
  | String c s' =>
      match skip with
      | S k => remove_from old k s'
      | O =>
          if String.prefix old s
          then remove_from old (Nat.pred (String.length old)) s'
          else String c (remove_from old O s')
      end
  end.

Definition remove_all (old s : string) : string :=
  if is_empty old then s else remove_from old O s.

(** [fnmatch.fnmatchcase(s, p)] for a pattern made of literal characters,
    "*" and "?" (bracket expressions are not modelled). *)
Fixpoint fnmatch (s p : string) {struct p} : bool :=
  match p with
  | EmptyString => is_empty s
  | String c p' =>
      if Ascii.eqb c "*"%char then
        (fix any (s : string) : bool :=
           fnmatch s p'
           || match s with
              | EmptyString => false
              | String _ s' => any s'
              end) s
      else
        match s with
        | EmptyString => false
        | String d s' =>
            (Ascii.eqb c "?"%char || Ascii.eqb c d) && fnmatch s' p'
        end
  end.

End Str.

(* ================================================================== *)
(** * Python dictionaries with string keys *)
(* ================================================================== *)

Module Dict.
Section WithValue.
Context {V : Type}.

Definition t : Type := list (string * V).

(** [d.get(k)] *)
Fixpoint get (d : t) (k : string) : option V :=
  match d with
  | [] => None
  | (k', v) :: d' => if String.eqb k' k then Some v else get d' k
  end.

(** [k in d] *)
Definition mem (d : t) (k : string) : bool :=
  match get d k with Some _ => true | None => false end.

(** [d[k] = v]: an existing key keeps its position, a new key goes last. *)
Fixpoint set (d : t) (k : string) (v : V) : t :=
  match d with
  | [] => [(k, v)]
  | (k', v') :: d' =>
      if String.eqb k' k then (k', v) :: d' else (k', v') :: set d' k v
  end.

Definition keys (d : t) : list string := map fst d.

End WithValue.
Arguments t : clear implicits.
End Dict.

(* ================================================================== *)
(** * Sorting and the error monad *)
(* ================================================================== *)

Module Py.

(** [sorted(l, key=key, reverse=True)]: a stable sort, so elements with
    equal keys keep the order they have in [l]. *)
Section SortDesc.
Context {A : Type} (key : A -> Z).

Fixpoint insert_desc (x : A) (l : list A) : list A :=
  match l with
  | [] => [x]
  | y :: l' => if key x <? key y then y :: insert_desc x l' else x :: l
  end.

Fixpoint sorted_desc (l : list A) : list A :=
  match l with
  | [] => []
  | x :: l' => insert_desc x (sorted_desc l')
  end.
End SortDesc.

(** [len(l)] *)
Definition len {A : Type} (l : list A) : Z := Z.of_nat (List.length l).

(** A call that may raise: [None] is the raised exception. *)
Definition bind {A B : Type} (m : option A) (k : A -> option B) : option B :=
  match m with
  | Some x => k x
  | None => None
  end.

(** A loop whose body may raise. *)
Fixpoint for_each {A S : Type} (body : S -> A -> option S) (l : list A) (s : S)
  : option S :=
  match l with
  | [] => Some s
  | x :: l' => bind (body s x) (for_each body l')
  end.

End Py.

Notation "x <- m ;; k" := (Py.bind m (fun x => k))
  (at level 61, m at next level, right associativity).

(* ================================================================== *)
(** * The file system *)
(* ================================================================== *)

Module Fs.

(** A directory entry.  [size] is [os.path.getsize] and [content] is
    [FileRepository.read_file]; [None] when the call raises. *)
Inductive entry : Type :=
| File (name : string) (size : option Z) (content : option string)
| Dir (name : string) (children : list entry).

Definition name (e : entry) : string :=
  match e with
  | File n _ _ => n
  | Dir n _ => n
  end.

Definition is_dir (e : entry) : bool :=
  match e with
  | Dir _ _ => true
  | File _ _ _ => false
  end.

Definition is_file (e : entry) : bool := negb (is_dir e).

Definition size (e : entry) : option Z :=
  match e with
  | File _ s _ => s
  | Dir _ _ => None
  end.

Definition content (e : entry) : option string :=
  match e with
  | File _ _ c => c
  | Dir _ _ => None
  end.

(** [os.listdir] of a directory with the entries [es]. *)
Definition listdir (es : list entry) : list string := map name es.

Definition find (es : list entry) (n : string) : option entry :=
  List.find (fun e => String.eqb (name e) n) es.

(** The entries of the sub-directory [n], when there is one. *)
Definition subdir (es : list entry) (n : string) : option (list entry) :=
  match find es n with
  | Some (Dir _ children) => Some children
  | _ => None
  end.

(** [os.path.isdir(os.path.join(dir, n))] *)
Definition isdir (es : list entry) (n : string) : bool :=
  match subdir es n with Some _ => true | None => false end.

(** [os.path.isfile(os.path.join(dir, n))], which is
    [FileRepository.file_exists]. *)
Definition file_exists (es : list entry) (n : string) : bool :=
  match find es n with
  | Some (File _ _ _) => true
  | _ => false
  end.

(** [FileRepository.read_file(os.path.join(dir, n))] *)
Definition read_file (es : list entry) (n : string) : option string :=
  match find es n with
  | Some e => content e
  | None => None
  end.

(** The entry at the end of a path given by its components. *)
Fixpoint lookup (es : list entry) (path : list string) : option entry :=
  match path with
  | [] => None
  | [n] => find es n
  | n :: rest =>
      match subdir es n with
      | Some children => lookup children rest
      | None => None
      end
  end.

Definition path_is_file (es : list entry) (path : list string) : bool :=
  match lookup es path with
  | Some (File _ _ _) => true
  | _ => false
  end.

Definition path_is_dir (es : list entry) (path : list string) : bool :=
  match lookup es path with
  | Some (Dir _ _) => true
  | _ => false
  end.

Definition path_read (es : list entry) (path : list string) : option string :=
  match lookup es path with
  | Some e => content e
  | None => None
  end.

(** One [(root, dirs, files)] triple of [os.walk]. *)
Record walk_item : Type := mk_walk_item {
  root : string;
  dirs : list string;
  files : list entry
}.

(** [os.walk(path)], top-down, of the directory [e] found at [path].
    [keep] is the pruning the loop body does with [dirs[:] = ...]: the
    triple carries the kept names and only they are descended into. *)
Fixpoint walk_entry (keep : string -> bool) (path : string) (e : entry)
  : list walk_item :=
  match e with
  | File _ _ _ => []
  | Dir _ children =>
      mk_walk_item path
        (filter keep (map name (filter is_dir children)))
        (filter is_file children)
      :: flat_map
           (fun c =>
              match c with
              | Dir n _ =>
                  if keep n then walk_entry keep (Str.path_join path n) c
                  else []
              | File _ _ _ => []
              end)
           children
  end.

Definition walk_pruned (keep : string -> bool) (path : string)
  (es : list entry) : list walk_item :=
  walk_entry keep path (Dir EmptyString es).

(** [os.walk(path)] without pruning. *)
Definition walk (path : string) (es : list entry) : list walk_item :=
  walk_pruned (fun _ => true) path es.

End Fs.

(* ================================================================== *)
(** * The technology registry (technology_analyzer.py) *)
(* ================================================================== *)


Module TechnologyAnalyzer.

(** An entry of a category list: the dict literal
    [{"name": .., "importance": ..}], with ["count"] for the entries of
    the extension census. *)
Record tech_entry : Type := mk_entry {
  te_name : string;
  te_count : option Z;
  te_importance : Z
}.

(** [result]: category -> list of entries. *)
Definition registry : Type := Dict.t (list tech_entry).

(** The literal [detect_technologies] starts from. *)
Definition initial_result : registry :=
  [ ("language", []); ("framework", []); ("database", []);
    ("frontend", []); ("backend", []); ("devops", []);
    ("testing", []); ("architecture", []); ("other", []) ].

(** [result[category]]; [[]] stands for a category that is not a key. *)
Definition entries (result : registry) (category : string) : list tech_entry :=
  match Dict.get result category with
  | Some l => l
  | None => []
  end.

(** The [for tech in result[category]] loop of
    [_add_technology_if_not_exists]: [Some l'] when an entry with the name
    was found and [return] was reached, [l'] being the list as the loop
    leaves it; [None] when the loop ran to its end. *)
Fixpoint bump_first (name : string) (importance : Z) (l : list tech_entry)
  : option (list tech_entry) :=
  match l with
  | [] => None
  | tech :: l' =>
      if String.eqb (te_name tech) name then
        if te_importance tech <? importance
        then Some (mk_entry (te_name tech) (te_count tech) importance :: l')
        else Some l
      else match bump_first name importance l' with
           | Some l'' => Some (tech :: l'')
           | None => None
           end
  end.

Definition _add_technology_if_not_exists
  (result : registry) (category name : string) (importance : Z) : registry :=
  let result :=
    if Dict.mem result category then result else Dict.set result category [] in
  match bump_first name importance (entries result category) with
  | Some l' => Dict.set result category l'
  | None =>
      Dict.set result category
        (entries result category ++ [mk_entry name None importance])
  end.

(** ** Requirements-style manifests *)

(** A parsed package, [{"name": .., "version": ..}]. *)
Record package : Type := mk_package {
  pk_name : string;
  pk_version : string
}.

(** The body of the [for line in content.splitlines()] loop of
    [_parse_requirements_txt]: [None] is [continue]. *)
Definition parse_requirement_line (line : string) : option package :=
  let line := Str.strip line in
  if Str.is_empty line || Str.startswith line "#" then None
  else
    let '(name, version) :=
      if Str.contains "==" line then
        match Str.split_once "==" line with Some nv => nv | None => (line, "") end
      else if Str.contains ">=" line then
        match Str.split_once ">=" line with Some nv => nv | None => (line, "") end
      else if Str.contains "<=" line then
        match Str.split_once "<=" line with Some nv => nv | None => (line, "") end
      else if Str.contains "~=" line then
        match Str.split_once "~=" line with Some nv => nv | None => (line, "") end
      else (line, "") in
    let name := Str.strip name in
    let version := if Str.is_empty version then version else Str.strip version in
    Some (mk_package name version).

Fixpoint parse_requirement_lines (lines : list string) : list package :=
  match lines with
  | [] => []
  | line :: rest =>
      match parse_requirement_line line with
      | Some p => p :: parse_requirement_lines rest
      | None => parse_requirement_lines rest
      end
  end.

(** [_parse_requirements_txt], given what [read_file] returns: a read
    that raises is caught and leaves the empty list. *)
Definition _parse_requirements_txt (content : option string) : list package :=
  match content with
  | Some content => parse_requirement_lines (Str.splitlines content)
  | None => []
  end.

(** ** Library tables *)

Record lib_info : Type := mk_lib {
  li_category : string;
  li_importance : Z;
  li_name : string
}.

Definition add_lib (result : registry) (info : lib_info) : registry :=
  _add_technology_if_not_exists result
    (li_category info) (li_name info) (li_importance info).

(** [{**a, **b}] *)
Definition merge {V : Type} (a b : Dict.t V) : Dict.t V :=
  fold_left (fun d kv => Dict.set d (fst kv) (snd kv)) b a.

Definition python_frameworks : Dict.t lib_info :=
  [ ("django", mk_lib "framework" 5 "Django");
    ("flask", mk_lib "framework" 5 "Flask");
    ("fastapi", mk_lib "framework" 5 "FastAPI");
    ("tornado", mk_lib "framework" 4 "Tornado");
    ("sanic", mk_lib "framework" 4 "Sanic");
    ("pyramid", mk_lib "framework" 4 "Pyramid");
    ("aiohttp", mk_lib "framework" 4 "AIOHTTP");
    ("sqlalchemy", mk_lib "database" 4 "SQLAlchemy");
    ("django-rest-framework", mk_lib "backend" 4 "Django REST Framework");
    ("djangorestframework", mk_lib "backend" 4 "Django REST Framework");
    ("alembic", mk_lib "database" 3 "Alembic");
    ("pytest", mk_lib "testing" 4 "PyTest");
    ("unittest", mk_lib "testing" 3 "unittest");
    ("selenium", mk_lib "testing" 3 "Selenium");
    ("behave", mk_lib "testing" 3 "Behave");
    ("celery", mk_lib "backend" 4 "Celery");
    ("redis", mk_lib "database" 3 "Redis");
    ("pymongo", mk_lib "database" 3 "MongoDB (PyMongo)");
    ("psycopg2", mk_lib "database" 3 "PostgreSQL");
    ("psycopg2-binary", mk_lib "database" 3 "PostgreSQL");
    ("pymysql", mk_lib "database" 3 "MySQL");
    ("mysqlclient", mk_lib "database" 3 "MySQL") ].

Definition _process_python_packages (packages : list package)
  (result : registry) : registry :=
  let result := _add_technology_if_not_exists result "language" "Python" 5 in
  fold_left
    (fun result package =>
       let name := Str.lower (pk_name package) in
       let result :=
         match Dict.get python_frameworks name with
         | Some lib_info => add_lib result lib_info
         | None => result
         end in
       let result :=
         if Str.startswith name "django"
         then _add_technology_if_not_exists result "framework" "Django" 5
         else result in
       let result :=
         if Str.startswith name "flask"
         then _add_technology_if_not_exists result "framework" "Flask" 5
         else result in
       if String.eqb name "fastapi"
       then _add_technology_if_not_exists result "framework" "FastAPI" 5
       else result)
    packages result.

(** ** npm-style manifests *)

(** What [_parse_package_json] returns; [json.loads] is outside the
    repository, so the parsed object is the input here. *)
Record package_data : Type := mk_package_data {
  pkg_name : string;
  pkg_dependencies : Dict.t string;
  pkg_devDependencies : Dict.t string;
  pkg_scripts : Dict.t string
}.

Definition all_dependencies (p : package_data) : Dict.t string :=
  merge (pkg_dependencies p) (pkg_devDependencies p).

(** The object [_parse_package_json] returns when reading or parsing
    raises. *)
Definition empty_package_data : package_data :=
  mk_package_data "" [] [] [].

Definition frontend_frameworks : Dict.t lib_info :=
  [ ("react", mk_lib "frontend" 5 "React");
    ("vue", mk_lib "frontend" 5 "Vue.js");
    ("angular", mk_lib "frontend" 5 "Angular");
    ("svelte", mk_lib "frontend" 5 "Svelte");
    ("next", mk_lib "frontend" 5 "Next.js");
    ("nuxt", mk_lib "frontend" 5 "Nuxt.js");
    ("gatsby", mk_lib "frontend" 4 "Gatsby");
    ("@angular/core", mk_lib "frontend" 5 "Angular");
    ("jquery", mk_lib "frontend" 3 "jQuery");
    ("bootstrap", mk_lib "frontend" 3 "Bootstrap");
    ("tailwindcss", mk_lib "frontend" 4 "Tailwind CSS") ].

Definition backend_frameworks : Dict.t lib_info :=
  [ ("express", mk_lib "backend" 5 "Express.js");
    ("koa", mk_lib "backend" 5 "Koa.js");
    ("fastify", mk_lib "backend" 4 "Fastify");
    ("nest", mk_lib "backend" 5 "NestJS");
    ("@nestjs/core", mk_lib "backend" 5 "NestJS");
    ("hapi", mk_lib "backend" 4 "Hapi.js");
    ("feathers", mk_lib "backend" 4 "Feathers.js");
    ("socket.io", mk_lib "backend" 3 "Socket.IO");
    ("apollo-server", mk_lib "backend" 4 "Apollo Server") ].

Definition database_libs : Dict.t lib_info :=
  [ ("mongoose", mk_lib "database" 4 "MongoDB (Mongoose)");
    ("mongodb", mk_lib "database" 4 "MongoDB");
    ("sequelize", mk_lib "database" 4 "SQL (Sequelize)");
    ("typeorm", mk_lib "database" 4 "TypeORM");
    ("prisma", mk_lib "database" 4 "Prisma");
    ("pg", mk_lib "database" 3 "PostgreSQL");
    ("mysql", mk_lib "database" 3 "MySQL");
    ("sqlite3", mk_lib "database" 3 "SQLite");
    ("redis", mk_lib "database" 3 "Redis") ].

Definition testing_libs : Dict.t lib_info :=
  [ ("jest", mk_lib "testing" 4 "Jest");
    ("mocha", mk_lib "testing" 4 "Mocha");
    ("chai", mk_lib "testing" 3 "Chai");
    ("jasmine", mk_lib "testing" 3 "Jasmine");
    ("karma", mk_lib "testing" 3 "Karma");
    ("enzyme", mk_lib "testing" 3 "Enzyme");
    ("@testing-library/react", mk_lib "testing" 3 "React Testing Library");
    ("cypress", mk_lib "testing" 4 "Cypress");
    ("selenium-webdriver", mk_lib "testing" 3 "Selenium") ].

Definition devops_libs : Dict.t lib_info :=
  [ ("webpack", mk_lib "devops" 4 "Webpack");
    ("babel", mk_lib "devops" 3 "Babel");
    ("@babel/core", mk_lib "devops" 3 "Babel");
    ("gulp", mk_lib "devops" 3 "Gulp");
    ("grunt", mk_lib "devops" 3 "Grunt");
    ("eslint", mk_lib "devops" 3 "ESLint");
    ("prettier", mk_lib "devops" 3 "Prettier");
    ("typescript", mk_lib "language" 5 "TypeScript");
    ("ts-node", mk_lib "devops" 3 "ts-node");
    ("vite", mk_lib "devops" 4 "Vite") ].

Definition all_libs : Dict.t lib_info :=
  merge (merge (merge (merge frontend_frameworks backend_frameworks)
                  database_libs) testing_libs) devops_libs.

(** [key in scripts and sub in scripts[key]] *)
Definition script_mentions (scripts : Dict.t string) (key sub : string) : bool :=
  match Dict.get scripts key with
  | Some v => Str.contains sub v
  | None => false
  end.

(** The state of the [for lib, version in deps.items()] loop. *)
Record js_scan : Type := mk_js_scan {
  js_result : registry;
  js_is_frontend : bool;
  js_is_backend : bool
}.

Definition js_scan_step (st : js_scan) (dep : string * string) : js_scan :=
  let lib := fst dep in
  let lib_name :=
    if Str.startswith lib "@"
    then last (Str.split_char "/"%char lib) EmptyString
    else lib in
  let result :=
    match Dict.get all_libs lib with
    | Some lib_info => add_lib (js_result st) lib_info
    | None => js_result st
    end in
  mk_js_scan result
    (if Dict.mem frontend_frameworks lib || Dict.mem frontend_frameworks lib_name
     then true else js_is_frontend st)
    (if Dict.mem backend_frameworks lib || Dict.mem backend_frameworks lib_name
     then true else js_is_backend st).

Definition _process_js_packages (package_data : package_data)
  (result : registry) : registry :=
  let deps := all_dependencies package_data in
  let scripts := pkg_scripts package_data in
  let result := _add_technology_if_not_exists result "language" "JavaScript" 5 in
  let result :=
    if Dict.mem deps "typescript" || Dict.mem deps "ts-node"
       || Dict.mem scripts "tsc"
    then _add_technology_if_not_exists result "language" "TypeScript" 5
    else result in
  let st := fold_left js_scan_step deps (mk_js_scan result false false) in
  let result := js_result st in
  let result :=
    if js_is_frontend st && js_is_backend st
    then _add_technology_if_not_exists result "other" "Fullstack JavaScript" 4
    else result in
  let result :=
    if Dict.mem deps "react" || Dict.mem deps "react-dom"
    then _add_technology_if_not_exists result "frontend" "React" 5
    else result in
  let result :=
    if Dict.mem deps "react-native"
    then _add_technology_if_not_exists result "framework" "React Native" 5
    else result in
  match scripts with
  | [] => result
  | _ =>
      let result :=
        if script_mentions scripts "build" "react-scripts"
           || script_mentions scripts "build" "next"
        then _add_technology_if_not_exists result "frontend" "React" 5
        else result in
      let result :=
        if script_mentions scripts "dev" "next"
        then _add_technology_if_not_exists result "frontend" "Next.js" 5
        else result in
      let result :=
        if script_mentions scripts "dev" "nuxt"
        then _add_technology_if_not_exists result "frontend" "Nuxt.js" 5
        else result in
      if script_mentions scripts "start" "electron"
      then _add_technology_if_not_exists result "framework" "Electron" 4
      else result
  end.

(** ** Ignore lists *)

Definition ignored_dirs : list string :=
  [ ".git"; ".github"; ".vscode"; ".idea"; ".vs";
    "node_modules"; "__pycache__"; "venv"; "env";
    "dist"; "build"; "target"; "bin"; "obj";
    ".pytest_cache"; ".coverage"; ".next"; "coverage";
    ".nuget"; "packages"; ".gradle" ].

Definition _is_ignored_dir (path : string) : bool :=
  existsb (fun ignored => Str.mem ignored (Str.split_char "/"%char path))
    ignored_dirs.

Definition ignored_patterns : list string :=
  [ ".gitignore"; ".gitattributes"; ".DS_Store"; "Thumbs.db";
    ".env"; ".env.local"; ".env.development"; ".env.test"; ".env.production";
    "*.pyc"; "*.pyo"; "*.pyd"; "*.so"; "*.dll"; "*.exe"; "*.obj"; "*.o";
    "*.a"; "*.lib"; "*.egg"; "*.egg-info"; "*.whl"; "*.pdb"; "*.cache";
    "*.class"; "*.jar"; "*.war"; "*.ear"; "*.zip"; "*.tar.gz"; "*.rar" ].

Definition _is_ignored_file (filename : string) : bool :=
  existsb (fun pattern => Str.fnmatch filename pattern) ignored_patterns.

(** ** Extension census *)

(** [d[k] = d.get(k, 0) + n] *)
Definition count_up (d : Dict.t Z) (k : string) (n : Z) : Dict.t Z :=
  Dict.set d k (match Dict.get d k with Some c => c | None => 0 end + n).

Definition census_file (counts : Dict.t Z) (file : Fs.entry) : Dict.t Z :=
  if _is_ignored_file (Fs.name file) then counts
  else
    let ext := Str.lstrip_char "."%char (Str.splitext_ext (Fs.name file)) in
    if Str.is_empty ext then counts else count_up counts ext 1.

Definition extension_counts (project_path : string) (es : list Fs.entry)
  : Dict.t Z :=
  fold_left
    (fun counts item =>
       if _is_ignored_dir (Fs.root item) then counts
       else fold_left census_file (Fs.files item) counts)
    (Fs.walk project_path es) [].

Definition language_counts (extensions_config : Dict.t string)
  (counts : Dict.t Z) : Dict.t Z :=
  fold_left
    (fun languages ec =>
       match Dict.get extensions_config (fst ec) with
       | Some language => count_up languages language (snd ec)
       | None => languages
       end)
    counts [].

Definition rank_importance (i : Z) : Z :=
  if i =? 0 then 5 else if i =? 1 then 4 else if i <? 4 then 3 else 2.

(** The [enumerate] loop: [result["language"].append(..)]. *)
Fixpoint append_languages (i : Z) (sorted_languages : list (string * Z))
  (result : registry) : registry :=
  match sorted_languages with
  | [] => result
  | (language, count) :: rest =>
      append_languages (i + 1) rest
        (Dict.set result "language"
           (entries result "language"
            ++ [mk_entry language (Some count) (rank_importance i)]))
  end.

Definition _analyze_file_extensions (extensions_config : Dict.t string)
  (project_path : string) (es : list Fs.entry) (result : registry) : registry :=
  let languages :=
    language_counts extensions_config (extension_counts project_path es) in
  let sorted_languages := Py.sorted_desc snd languages in
  append_languages 0 sorted_languages result.

(** ** Directory scanner *)

Definition directory_to_tech : Dict.t lib_info :=
  [ ("node_modules", mk_lib "language" 3 "Node.js");
    ("vendor", mk_lib "devops" 3 "Composer (PHP)");
    ("migrations", mk_lib "database" 3 "Database Migrations");
    ("controllers", mk_lib "architecture" 3 "MVC Architecture");
    ("views", mk_lib "architecture" 3 "MVC Architecture");
    ("models", mk_lib "architecture" 3 "MVC Architecture");
    ("templates", mk_lib "frontend" 3 "Template Engine");
    ("components", mk_lib "frontend" 3 "Component-based Framework");
    ("pages", mk_lib "frontend" 3 "Page-based Framework");
    ("routes", mk_lib "backend" 3 "Routing");
    ("middlewares", mk_lib "backend" 3 "Middleware Pattern");
    ("middleware", mk_lib "backend" 3 "Middleware Pattern");
    ("hooks", mk_lib "framework" 3 "Hook System");
    ("services", mk_lib "architecture" 3 "Service Layer");
    ("repositories", mk_lib "architecture" 3 "Repository Pattern");
    ("providers", mk_lib "architecture" 3 "Provider Pattern");
    ("tests", mk_lib "testing" 3 "Automated Tests");
    ("test", mk_lib "testing" 3 "Automated Tests");
    ("spec", mk_lib "testing" 3 "Automated Tests");
    ("scripts", mk_lib "devops" 2 "Script Collection");
    ("docs", mk_lib "other" 2 "Documentation");
    ("artifacts", mk_lib "devops" 2 "Build Artifacts");
    ("dist", mk_lib "devops" 2 "Distribution");
    ("build", mk_lib "devops" 2 "Build Output");
    ("bin", mk_lib "devops" 2 "Binaries");
    ("obj", mk_lib "devops" 2 ".NET Object Files");
    ("packages", mk_lib "devops" 2 "Package Management");
    ("modules", mk_lib "architecture" 2 "Module System");
    ("api", mk_lib "backend" 3 "API");
    ("public", mk_lib "frontend" 2 "Public Assets");
    ("static", mk_lib "frontend" 2 "Static Assets");
    ("assets", mk_lib "frontend" 2 "Asset Files");
    ("styles", mk_lib "frontend" 2 "CSS Styles");
    ("images", mk_lib "frontend" 2 "Image Files");
    ("fonts", mk_lib "frontend" 2 "Font Files");
    ("config", mk_lib "devops" 2 "Configuration");
    ("configs", mk_lib "devops" 2 "Configuration");
    ("configuration", mk_lib "devops" 2 "Configuration");
    ("environments", mk_lib "devops" 2 "Environment Config") ].

(** The [if .. elif ..] chain on the special-cased directory names. *)
Definition framework_directory_names : Dict.t lib_info :=
  [ ("angular", mk_lib "frontend" 4 "Angular");
    ("react", mk_lib "frontend" 4 "React");
    ("vue", mk_lib "frontend" 4 "Vue.js");
    ("django", mk_lib "framework" 4 "Django");
    ("flask", mk_lib "framework" 4 "Flask");
    ("spring", mk_lib "framework" 4 "Spring");
    ("laravel", mk_lib "framework" 4 "Laravel");
    ("express", mk_lib "backend" 4 "Express.js");
    ("react-native", mk_lib "framework" 4 "React Native");
    ("flutter", mk_lib "framework" 4 "Flutter") ].

(** The body of [for dir_name in dirs]. *)
Definition check_directory (result : registry) (dir_name : string) : registry :=
  let dir_name_lower := Str.lower dir_name in
  if Str.startswith dir_name_lower "." then result
  else
    let result :=
      match Dict.get directory_to_tech dir_name_lower with
      | Some tech_info => add_lib result tech_info
      | None => result
      end in
    match Dict.get framework_directory_names dir_name_lower with
    | Some tech_info => add_lib result tech_info
    | None => result
    end.

(** [len(root.replace(project_path, '').strip(os.path.sep).split(os.path.sep))] *)
Definition root_depth (project_path root : string) : Z :=
  Py.len (Str.split_char "/"%char
            (Str.strip_char "/"%char (Str.remove_all project_path root))).

Definition _check_framework_directories (project_path : string)
  (es : list Fs.entry) (result : registry) : registry :=
  fold_left
    (fun result item =>
       if root_depth project_path (Fs.root item) >? 2 then result
       else if _is_ignored_dir (Fs.root item) then result
       else fold_left check_directory (Fs.dirs item) result)
    (Fs.walk project_path es) result.

(** ** The detection pipeline *)

(** A call [_add_technology_if_not_exists(result, category, name,
    importance)]. *)
Record upsert : Type := mk_upsert {
  up_category : string;
  up_name : string;
  up_importance : Z
}.

Definition run_upserts (calls : list upsert) (result : registry) : registry :=
  fold_left
    (fun result c =>
       _add_technology_if_not_exists result
         (up_category c) (up_name c) (up_importance c))
    calls result.

(** A project as the detectors see it.  The detectors embedded above read
    the file tree.  The other detectors ([setup.py], [pyproject.toml],
    Cargo, Maven, Gradle, the configured marker files, the DevOps
    markers, .NET, CMake, Android, iOS) depend on the configuration file
    and on [toml], [json] and [re]; each of them touches [result] through
    [_add_technology_if_not_exists] only, so what it does on a project
    is the sequence of its calls, in the order of the source. *)
Record project : Type := mk_project {
  project_path : string;
  project_entries : list Fs.entry;
(** configuration key [analyzers.file_extensions] *)
  extensions_config : Dict.t string;
(** what [_parse_package_json] returns for [package.json] *)
  package_json : package_data;
(** [setup.py], [pyproject.toml] *)
  python_manifest_calls : list upsert;
(** [Cargo.toml], [pom.xml], [build.gradle], [build.gradle.kts] *)
  other_manifest_calls : list upsert;
(** the marker loop of [_analyze_config_files] and
    [_check_devops_tools] *)
  marker_calls : list upsert;
(** [_analyze_project_files] *)
  project_file_calls : list upsert
}.

Definition _analyze_package_files (p : project) (result : registry) : registry :=
  let es := project_entries p in
  let result :=
    if Fs.file_exists es "requirements.txt"
    then _process_python_packages
           (_parse_requirements_txt (Fs.read_file es "requirements.txt")) result
    else result in
  let result := run_upserts (python_manifest_calls p) result in
  let result :=
    if Fs.file_exists es "package.json"
    then _process_js_packages (package_json p) result
    else result in
  run_upserts (other_manifest_calls p) result.

Definition _analyze_config_files (p : project) (result : registry) : registry :=
  let result := run_upserts (marker_calls p) result in
  _check_framework_directories (project_path p) (project_entries p) result.

Definition _analyze_project_files (p : project) (result : registry) : registry :=
  run_upserts (project_file_calls p) result.

Definition detect_technologies (p : project) : registry :=
  let result := initial_result in
  let result :=
    _analyze_file_extensions (extensions_config p) (project_path p)
      (project_entries p) result in
  let result := _analyze_package_files p result in
  let result := _analyze_config_files p result in
  let result := _analyze_project_files p result in
  result.

End TechnologyAnalyzer.

(* ================================================================== *)
(** * File statistics (structure_analyzer.py) *)
(* ================================================================== *)

Module StructureAnalyzer.

Definition ignored_dirs : list string := TechnologyAnalyzer.ignored_dirs.

Definition ignored_files : list string := TechnologyAnalyzer.ignored_patterns.

(** [item in names or any(item.endswith(pattern[1:]) for pattern in names
    if pattern.startswith('*'))] *)
Definition is_ignored (names : list string) (item : string) : bool :=
  Str.mem item names
  || existsb (fun pattern => Str.endswith item (Str.drop 1 pattern))
       (filter (fun pattern => Str.startswith pattern "*") names).

Record largest_file : Type := mk_largest {
  lf_path : string;
  lf_size : Z
}.

Record stats : Type := mk_stats {
  total_files : Z;
  total_dirs : Z;
  file_types : Dict.t Z;
  largest_files : list largest_file
}.

(** [os.path.relpath(path, start)] for a [path] below [start]. *)
Definition relpath (path start : string) : string :=
  Str.lstrip_char "/"%char
    (Str.drop (String.length (Str.rstrip_char "/"%char start)) path).

(** The [try] block of the loop: the running list of the largest files.
    [size] is [None] when [os.path.getsize] raises, which the bare
    [except] swallows. *)
Definition update_largest (largest : list largest_file) (path : string)
  (size : option Z) : list largest_file :=
  match size with
  | None => largest
  | Some file_size =>
      if (Py.len largest <? 5)
         || (file_size >? lf_size (last largest (mk_largest "" 0)))
      then firstn 5 (Py.sorted_desc lf_size
                       (largest ++ [mk_largest path file_size]))
      else largest
  end.

(** The body of [for file in files]. *)
Definition stats_file (project_path root : string) (st : stats)
  (file : Fs.entry) : stats :=
  if is_ignored ignored_files (Fs.name file) then st
  else
    let ext := Str.lower (Str.splitext_ext (Fs.name file)) in
    mk_stats
      (total_files st + 1)
      (total_dirs st)
      (if Str.is_empty ext then file_types st
       else TechnologyAnalyzer.count_up (file_types st) ext 1)
      (update_largest (largest_files st)
         (relpath (Str.path_join root (Fs.name file)) project_path)
         (Fs.size file)).

(** The body of [for root, dirs, files in os.walk(project_path)]; the
    pruning [dirs[:] = ..] is the [keep] of the walk. *)
Definition stats_item (project_path : string) (st : stats)
  (item : Fs.walk_item) : stats :=
  let st :=
    mk_stats (total_files st) (total_dirs st + Py.len (Fs.dirs item))
      (file_types st) (largest_files st) in
  fold_left (stats_file project_path (Fs.root item)) (Fs.files item) st.

Definition _collect_file_stats (project_path : string) (es : list Fs.entry)
  : stats :=
  fold_left (stats_item project_path)
    (Fs.walk_pruned (fun d => negb (is_ignored ignored_dirs d)) project_path es)
    (mk_stats 0 0 [] []).

End StructureAnalyzer.

(* ================================================================== *)
(** * Entities (domain/entities/project.py) *)
(* ================================================================== *)

Module Entities.

Record Technology : Type := mk_Technology {
  tech_name : string;
  tech_category : string;
  tech_version : option string;
  tech_importance : Z
}.

Record Feature : Type := mk_Feature {
  feat_name : string;
  feat_description : string;
  feat_category : string;
  feat_priority : Z
}.

(** The fields of [Project] the embedded methods read. *)
Record Project : Type := mk_Project {
  name : string;
  path : string;
  description : string;
  technologies : list Technology;
  features : list Feature
}.

Definition is_language (tech : Technology) : bool :=
  String.eqb (tech_category tech) "language".

Definition get_primary_language (self : Project) : option string :=
  let languages := filter is_language (technologies self) in
  match languages with
  | [] => None
  | _ :: _ =>
      match Py.sorted_desc tech_importance languages with
      | first :: _ => Some (tech_name first)
      | [] => None
      end
  end.

Definition main_language (self : Project) : option string :=
  match technologies self with
  | [] => None
  | _ =>
      let sorted_tech := Py.sorted_desc tech_importance (technologies self) in
      match filter is_language sorted_tech with
      | first :: _ => Some (tech_name first)
      | [] =>
          match sorted_tech with
          | first :: _ => Some (tech_name first)
          | [] => None
          end
      end
  end.

Definition get_feature_descriptions (self : Project) : Dict.t string :=
  fold_left
    (fun d feature => Dict.set d (feat_name feature) (feat_description feature))
    (features self) [].

Definition get_technologies_by_category (self : Project)
  : Dict.t (list Technology) :=
  fold_left
    (fun result tech =>
       let result :=
         if Dict.mem result (tech_category tech) then result
         else Dict.set result (tech_category tech) [] in
       Dict.set result (tech_category tech)
         (match Dict.get result (tech_category tech) with
          | Some l => l
          | None => []
          end ++ [tech]))
    (technologies self) [].

Definition is_framework (tech : Technology) : bool :=
  String.eqb (tech_category tech) "framework".

Definition get_primary_framework (self : Project) : option string :=
  let frameworks := filter is_framework (technologies self) in
  match frameworks with
  | [] => None
  | _ :: _ =>
      match Py.sorted_desc tech_importance frameworks with
      | first :: _ => Some (tech_name first)
      | [] => None
      end
  end.

End Entities.

(* ================================================================== *)
(** * The project aggregator (project_analyzer.py) *)
(* ================================================================== *)

Module ProjectAnalyzer.

Import Entities.
Import TechnologyAnalyzer.

(** ** Description *)

(** [description[:200] + ('...' if len(description) > 200 else '')] *)
Definition truncate (description : string) : string :=
  Str.take 200 description
  ++ (if (200 <? String.length description)%nat then "..." else "").

(** The [for i, line in enumerate(lines)] loop of the README provider;
    [None] when the loop ends without [return]. *)
Fixpoint readme_scan (i : Z) (lines : list string) : option string :=
  match lines with
  | [] => None
  | line :: rest =>
      if negb (Str.is_empty (Str.strip line))
         && negb (Str.startswith line "#")
         && (i >? 0)
      then Some (truncate (Str.strip line))
      else readme_scan (i + 1) rest
  end.

Definition readme_description (content : string) : option string :=
  readme_scan 0 (Str.split_char Str.LF content).

(** [_detect_project_description].  [package_description] is the
    ["description"] of a [package.json] that exists and parses ([json] is
    outside the repository); [later_providers] is what the providers
    after the README one return (project files, doc comments found with
    [re], the synthesized sentence, the literal fallback). *)
Definition _detect_project_description (package_description : option string)
  (es : list Fs.entry) (later_providers : string) : string :=
  match package_description with
  | Some description => description
  | None =>
      let readme :=
        if Fs.file_exists es "README.md"
        then match Fs.read_file es "README.md" with
             | Some content => readme_description content
             | None => None
             end
        else None in
      match readme with
      | Some description => description
      | None => later_providers
      end
  end.

(** ** Technologies *)

Definition _convert_technologies_data (tech_data : registry) : list Technology :=
  flat_map
    (fun ci =>
       map (fun item =>
              mk_Technology (te_name item) (fst ci) None (te_importance item))
         (snd ci))
    tech_data.

Definition library_category_mapping : Dict.t string :=
  [ ("framework", "framework"); ("frontend", "frontend");
    ("backend", "backend"); ("database", "database");
    ("networking", "backend"); ("data-science", "other");
    ("ai", "other"); ("web-scraping", "backend");
    ("web-automation", "backend"); ("testing", "testing");
    ("async", "backend"); ("messaging", "backend");
    ("imaging", "other"); ("cloud", "devops");
    ("build-tool", "devops"); ("state-management", "frontend");
    ("multimedia", "other"); ("youtube", "backend") ].

Definition _map_library_category_to_tech_category (lib_category : string)
  : string :=
  match Dict.get library_category_mapping lib_category with
  | Some c => c
  | None => "other"
  end.

(** The last loop of [_enrich_technologies_from_source].
    [found_libraries] maps a library found in the imports of the sampled
    sources (found with [re]) to its (category, description). *)
Definition enrich_library (tech_data : registry)
  (found : string * (string * string)) : registry :=
  let lib := fst found in
  let mapped_category :=
    _map_library_category_to_tech_category (fst (snd found)) in
  let exists_ :=
    existsb (fun tech => String.eqb (Str.lower (te_name tech)) (Str.lower lib))
      (entries tech_data mapped_category) in
  if exists_ then tech_data
  else
    Dict.set tech_data mapped_category
      (entries tech_data mapped_category ++ [mk_entry lib None 3]).

Definition _enrich_technologies_from_source
  (found_libraries : Dict.t (string * string)) (tech_data : registry)
  : registry :=
  fold_left enrich_library found_libraries tech_data.

Definition required_categories : list string :=
  [ "language"; "framework"; "frontend"; "backend"; "database";
    "devops"; "testing"; "architecture"; "other" ].

(** The [for category in required_categories] loop of [analyze]. *)
Definition fill_categories (tech_data : registry) : registry :=
  fold_left
    (fun tech_data category =>
       if Dict.mem tech_data category then tech_data
       else Dict.set tech_data category [])
    required_categories tech_data.

(** [tech_data] as [analyze] has it just before
    [_convert_technologies_data]. *)
Definition analyze_tech_data (p : project)
  (found_libraries : Dict.t (string * string)) : registry :=
  let tech_data := detect_technologies p in
  let tech_data := _enrich_technologies_from_source found_libraries tech_data in
  fill_categories tech_data.

(** ** Features *)

Definition web_indicators : list string :=
  [ "flask"; "django"; "express"; "fastapi"; "router"; "route"; "templates";
    "views"; "controllers"; "app.get"; "app.post"; "render"; "request";
    "response" ].
Definition api_indicators : list string :=
  [ "api"; "rest"; "graphql"; "endpoint"; "controller"; "route"; "restful";
    "@app.route"; "@api"; "router"; "apicontroller" ].
Definition cli_indicators : list string :=
  [ "cli"; "command"; "argparse"; "click"; "commander"; "yargs"; "parser";
    "flag"; "argument"; "option"; "argv" ].
Definition db_indicators : list string :=
  [ "database"; "db"; "mongo"; "sql"; "postgresql"; "mysql"; "sqlite"; "orm";
    "query"; "model"; "entity"; "repository"; "dao" ].
Definition ai_indicators : list string :=
  [ "model"; "train"; "predict"; "machine learning"; "tensorflow"; "pytorch";
    "keras"; "sklearn"; "ml"; "ai"; "neural" ].
Definition scraping_indicators : list string :=
  [ "scrape"; "crawler"; "spider"; "beautifulsoup"; "selenium"; "requests";
    "http"; "html"; "parse"; "extract" ].
Definition testing_indicators : list string :=
  [ "test"; "spec"; "assert"; "expect"; "should"; "mock"; "stub"; "fixture" ].
Definition auth_indicators : list string :=
  [ "auth"; "login"; "register"; "password"; "user"; "token"; "jwt"; "oauth";
    "credential"; "permission" ].
Definition file_processing_indicators : list string :=
  [ "file"; "read"; "write"; "open"; "save"; "load"; "import"; "export";
    "csv"; "excel"; "json"; "yaml"; "xml"; "parser" ].
Definition async_indicators : list string :=
  [ "async"; "await"; "promise"; "coroutine"; "future"; "deferred";
    "callback"; "worker" ].

(** The ten counters with their keyword lists, in the order in which the
    source goes through them (which is the order of the keys of
    [feature_counters]). *)
Definition indicator_table : list (string * list string) :=
  [ ("web", web_indicators); ("api", api_indicators);
    ("cli", cli_indicators); ("database", db_indicators);
    ("ai", ai_indicators); ("scraping", scraping_indicators);
    ("testing", testing_indicators); ("auth", auth_indicators);
    ("file_processing", file_processing_indicators);
    ("async", async_indicators) ].

Definition initial_counters : Dict.t Z :=
  [ ("web", 0); ("api", 0); ("cli", 0); ("database", 0); ("ai", 0);
    ("scraping", 0); ("testing", 0); ("auth", 0); ("file_processing", 0);
    ("async", 0) ].

(** [feature_counters[k]] *)
Definition counter (feature_counters : Dict.t Z) (k : string) : Z :=
  match Dict.get feature_counters k with Some c => c | None => 0 end.

(** [for indicator in indicators: if indicator in content:
    feature_counters[k] += 1] *)
Definition count_indicators (content : string) (feature_counters : Dict.t Z)
  (row : string * list string) : Dict.t Z :=
  fold_left
    (fun feature_counters indicator =>
       if Str.contains indicator content
       then count_up feature_counters (fst row) 1
       else feature_counters)
    (snd row) feature_counters.

(** The ten loops over the lower-cased content of one file. *)
Definition scan_content (content : string) (feature_counters : Dict.t Z)
  : Dict.t Z :=
  fold_left (count_indicators content) indicator_table feature_counters.

Definition source_extensions : list string :=
  [ ".py"; ".js"; ".ts"; ".java"; ".php"; ".rb" ].

Definition walk_ignored : list string :=
  [ ".git"; "node_modules"; "venv"; "__pycache__"; "dist"; "build" ].

(** The files the walk collects, each with its path, cut to the first 50. *)
Definition sample_source_files (project_path : string) (es : list Fs.entry)
  : list (string * Fs.entry) :=
  let source_files :=
    flat_map
      (fun item =>
         if existsb (fun ignored => Str.contains ignored (Fs.root item))
              walk_ignored
         then []
         else
           map (fun file => (Str.path_join (Fs.root item) (Fs.name file), file))
             (filter
                (fun file =>
                   Str.mem (Str.lower (Str.splitext_ext (Fs.name file)))
                     source_extensions)
                (Fs.files item)))
      (Fs.walk project_path es) in
  firstn 50 source_files.

(** The body of [for file_path in source_files]: [os.path.getsize] is
    outside the [try], so its exception leaves the function ([None]);
    a file over 100000 bytes and a file that cannot be read are skipped. *)
Definition scan_file (feature_counters : Dict.t Z) (file : string * Fs.entry)
  : option (Dict.t Z) :=
  size <- Fs.size (snd file) ;;
  if size >? 100000 then Some feature_counters
  else match Fs.content (snd file) with
       | Some content => Some (scan_content (Str.lower content) feature_counters)
       | None => Some feature_counters
       end.

(** [if any(indicator in dir_name for indicator in indicators):
    feature_counters[k] += 5], for the ten counters. *)
Definition directory_bonus (feature_counters : Dict.t Z) (dir_name : string)
  : Dict.t Z :=
  fold_left
    (fun feature_counters row =>
       if existsb (fun indicator => Str.contains indicator dir_name) (snd row)
       then count_up feature_counters (fst row) 5
       else feature_counters)
    indicator_table feature_counters.

(** The body of [for tech in technologies]. *)
Definition technology_bonus (feature_counters : Dict.t Z) (tech : Technology)
  : Dict.t Z :=
  let tech_name := Str.lower (tech_name tech) in
  let bonus (cond : bool) (k : string) (n : Z) (c : Dict.t Z) :=
    if cond then count_up c k n else c in
  let c := feature_counters in
  let c := bonus (Str.mem tech_name
                    [ "flask"; "django"; "express"; "fastapi"; "vue.js";
                      "react"; "angular" ]) "web" 10 c in
  let c := bonus (Str.contains "api" tech_name
                  || Str.mem tech_name [ "graphql"; "rest framework"; "restful" ])
             "api" 8 c in
  let c := bonus (Str.mem tech_name
                    [ "click"; "argparse"; "commander"; "yargs"; "cobra" ])
             "cli" 10 c in
  let c := bonus (existsb (fun db => Str.contains db tech_name)
                    [ "sql"; "mongo"; "postgres"; "mysql"; "sqlite"; "orm" ])
             "database" 10 c in
  let c := bonus (Str.mem tech_name
                    [ "tensorflow"; "pytorch"; "keras"; "sklearn"; "pandas";
                      "numpy" ]) "ai" 10 c in
  let c := bonus (Str.mem tech_name
                    [ "beautifulsoup"; "selenium"; "requests"; "scrapy";
                      "puppeteer" ]) "scraping" 10 c in
  let c := bonus (Str.mem tech_name
                    [ "pytest"; "jest"; "mocha"; "junit"; "phpunit" ])
             "testing" 8 c in
  bonus (Str.mem tech_name [ "jwt"; "passport"; "oauth"; "auth0"; "authlib" ])
    "auth" 8 c.

Definition feature_descriptions : Dict.t (string * string) :=
  [ ("web", ("Web Application",
             "Provides a web interface for user interaction"));
    ("api", ("API",
             "Provides a programming interface for interaction with other systems"));
    ("cli", ("Command Line Interface",
             "Allows managing functionality through terminal commands"));
    ("database", ("Database Operations",
                  "Storage and management of data in databases"));
    ("ai", ("Machine Learning/AI",
            "Uses machine learning or artificial intelligence algorithms"));
    ("scraping", ("Web Scraping", "Extraction of data from websites"));
    ("testing", ("Testing", "Contains automated code tests"));
    ("auth", ("Authentication and Authorization",
              "User management, access rights, and authentication"));
    ("file_processing", ("File Processing",
                         "Working with files of various formats"));
    ("async", ("Asynchronous Processing",
               "Uses asynchronous programming for parallel operations")) ].

Definition threshold (feature_type : string) : Z :=
  if Str.mem feature_type [ "web"; "cli"; "api" ] then 8 else 5.

Definition priority_of (counter : Z) : Z :=
  if counter >=? 15 then 5 else if counter >=? 10 then 4 else 3.

(** The body of [for feature_type, counter in feature_counters.items()]. *)
Definition qualify (features : list Feature) (item : string * Z)
  : list Feature :=
  let feature_type := fst item in
  let counter := snd item in
  if counter >=? threshold feature_type then
    match Dict.get feature_descriptions feature_type with
    | Some (name, description) =>
        features
        ++ [mk_Feature name description feature_type (priority_of counter)]
    | None => features
    end
  else features.

(** What follows the computation of the counters. *)
Definition features_of_counters (project_path : string)
  (feature_counters : Dict.t Z) : list Feature :=
  let features := fold_left qualify feature_counters [] in
  let project_name_lower := Str.lower (Str.basename project_path) in
  let features :=
    if Str.contains "download" project_name_lower
       || Str.contains "downloader" project_name_lower
    then features
         ++ [mk_Feature "Content Download"
               "Download files or content from external sources"
               "download" 5]
    else features in
  let features :=
    if Str.contains "youtube" project_name_lower
    then features
         ++ [mk_Feature "YouTube Integration"
               "Working with YouTube API or downloading content from YouTube"
               "integration" 5]
    else features in
  match features with
  | [] =>
      let words :=
        Str.split_ws
          (Str.replace_char "_"%char " "%char
             (Str.replace_char "-"%char " "%char project_name_lower)) in
      match words with
      | action_word :: (_ :: _) as rest =>
          let subject_words := Str.join " " rest in
          [mk_Feature (Str.capitalize action_word ++ " " ++ subject_words)
             ("Application for working with " ++ subject_words)
             "general" 3]
      | _ => features
      end
  | _ => features
  end.

(** The counters after the three passes: sampled sources, directory
    names, technologies. *)
Definition feature_counters_of (project_path : string) (es : list Fs.entry)
  (technologies : list Technology) : option (Dict.t Z) :=
  let project_dirs :=
    match Fs.subdir es "src" with
    | Some src => Fs.listdir src
    | None => Fs.listdir es
    end in
  let project_dirs := map Str.lower project_dirs in
  feature_counters <-
    Py.for_each scan_file (sample_source_files project_path es)
      initial_counters ;;
  let feature_counters := fold_left directory_bonus project_dirs feature_counters in
  Some (fold_left technology_bonus technologies feature_counters).

Definition _detect_project_features (project_path : string)
  (es : list Fs.entry) (technologies : list Technology)
  : option (list Feature) :=
  feature_counters <- feature_counters_of project_path es technologies ;;
  Some (features_of_counters project_path feature_counters).

(** ** Architecture *)

(** [all(d in dir_names for d in names)] and [any(..)] *)
Definition all_in (names dir_names : list string) : bool :=
  forallb (fun d => Str.mem d dir_names) names.

Definition any_in (names dir_names : list string) : bool :=
  existsb (fun d => Str.mem d dir_names) names.

(** The directory [name] as the source locates it: under the project
    root when the root lists that name, under [src] otherwise. *)
Definition located_dir (es : list Fs.entry) (name : string)
  : option (list Fs.entry) :=
  if Str.mem name (Fs.listdir es) then Fs.subdir es name
  else match Fs.subdir es "src" with
       | Some src => Fs.subdir src name
       | None => None
       end.

(** The technology hints (lines 757-765). *)
Definition technology_hints (technologies : list Technology) : list string :=
  let tech_names := map (fun tech => Str.lower (tech_name tech)) technologies in
  (if Str.mem "django" tech_names
   then ["Django MTV (Model-Template-View)"] else [])
  ++ (if Str.mem "flask" tech_names || Str.mem "fastapi" tech_names
      then ["REST API"] else [])
  ++ (if Str.mem "express" tech_names
      then ["Express.js Middleware Architecture"] else [])
  ++ (if Str.mem "react" tech_names
      then ["Component-Based Architecture"] else []).

Definition architecture_components (es : list Fs.entry)
  (technologies : list Technology) : list string :=
  let project_dirs :=
    match Fs.subdir es "src" with
    | Some src => filter Fs.is_dir src
    | None =>
        filter (fun d => Fs.is_dir d && negb (Str.startswith (Fs.name d) "."))
          es
    end in
  let dir_names := map (fun d => Str.lower (Fs.name d)) project_dirs in
  let layer_count :=
    Py.len (filter (fun layer => Str.mem layer dir_names)
              [ "data"; "domain"; "application"; "presentation"; "ui";
                "persistence" ]) in
  let has_factory :=
    existsb
      (fun project_dir =>
         existsb
           (fun item =>
              existsb (fun file => Str.contains "factory" (Str.lower (Fs.name file)))
                (Fs.files item))
           (Fs.walk_entry (fun _ => true) (Fs.name project_dir) project_dir))
      project_dirs in
  (if all_in [ "models"; "views"; "controllers" ] dir_names
   then ["MVC (Model-View-Controller)"] else [])
  ++ (if all_in [ "models"; "views"; "viewmodels" ] dir_names
      then ["MVVM (Model-View-ViewModel)"] else [])
  ++ (if all_in [ "models"; "views"; "presenters" ] dir_names
      then ["MVP (Model-View-Presenter)"] else [])
  ++ (if any_in [ "domain"; "entities" ] dir_names
         && any_in [ "application"; "usecases"; "use_cases" ] dir_names
         && any_in [ "infrastructure"; "frameworks" ] dir_names
      then ["Clean Architecture"] else [])
  ++ (if layer_count >=? 2 then ["Layered Architecture"] else [])
  ++ (if Str.mem "services" dir_names
      then match located_dir es "services" with
           | Some services =>
               if Py.len (filter Fs.is_dir services) >? 2
               then ["Service-Oriented Architecture"] else []
           | None => []
           end
      else [])
  ++ (if Str.mem "repositories" dir_names then ["Repository Pattern"] else [])
  ++ (if has_factory then ["Factory Pattern"] else [])
  ++ technology_hints technologies
  ++ (if Str.mem "domain" dir_names
      then match located_dir es "domain" with
           | Some domain_contents =>
               if any_in [ "aggregates"; "entities"; "value_objects"; "services" ]
                    (map Str.lower (Fs.listdir domain_contents))
               then ["Domain-Driven Design (DDD)"] else []
           | None => []
           end
      else []).

Definition _detect_architecture_description (es : list Fs.entry)
  (technologies : list Technology) : string :=
  let architecture_components := architecture_components es technologies in
  let architecture_description :=
    match architecture_components with
    | [] =>
        let tech_arch :=
          map tech_name
            (filter (fun tech => String.eqb (tech_category tech) "architecture")
               technologies) in
        match tech_arch with
        | [] => "Standard application architecture."
        | _ =>
            ("The project uses the following architectural approaches: "
             ++ Str.join ", " tech_arch ++ ".")%string
        end
    | _ =>
        ("The project uses the following architectural approaches and patterns: "
         ++ Str.join ", " architecture_components ++ ".")%string
    end in
  match Fs.subdir es "src" with
  | Some src =>
      match map Fs.name (filter Fs.is_dir src) with
      | [] => architecture_description
      | src_dirs =>
          (architecture_description
           ++ " Main modules: " ++ Str.join ", " src_dirs ++ ".")%string
      end
  | None => architecture_description
  end.

End ProjectAnalyzer.

(* ================================================================== *)
(** * Vocabulary of the properties *)
(* ================================================================== *)

Module Props.

Import TechnologyAnalyzer Entities ProjectAnalyzer StructureAnalyzer.

(** The entries of a category list that carry a given name. *)
Definition named (name : string) (l : list tech_entry) : list tech_entry :=
  filter (fun tech => String.eqb (te_name tech) name) l.

(** The nine technology categories. *)
Definition nine_categories : list string :=
  [ "language"; "framework"; "database"; "frontend"; "backend"; "devops";
    "testing"; "architecture"; "other" ].

(** A step of a detector never removes a key. *)
Definition keeps_keys (f : registry -> registry) : Prop :=
  forall result category,
    Dict.mem result category = true -> Dict.mem (f result) category = true.

(** A list is in non-increasing order of [key]. *)
Definition non_increasing {A : Type} (key : A -> Z) (l : list A) : Prop :=
  StronglySorted (fun a b => key b <= key a) l.

(** What the running list of largest files satisfies after every step. *)
Definition top5 (l : list largest_file) : Prop :=
  (List.length l <= 5)%nat /\ non_increasing lf_size l.

(** [n] is the name of a technology of the list that satisfies [sel] and
    whose importance is maximal among those that do. *)
Definition top_name (sel : Technology -> bool) (l : list Technology)
  (n : string) : Prop :=
  exists tech,
    In tech l /\ sel tech = true /\ tech_name tech = n
    /\ forall tech', In tech' l -> sel tech' = true ->
                     tech_importance tech' <= tech_importance tech.

(** The language technologies of a project. *)
Definition languages (p : Project) : list Technology :=
  filter is_language (technologies p).

(** C10 as the claim words it, for one method [m]. *)
Definition primary_language_claim (m : Project -> option string) (p : Project)
  : Prop :=
  (m p = None <-> languages p = [])
  /\ (languages p <> [] ->
      exists n, m p = Some n /\ top_name is_language (technologies p) n).

(** A project whose only technology is not a language. *)
Definition docker_only : Project :=
  mk_Project "demo" "/work/demo" ""
    [mk_Technology "Docker" "devops" None 4] [].

(** The number of keywords of a list that occur in a text. *)
Definition hits (indicators : list string) (content : string) : Z :=
  Py.len (filter (fun indicator => Str.contains indicator content) indicators).

(** The number of places of a text at which a keyword occurs. *)
Fixpoint occurrences (sub s : string) : Z :=
  (if String.prefix sub s then 1 else 0)
  + match s with
    | EmptyString => 0
    | String _ s' => occurrences sub s'
    end.

(** The content the scan of a sampled file looks at: none for a file over
    100000 bytes and for a file that cannot be read. *)
Definition scanned_content (file : string * Fs.entry) : option string :=
  match Fs.size (snd file), Fs.content (snd file) with
  | Some size, Some content =>
      if size >? 100000 then None else Some (Str.lower content)
  | _, _ => None
  end.

(** What one sampled file adds to the counter of a keyword list, when
    [count] says what a keyword adds for a text. *)
Definition file_score (count : string -> string -> Z)
  (indicators : list string) (file : string * Fs.entry) : Z :=
  match scanned_content file with
  | Some content =>
      fold_right Z.add 0 (map (fun indicator => count indicator content) indicators)
  | None => 0
  end.

Definition files_score (count : string -> string -> Z)
  (indicators : list string) (files : list (string * Fs.entry)) : Z :=
  fold_right Z.add 0 (map (file_score count indicators) files).

(** A keyword counts once for a file in which it occurs. *)
Definition once (indicator content : string) : Z :=
  if Str.contains indicator content then 1 else 0.

(** C3 as the claim words it: after the scan of the sampled files the
    counter of a category is the number of occurrences of its keywords. *)
Definition every_occurrence_counts (files : list (string * Fs.entry)) : Prop :=
  forall row feature_counters,
    In row indicator_table ->
    Py.for_each scan_file files initial_counters = Some feature_counters ->
    counter feature_counters (fst row) = files_score occurrences (snd row) files.

(** A source file that names Flask three times. *)
Definition flask_thrice : string * Fs.entry :=
  ("/work/demo/app.py",
   Fs.File "app.py" (Some 17) (Some "Flask flask FLASK")).

(** The features of a list with a given name, and with a given category. *)
Definition features_named (name : string) (features : list Feature)
  : list Feature :=
  filter (fun f => String.eqb (feat_name f) name) features.

Definition features_in (category : string) (features : list Feature)
  : list Feature :=
  filter (fun f => String.eqb (feat_category f) category) features.

(** The feature of a counter category, at a given priority. *)
Definition category_feature (category : string) (priority : Z) : list Feature :=
  match Dict.get feature_descriptions category with
  | Some (name, description) => [mk_Feature name description category priority]
  | None => []
  end.

(** What the loop over the counters emits for one of them. *)
Definition qualified (item : string * Z) : list Feature :=
  if snd item >=? threshold (fst item)
  then category_feature (fst item) (priority_of (snd item))
  else [].

(** The project directory name cut into words, as the fallback does it. *)
Definition name_words (project_path : string) : list string :=
  Str.split_ws
    (Str.replace_char "_"%char " "%char
       (Str.replace_char "-"%char " "%char
          (Str.lower (Str.basename project_path)))).

(** No character of the text is an upper-case letter. *)
Fixpoint no_upper (s : string) : bool :=
  match s with
  | EmptyString => true
  | String c s' => negb (Str.is_upper c) && no_upper s'
  end.

(** No character after the first is an upper-case letter. *)
Definition tail_no_upper (s : string) : bool :=
  match s with
  | EmptyString => true
  | String _ s' => no_upper s'
  end.

(** The "Web Application" feature at a given priority. *)
Definition web_application (priority : Z) : Feature :=
  mk_Feature "Web Application" "Provides a web interface for user interaction"
    "web" priority.

(** No counter reaches its threshold. *)
Definition none_qualifies (feature_counters : Dict.t Z) : Prop :=
  Forall (fun item => snd item < threshold (fst item)) feature_counters.

(** Neither of the two rules on the project directory name fires. *)
Definition no_name_rule (project_path : string) : Prop :=
  let project_name_lower := Str.lower (Str.basename project_path) in
  Str.contains "download" project_name_lower
  || Str.contains "downloader" project_name_lower = false
  /\ Str.contains "youtube" project_name_lower = false.

(** C8 as the claim words it: such a project gets exactly one feature. *)
Definition one_generic_feature (project_path : string) (es : list Fs.entry)
  (technologies : list Technology) : Prop :=
  forall feature_counters,
    feature_counters_of project_path es technologies = Some feature_counters ->
    none_qualifies feature_counters ->
    no_name_rule project_path ->
    exists feature,
      _detect_project_features project_path es technologies = Some [feature].

(** The features the two rules on the project directory name add. *)
Definition with_name_rules (project_path : string) (features : list Feature)
  : list Feature :=
  let project_name_lower := Str.lower (Str.basename project_path) in
  let features :=
    if Str.contains "download" project_name_lower
       || Str.contains "downloader" project_name_lower
    then features
         ++ [mk_Feature "Content Download"
               "Download files or content from external sources"
               "download" 5]
    else features in
  if Str.contains "youtube" project_name_lower
  then features
       ++ [mk_Feature "YouTube Integration"
             "Working with YouTube API or downloading content from YouTube"
             "integration" 5]
  else features.

(** The generic feature: there is one when the name has two words or more. *)
Definition generic_features (project_path : string) : list Feature :=
  match name_words project_path with
  | action_word :: (_ :: _) as rest =>
      let subject_words := Str.join " " rest in
      [mk_Feature (Str.capitalize action_word ++ " " ++ subject_words)
         ("Application for working with " ++ subject_words)
         "general" 3]
  | _ => []
  end.

(** A project directory whose name has letters of Latin-1: "etude_ECOLE"
    with an e acute (233) in front of "tude" and a capital E acute (201) in
    front of "COLE". *)
Definition latin_project_path : string :=
  "/work/" ++ String (ascii_of_N 233) "tude_" ++ String (ascii_of_N 201) "COLE".

(** The version operators, in the order in which the parser looks for
    them. *)
Definition version_operators : list string := [ "=="; ">="; "<="; "~=" ].

(** The first of them, in that order, that occurs in a line. *)
Definition first_operator (line : string) : option string :=
  List.find (fun op => Str.contains op line) version_operators.

(** [a] and [b] are what is left and right of the leftmost occurrence of
    [sep] in [s]. *)
Definition leftmost_split (sep s a b : string) : Prop :=
  s = (a ++ sep ++ b)%string
  /\ forall a' b', s = (a' ++ sep ++ b')%string ->
                   (String.length a <= String.length a')%nat.

(** A blank line or a comment line. *)
Definition blank_or_comment (line : string) : bool :=
  Str.is_empty (Str.strip line) || Str.startswith (Str.strip line) "#".

(** A line that is neither empty (once stripped) nor a heading. *)
Definition is_text_line (line : string) : bool :=
  negb (Str.is_empty (Str.strip line)) && negb (Str.startswith line "#").

(** The first such line of a list, stripped and truncated. *)
Fixpoint first_text_line (lines : list string) : option string :=
  match lines with
  | [] => None
  | line :: rest =>
      if is_text_line line then Some (truncate (Str.strip line))
      else first_text_line rest
  end.

(** A project directory that holds a readable README.md and nothing else. *)
Definition readme_only (content : string) : list Fs.entry :=
  [Fs.File "README.md" (Some (Z.of_nat (String.length content))) (Some content)].

(** C6 as the claim words it: the description is the first text line of
    the README, whichever line that is. *)
Definition first_line_described (content : string) : Prop :=
  forall later_providers description,
    first_text_line (Str.split_char Str.LF content) = Some description ->
    _detect_project_description None (readme_only content) later_providers
    = description.

(** A README whose first line is text. *)
Definition readme_without_title : string :=
  String.concat (String Str.LF "") ["Hello world"; "Second line"].

(** The project of C7: a [package.json] that parses to
    [{"name": "demo", "dependencies": {"express": "^4.0"}}] and an empty
    directory [routes], analysed with empty configuration tables. *)
(** A JSON text from its pieces, a double quote between two pieces. *)
Definition json_text (pieces : list string) : string :=
  String.concat (String (ascii_of_N 34) "") pieces.

Definition express_package : package_data :=
  mk_package_data "demo" [("express", "^4.0")] [] [].

Definition express_project : project :=
  mk_project "/work/demo"
    [ Fs.File "package.json" (Some 49)
        (Some (json_text [ "{"; "name"; ":"; "demo"; ","; "dependencies";
                           ":{"; "express"; ":"; "^4.0"; "}}" ]));
      Fs.Dir "routes" [] ]
    [] express_package [] [] [] [].

(** The same project with React in the place of Express. *)
Definition react_project : project :=
  mk_project "/work/demo"
    [ Fs.File "package.json" (Some 48)
        (Some (json_text [ "{"; "name"; ":"; "demo"; ","; "dependencies";
                           ":{"; "react"; ":"; "^18.0"; "}}" ]));
      Fs.Dir "routes" [] ]
    [] (mk_package_data "demo" [("react", "^18.0")] [] []) [] [] [] [].

(** The technologies of a project, with nothing found in its sources. *)
Definition technologies_of (p : project) : list Technology :=
  _convert_technologies_data (analyze_tech_data p []).

(** The record the statistics make of a file found under [root], when the
    file is not ignored and its size can be read. *)
Definition candidate (project_path root : string) (file : Fs.entry)
  : list largest_file :=
  if is_ignored ignored_files (Fs.name file) then []
  else match Fs.size file with
       | Some size =>
           [mk_largest
              (relpath (Str.path_join root (Fs.name file)) project_path) size]
       | None => []
       end.

(** These records for the whole project, in the order of the walk. *)
Definition candidates (project_path : string) (es : list Fs.entry)
  : list largest_file :=
  flat_map
    (fun item => flat_map (candidate project_path (Fs.root item)) (Fs.files item))
    (Fs.walk_pruned (fun d => negb (is_ignored ignored_dirs d)) project_path es).

(** [x] put behind the elements of [l] whose key is at least its own: where
    a stable descending sort puts an element that was last in the list. *)
Fixpoint insert_behind {A : Type} (key : A -> Z) (x : A) (l : list A)
  : list A :=
  match l with
  | [] => [x]
  | y :: l' =>
      if key y <? key x then x :: l else y :: insert_behind key x l'
  end.





(** Induction on a file tree: a directory has the property when its
    entries have it. *)
Fixpoint entry_induction (P : Fs.entry -> Prop)
  (Hfile : forall n s c, P (Fs.File n s c))
  (Hdir : forall n children, Forall P children -> P (Fs.Dir n children))
  (e : Fs.entry) : P e :=
  match e with
  | Fs.File n s c => Hfile n s c
  | Fs.Dir n children =>
      Hdir n children
        ((fix all (l : list Fs.entry) : Forall P l :=
            match l with
            | [] => Forall_nil P
            | c :: l' => Forall_cons c (entry_induction P Hfile Hdir c) (all l')
            end) children)
  end.


(** The external calls of a project, in the order of the pipeline. *)
Definition external_calls (p : project) : list upsert :=
  python_manifest_calls p ++ other_manifest_calls p ++ marker_calls p
  ++ project_file_calls p.

(** A category of the data model with an importance from 1 to 5. *)
Definition in_model (category : string) (importance : Z) : Prop :=
  In category nine_categories /\ 1 <= importance <= 5.

(** Every key of the registry is one of the nine categories and every
    entry has an importance from 1 to 5. *)
Definition well_formed (result : registry) : Prop :=
  forall category l,
    In (category, l) result ->
    Forall (fun e => in_model category (te_importance e)) l
    /\ In category nine_categories.

(** A library table holds categories of the model and importances from 2
    to 5 only. *)
Definition table_in_model (table : Dict.t lib_info) : Prop :=
  Forall (fun kv => In (li_category (snd kv)) nine_categories
                    /\ 2 <= li_importance (snd kv) <= 5) table.

(** The names of a list of entries, as the enrichment compares them. *)
Definition lower_names (l : list tech_entry) : list string :=
  map (fun e => Str.lower (te_name e)) l.

(** The technologies of one category, as [_convert_technologies_data] makes
    them. *)
Definition technologies_in (tech_data : registry) (category : string)
  : list Technology :=
  map (fun item => mk_Technology (te_name item) category None (te_importance item))
    (entries tech_data category).

(** The category has an entry of that name with at least that importance. *)
Definition has_entry (category name : string) (importance : Z)
  (result : registry) : Prop :=
  exists e, In e (entries result category)
            /\ te_name e = name /\ importance <= te_importance e.

(** The final list has a technology of that name and category with at least
    that importance. *)
Definition has_technology (category name : string) (importance : Z)
  (technologies : list Technology) : Prop :=
  exists tech, In tech technologies
               /\ tech_name tech = name /\ tech_category tech = category
               /\ importance <= tech_importance tech.

(** The names of the directories directly under the project root. *)
Definition root_directories (p : project) : list string :=
  map Fs.name (filter Fs.is_dir (project_entries p)).

(** A project with a requirements file of two lines and nothing else. *)
Definition django_project : project :=
  mk_project "/work/api"
    [ Fs.File "requirements.txt" (Some 34)
        (Some (String.concat (String Str.LF "")
                 ["Django==4.2"; "django-rest-framework"])) ]
    [] empty_package_data [] [] [] [].

(** The two prefix rules of [_process_python_packages]. *)
Definition python_prefix_rules : list (string * string) :=
  [ ("django", "Django"); ("flask", "Flask") ].

(** A pattern without "*" and "?". *)
Fixpoint no_wildcard (pattern : string) : bool :=
  match pattern with
  | EmptyString => true
  | String c pattern' =>
      negb (Ascii.eqb c "*"%char) && negb (Ascii.eqb c "?"%char)
      && no_wildcard pattern'
  end.

(** A name, or "*" followed by a suffix: the patterns the ignore lists are
    made of. *)
Definition simple_pattern (pattern : string) : bool :=
  no_wildcard pattern
  || match pattern with
     | String c suffix => Ascii.eqb c "*"%char && no_wildcard suffix
     | EmptyString => false
     end.

(** The technologies of a category, in the order of the list. *)
Definition of_category (category : string) (l : list Technology)
  : list Technology :=
  filter (fun tech => String.eqb (tech_category tech) category) l.

(** [first] is the first of the elements of [l] with the largest key. *)
Definition first_largest {A : Type} (key : A -> Z) (l : list A) (first : A)
  : Prop :=
  exists before after,
    l = before ++ first :: after
    /\ Forall (fun x => key x < key first) before
    /\ Forall (fun x => key x <= key first) after.

(** The last feature of the list that has the name. *)
Definition last_named (name : string) (l : list Feature) : option Feature :=
  List.find (fun feature => String.eqb (feat_name feature) name) (rev l).

End Props.

(* ================================================================== *)
(** * Properties *)
(* ================================================================== *)

Import TechnologyAnalyzer Entities ProjectAnalyzer StructureAnalyzer Props.

(** ** Dictionaries *)

Section DictFacts.
Context {V : Type}.
Implicit Types (d : Dict.t V) (k : string) (v : V).

Lemma get_set_eq d k v : Dict.get (Dict.set d k v) k = Some v.
Proof.
  induction d as [|[k' v'] d IH]; simpl.
  - now rewrite String.eqb_refl.
  - destruct (String.eqb k' k) eqn:E; simpl; now rewrite E.
Qed.

Lemma get_set_ne d k k' v :
  k <> k' -> Dict.get (Dict.set d k v) k' = Dict.get d k'.
Proof.
  intros Hne. induction d as [|[k0 v0] d IH]; simpl.
  - destruct (String.eqb k k') eqn:E; [apply String.eqb_eq in E; contradiction | reflexivity].
  - destruct (String.eqb k0 k) eqn:E; simpl.
    + apply String.eqb_eq in E; subst k0.
      destruct (String.eqb k k') eqn:E'; [apply String.eqb_eq in E'; contradiction | reflexivity].
    + now rewrite IH.
Qed.

Lemma set_same d k v : Dict.get d k = Some v -> Dict.set d k v = d.
Proof.
  induction d as [|[k' v'] d IH]; simpl; [discriminate|].
  destruct (String.eqb k' k) eqn:E.
  - now intros [= ->].
  - intros H. now rewrite IH.
Qed.

Lemma set_set d k v v' : Dict.set (Dict.set d k v) k v' = Dict.set d k v'.
Proof.
  induction d as [|[k' v0] d IH]; simpl.
  - now rewrite String.eqb_refl.
  - destruct (String.eqb k' k) eqn:E; simpl; rewrite E; [reflexivity | now rewrite IH].
Qed.

Lemma mem_get d k : Dict.mem d k = true <-> exists v, Dict.get d k = Some v.
Proof.
  unfold Dict.mem. destruct (Dict.get d k); split; eauto; try discriminate.
  now intros [v [=]].
Qed.

Lemma mem_set d k k' v :
  Dict.mem (Dict.set d k v) k' = String.eqb k k' || Dict.mem d k'.
Proof.
  unfold Dict.mem. destruct (String.eqb k k') eqn:E.
  - apply String.eqb_eq in E; subst. now rewrite get_set_eq.
  - apply String.eqb_neq in E. now rewrite get_set_ne.
Qed.

End DictFacts.

(** ** The registry *)

Lemma entries_set result category l :
  entries (Dict.set result category l) category = l.
Proof. unfold entries. now rewrite get_set_eq. Qed.

Lemma entries_set_ne result category category' l :
  category <> category' ->
  entries (Dict.set result category l) category' = entries result category'.
Proof. intros H. unfold entries. now rewrite get_set_ne. Qed.

Lemma bump_first_absent name importance l :
  named name l = [] -> bump_first name importance l = None.
Proof.
  induction l as [|tech l IH]; simpl; [reflexivity|].
  destruct (String.eqb (te_name tech) name); [discriminate|].
  intros H. now rewrite IH.
Qed.

Lemma bump_first_last name importance l count old :
  named name l = [] ->
  bump_first name importance (l ++ [mk_entry name count old]) =
  Some (l ++ [mk_entry name count (Z.max old importance)]).
Proof.
  induction l as [|tech l IH]; simpl.
  - intros _. rewrite String.eqb_refl.
    destruct (old <? importance) eqn:E.
    + apply Z.ltb_lt in E. now rewrite Z.max_r by lia.
    + apply Z.ltb_ge in E. now rewrite Z.max_l by lia.
  - destruct (String.eqb (te_name tech) name); [discriminate|].
    intros H. now rewrite IH.
Qed.

Lemma named_app name l l' : named name (l ++ l') = named name l ++ named name l'.
Proof. apply filter_app. Qed.

(** The first statement of the function, [if category not in result:
    result[category] = []], changes no list of entries. *)
Lemma upsert_absent result category name importance :
  named name (entries result category) = [] ->
  _add_technology_if_not_exists result category name importance =
  Dict.set result category
    (entries result category ++ [mk_entry name None importance]).
Proof.
  intros H. unfold _add_technology_if_not_exists.
  destruct (Dict.mem result category) eqn:M.
  - now rewrite bump_first_absent.
  - assert (E : entries result category = []).
    { unfold entries, Dict.mem in *. now destruct (Dict.get result category). }
    rewrite entries_set. simpl. now rewrite set_set, E.
Qed.

Lemma upsert_last result category name importance l count old :
  entries result category = l ++ [mk_entry name count old] ->
  named name l = [] ->
  _add_technology_if_not_exists result category name importance =
  Dict.set result category (l ++ [mk_entry name count (Z.max old importance)]).
Proof.
  intros E H. unfold _add_technology_if_not_exists.
  assert (M : Dict.mem result category = true).
  { unfold entries, Dict.mem in *. destruct (Dict.get result category); [reflexivity|].
    now destruct l. }
  rewrite M, E. now rewrite bump_first_last.
Qed.

(** *** The general form of the merge *)

(** An entry with its importance raised to at least [importance]. *)
Lemma bump_first_named name importance l :
  match bump_first name importance l with
  | Some l' =>
      exists e rest,
        named name l = e :: rest
        /\ named name l'
           = mk_entry name (te_count e) (Z.max (te_importance e) importance)
             :: rest
        /\ List.length l' = List.length l
  | None => named name l = []
  end.
Proof.
  induction l as [|tech l IH]; simpl; [reflexivity|].
  destruct (String.eqb (te_name tech) name) eqn:E.
  - pose proof E as N. apply String.eqb_eq in N.
    destruct (te_importance tech <? importance) eqn:L;
      exists tech, (named name l).
    + apply Z.ltb_lt in L. simpl. rewrite E, N, Z.max_r by lia. auto.
    + apply Z.ltb_ge in L. simpl. rewrite E, Z.max_l by lia.
      destruct tech as [n c i]. simpl in N. subst n. auto.
  - destruct (bump_first name importance l) as [l'|].
    + destruct IH as [e [rest [H1 [H2 H3]]]]. exists e, rest.
      simpl. rewrite E. auto.
    + exact IH.
Qed.

(** Whatever the registry holds: an upsert of (category, name) leaves the
    entries of that name in the category as they were, except that the
    first has its importance raised to the maximum of the old and the new
    one; when there was none there is exactly one afterwards. *)
Lemma upsert_named result category name importance :
  named name (entries (_add_technology_if_not_exists result category name importance)
                category)
  = match named name (entries result category) with
    | [] => [mk_entry name None importance]
    | e :: rest =>
        mk_entry name (te_count e) (Z.max (te_importance e) importance) :: rest
    end.
Proof.
  unfold _add_technology_if_not_exists.
  set (r' := if Dict.mem result category then result
             else Dict.set result category []).
  assert (E : entries r' category = entries result category).
  { subst r'. destruct (Dict.mem result category) eqn:M; [reflexivity|].
    rewrite entries_set. unfold entries, Dict.mem in *.
    now destruct (Dict.get result category). }
  pose proof (bump_first_named name importance (entries r' category)) as B.
  destruct (bump_first name importance (entries r' category)) as [l'|].
  - destruct B as [e [rest [H1 [H2 _]]]].
    rewrite entries_set, H2, <- E, H1. reflexivity.
  - rewrite entries_set, named_app, B, <- E, B. simpl.
    now rewrite String.eqb_refl.
Qed.

(** An upsert of (category, name) leaves the other categories as they
    are. *)
Lemma upsert_other_category result category name importance category' :
  category <> category' ->
  entries (_add_technology_if_not_exists result category name importance)
    category'
  = entries result category'.
Proof.
  intros H. unfold _add_technology_if_not_exists.
  set (r' := if Dict.mem result category then result
             else Dict.set result category []).
  assert (E : entries r' category' = entries result category').
  { subst r'. destruct (Dict.mem result category); [reflexivity|].
    now apply entries_set_ne. }
  destruct (bump_first _ _ _); now rewrite entries_set_ne.
Qed.

(** C1. Upsert is a monotonic max-merge without duplicates.  Whatever the
    registry holds, an upsert of (category, name) changes the entries of
    that name in the category in one way only: the first of them gets the
    maximum of its importance and the new one, and when there was none
    there is one afterwards.  So on a registry that has no entry for
    (category, name), upserting with importance 3 and then 5 leaves
    exactly one entry of that name in the category, with importance 5, and
    a further upsert with importance 2 changes nothing at all. *)
Theorem C1_upsert_max_merge (result : registry) (category name : string) :
  (forall importance,
      named name
        (entries (_add_technology_if_not_exists result category name importance)
           category)
      = match named name (entries result category) with
        | [] => [mk_entry name None importance]
        | e :: rest =>
            mk_entry name (te_count e) (Z.max (te_importance e) importance)
            :: rest
        end)
  /\ (named name (entries result category) = [] ->
      let r3 := _add_technology_if_not_exists result category name 3 in
      let r5 := _add_technology_if_not_exists r3 category name 5 in
      let r2 := _add_technology_if_not_exists r5 category name 2 in
      named name (entries r3 category) = [mk_entry name None 3]
      /\ named name (entries r5 category) = [mk_entry name None 5]
      /\ r2 = r5
      /\ named name (entries r2 category) = [mk_entry name None 5]).
Proof.
  split; [intros importance; apply upsert_named|].
  intros H r3 r5 r2.
  assert (E3 : r3 = Dict.set result category
                      (entries result category ++ [mk_entry name None 3])).
  { apply upsert_absent, H. }
  assert (E5 : r5 = Dict.set result category
                      (entries result category ++ [mk_entry name None 5])).
  { subst r5. rewrite (upsert_last r3 category name 5 (entries result category) None 3).
    - rewrite E3, set_set. reflexivity.
    - rewrite E3. apply entries_set.
    - exact H. }
  assert (E2 : r2 = r5).
  { subst r2. rewrite (upsert_last r5 category name 2 (entries result category) None 5).
    - rewrite E5, set_set. reflexivity.
    - rewrite E5. apply entries_set.
    - exact H. }
  assert (N : forall i, named name (entries result category ++ [mk_entry name None i])
                        = [mk_entry name None i]).
  { intros i. rewrite named_app, H. simpl. now rewrite String.eqb_refl. }
  repeat split.
  - rewrite E3, entries_set. apply N.
  - rewrite E5, entries_set. apply N.
  - exact E2.
  - rewrite E2, E5, entries_set. apply N.
Qed.

Lemma C1_upsert_max_merge_witness :
  named "Python" (entries initial_result "language") = []
  /\ (let r3 := _add_technology_if_not_exists initial_result "language" "Python" 3 in
      let r5 := _add_technology_if_not_exists r3 "language" "Python" 5 in
      let r2 := _add_technology_if_not_exists r5 "language" "Python" 2 in
      named "Python" (entries r3 "language") = [mk_entry "Python" None 3]
      /\ named "Python" (entries r5 "language") = [mk_entry "Python" None 5]
      /\ r2 = r5
      /\ named "Python" (entries r2 "language") = [mk_entry "Python" None 5]).
Proof.
  split; [reflexivity|].
  apply (proj2 (C1_upsert_max_merge initial_result "language" "Python")).
  reflexivity.
Defined.

(** ** Keys of the technology mapping *)

Lemma fold_left_invariant {A S : Type} (P : S -> Prop) (f : S -> A -> S) l s :
  (forall s x, P s -> P (f s x)) -> P s -> P (fold_left f l s).
Proof.
  intros Hf. revert s. induction l as [|x l IH]; simpl; auto.
Qed.

Lemma keeps_keys_set category l :
  keeps_keys (fun result => Dict.set result category l).
Proof. intros r c H. rewrite mem_set, H. apply orb_true_r. Qed.

Lemma keeps_keys_upsert category name importance :
  keeps_keys (fun result =>
                _add_technology_if_not_exists result category name importance).
Proof.
  intros r c H. unfold _add_technology_if_not_exists.
  set (r' := if Dict.mem r category then r else Dict.set r category []).
  assert (H' : Dict.mem r' c = true).
  { subst r'. destruct (Dict.mem r category); [exact H|]. now apply keeps_keys_set. }
  destruct (bump_first _ _ _); now apply keeps_keys_set.
Qed.

Lemma keeps_keys_fold {A : Type} (f : registry -> A -> registry) l :
  (forall x, keeps_keys (fun result => f result x)) ->
  keeps_keys (fun result => fold_left f l result).
Proof.
  intros Hf r c H.
  apply (fold_left_invariant (fun r => Dict.mem r c = true)); auto.
  intros s x Hs. now apply (Hf x).
Qed.

Lemma keeps_keys_if (b : bool) f :
  keeps_keys f -> keeps_keys (fun result => if b then f result else result).
Proof. intros Hf r c H. destruct b; auto. Qed.

Lemma mem_upsert result c category name importance :
  Dict.mem result c = true ->
  Dict.mem (_add_technology_if_not_exists result category name importance) c = true.
Proof. apply keeps_keys_upsert. Qed.

Lemma mem_add_lib result c info :
  Dict.mem result c = true -> Dict.mem (add_lib result info) c = true.
Proof. apply mem_upsert. Qed.

(** Goes through the conditionals of a detector down to the registry it
    started from. *)
Ltac keys_step :=
  match goal with
  | |- Dict.mem (if ?b then _ else _) _ = true => destruct b
  | |- Dict.mem (_add_technology_if_not_exists _ _ _ _) _ = true =>
      apply mem_upsert
  | |- Dict.mem (add_lib _ _) _ = true => apply mem_add_lib
  | |- Dict.mem (match ?o with Some _ => _ | None => _ end) _ = true =>
      destruct o
  end.

Lemma keeps_keys_lookup {K : Type} (o : option K) (f : K -> registry -> registry) :
  (forall k, keeps_keys (f k)) ->
  keeps_keys (fun result => match o with Some k => f k result | None => result end).
Proof. intros Hf r c H. destruct o; [now apply Hf | exact H]. Qed.

Lemma keeps_keys_run_upserts calls : keeps_keys (run_upserts calls).
Proof.
  unfold run_upserts. apply keeps_keys_fold. intros x. apply keeps_keys_upsert.
Qed.

Lemma keeps_keys_python packages : keeps_keys (_process_python_packages packages).
Proof.
  intros r c H. unfold _process_python_packages.
  apply (fold_left_invariant (fun r => Dict.mem r c = true)).
  - intros s x Hs.
    cbv zeta. repeat keys_step; exact Hs.
  - now apply mem_upsert.
Qed.

Lemma js_scan_keeps deps st c :
  Dict.mem (js_result st) c = true ->
  Dict.mem (js_result (fold_left js_scan_step deps st)) c = true.
Proof.
  apply (fold_left_invariant (fun st => Dict.mem (js_result st) c = true)).
  intros s x Hs. unfold js_scan_step. cbn [js_result].
  repeat keys_step; exact Hs.
Qed.

Lemma keeps_keys_js package_data : keeps_keys (_process_js_packages package_data).
Proof.
  intros r c H. unfold _process_js_packages. cbv zeta.
  destruct (pkg_scripts package_data);
    repeat keys_step; apply js_scan_keeps; cbn [js_result];
    repeat keys_step; exact H.
Qed.

Lemma keeps_keys_append_languages sorted_languages :
  forall i, keeps_keys (append_languages i sorted_languages).
Proof.
  induction sorted_languages as [|[language count] rest IH]; intros i r c H; simpl.
  - exact H.
  - apply IH. now apply keeps_keys_set.
Qed.

Lemma keeps_keys_check_directory dir_name :
  keeps_keys (fun result => check_directory result dir_name).
Proof.
  intros r c H. unfold check_directory.
  destruct (Str.startswith _ _); [exact H|].
  cbv zeta. repeat keys_step; exact H.
Qed.

Lemma keeps_keys_framework_directories project_path es :
  keeps_keys (_check_framework_directories project_path es).
Proof.
  unfold _check_framework_directories. apply keeps_keys_fold.
  intros item r c H.
  destruct (_ >? _); [exact H|]. destruct (_is_ignored_dir _); [exact H|].
  now apply (keeps_keys_fold check_directory _ keeps_keys_check_directory).
Qed.

Lemma keeps_keys_detect (p : project) category :
  Dict.mem initial_result category = true ->
  Dict.mem (detect_technologies p) category = true.
Proof.
  intros H. unfold detect_technologies, _analyze_project_files,
    _analyze_config_files, _analyze_package_files, _analyze_file_extensions.
  apply keeps_keys_run_upserts, keeps_keys_framework_directories,
    keeps_keys_run_upserts, keeps_keys_run_upserts.
  destruct (Fs.file_exists (project_entries p) "package.json");
    [apply keeps_keys_js|];
    apply keeps_keys_run_upserts;
    (destruct (Fs.file_exists (project_entries p) "requirements.txt");
     [apply keeps_keys_python|]);
    now apply keeps_keys_append_languages.
Qed.

Lemma keeps_keys_enrich found_libraries :
  keeps_keys (_enrich_technologies_from_source found_libraries).
Proof.
  unfold _enrich_technologies_from_source. apply keeps_keys_fold.
  intros x r c H. unfold enrich_library.
  destruct (existsb _ _); [exact H | now apply keeps_keys_set].
Qed.

(** The loop of [analyze] supplies every required category, whatever the
    mapping it is given, and keeps the keys it finds. *)
Lemma fill_categories_keeps : keeps_keys fill_categories.
Proof.
  unfold fill_categories. apply keeps_keys_fold.
  intros x r c H. destruct (Dict.mem r x); [exact H | now apply keeps_keys_set].
Qed.

Lemma fill_categories_complete (tech_data : registry) (category : string) :
  In category required_categories ->
  Dict.mem (fill_categories tech_data) category = true.
Proof.
  unfold fill_categories. generalize required_categories as cats.
  intros cats. revert tech_data.
  induction cats as [|c cats IH]; intros tech_data []; simpl.
  - subst c.
    apply (keeps_keys_fold
             (fun tech_data category =>
                if Dict.mem tech_data category then tech_data
                else Dict.set tech_data category [])).
    + intros x r c H. destruct (Dict.mem r x); [exact H | now apply keeps_keys_set].
    + destruct (Dict.mem tech_data category) eqn:E; [exact E|].
      rewrite mem_set, String.eqb_refl. reflexivity.
  - now apply IH.
Qed.

(** On a mapping that has the required keys the loop changes nothing. *)
Lemma fill_categories_id (tech_data : registry) :
  (forall category, In category required_categories ->
                    Dict.mem tech_data category = true) ->
  fill_categories tech_data = tech_data.
Proof.
  unfold fill_categories. generalize required_categories as cats.
  induction cats as [|c cats IH]; intros H; simpl; [reflexivity|].
  rewrite (H c) by now left. apply IH. intros c' Hc'. apply H. now right.
Qed.

(** C2. For every project, the technology mapping that reaches the
    conversion to the final list has the nine categories as keys, each
    mapped to a list (possibly empty).  The nine keys are there from the
    first statement of [detect_technologies] on, so the loop of [analyze]
    that supplies missing categories finds nothing to add. *)
Theorem C2_nine_categories (p : project)
  (found_libraries : Dict.t (string * string)) :
  Forall
    (fun category =>
       exists l : list tech_entry,
         Dict.get (analyze_tech_data p found_libraries) category = Some l)
    nine_categories
  /\ Forall (fun category => Dict.mem (detect_technologies p) category = true)
       nine_categories
  /\ analyze_tech_data p found_libraries =
     _enrich_technologies_from_source found_libraries (detect_technologies p).
Proof.
  assert (D : forall category, In category nine_categories ->
                Dict.mem (detect_technologies p) category = true).
  { intros c Hc. apply keeps_keys_detect.
    unfold nine_categories in Hc. simpl in Hc.
    repeat (destruct Hc as [<-|Hc]; [reflexivity|]). contradiction. }
  assert (R : forall category, In category required_categories ->
                In category nine_categories).
  { intros c Hc. unfold required_categories, nine_categories in *. simpl in *.
    intuition. }
  assert (E : analyze_tech_data p found_libraries =
     _enrich_technologies_from_source found_libraries (detect_technologies p)).
  { unfold analyze_tech_data. apply fill_categories_id.
    intros c Hc. apply keeps_keys_enrich, D, R, Hc. }
  split; [|split].
  - apply Forall_forall. intros c Hc. apply mem_get.
    rewrite E. apply keeps_keys_enrich, D, Hc.
  - apply Forall_forall. exact D.
  - exact E.
Qed.

(** ** Sorting *)

Section SortFacts.
Context {A : Type} (key : A -> Z).

Lemma insert_desc_In (x y : A) l :
  In y (Py.insert_desc key x l) <-> y = x \/ In y l.
Proof.
  induction l as [|z l IH]; simpl.
  - intuition.
  - destruct (key x <? key z); simpl; rewrite ?IH; intuition.
Qed.

Lemma insert_desc_length (x : A) l :
  List.length (Py.insert_desc key x l) = S (List.length l).
Proof.
  induction l as [|z l IH]; simpl; [reflexivity|].
  destruct (key x <? key z); simpl; now rewrite ?IH.
Qed.

Lemma insert_desc_sorted (x : A) l :
  non_increasing key l -> non_increasing key (Py.insert_desc key x l).
Proof.
  unfold non_increasing.
  induction l as [|z l IH]; simpl; intros H.
  - constructor; constructor.
  - inversion H as [|? ? Hl Hz]; subst.
    destruct (key x <? key z) eqn:E.
    + apply Z.ltb_lt in E. constructor; [now apply IH|].
      apply Forall_forall. intros y Hy. apply insert_desc_In in Hy.
      destruct Hy as [->|Hy]; [lia|].
      rewrite Forall_forall in Hz. now apply Hz.
    + apply Z.ltb_ge in E. constructor; [exact H|].
      constructor; [exact E|].
      rewrite Forall_forall in *. intros y Hy. specialize (Hz y Hy). lia.
Qed.

Lemma sorted_desc_sorted l : non_increasing key (Py.sorted_desc key l).
Proof.
  induction l as [|x l IH]; simpl; [constructor | now apply insert_desc_sorted].
Qed.

Lemma sorted_desc_In (y : A) l : In y (Py.sorted_desc key l) <-> In y l.
Proof.
  induction l as [|x l IH]; simpl; [tauto|].
  rewrite insert_desc_In, IH. intuition.
Qed.

Lemma sorted_desc_length l :
  List.length (Py.sorted_desc key l) = List.length l.
Proof.
  induction l as [|x l IH]; simpl; [reflexivity|].
  now rewrite insert_desc_length, IH.
Qed.

Lemma non_increasing_firstn n l :
  non_increasing key l -> non_increasing key (firstn n l).
Proof.
  unfold non_increasing. revert l.
  induction n as [|n IH]; intros [|x l] H; simpl; try constructor.
  - inversion H; subst. now apply IH.
  - inversion H as [|? ? _ Hx]; subst.
    rewrite Forall_forall in *. intros y Hy.
    apply Hx. revert Hy. clear. revert l.
    induction n as [|n IH]; intros [|z l]; simpl; try tauto.
    intros [->|Hy]; [now left | right; now apply IH].
Qed.

End SortFacts.

(** ** File statistics *)

Lemma update_largest_top5 largest path size :
  top5 largest -> top5 (update_largest largest path size).
Proof.
  intros H. unfold update_largest.
  destruct size as [file_size|]; [|exact H].
  destruct (_ || _); [|exact H].
  split.
  - apply firstn_le_length.
  - apply non_increasing_firstn, sorted_desc_sorted.
Qed.

Lemma stats_file_top5 project_path root st file :
  top5 (largest_files st) ->
  top5 (largest_files (stats_file project_path root st file)).
Proof.
  intros H. unfold stats_file.
  destruct (is_ignored _ _); [exact H|]. simpl.
  now apply update_largest_top5.
Qed.

Lemma stats_item_top5 project_path st item :
  top5 (largest_files st) ->
  top5 (largest_files (stats_item project_path st item)).
Proof.
  intros H. unfold stats_item.
  apply (fold_left_invariant (fun st => top5 (largest_files st))).
  - intros s x. apply stats_file_top5.
  - exact H.
Qed.

(** C9. For every project, [largest_files] of the file statistics has at
    most five entries and is in non-increasing order of size. *)
Theorem C9_largest_files (project_path : string) (es : list Fs.entry) :
  let st := _collect_file_stats project_path es in
  (List.length (largest_files st) <= 5)%nat
  /\ non_increasing lf_size (largest_files st).
Proof.
  unfold _collect_file_stats.
  apply (fold_left_invariant (fun st => top5 (largest_files st))).
  - intros s x. apply stats_item_top5.
  - split; [simpl; lia | constructor].
Qed.

(** ** Primary language *)

Lemma insert_desc_ge_all {A : Type} (key : A -> Z) x l :
  Forall (fun y => key y <= key x) l -> Py.insert_desc key x l = x :: l.
Proof.
  destruct l as [|y l]; simpl; [reflexivity|].
  intros H. inversion H; subst.
  destruct (key x <? key y) eqn:E; [apply Z.ltb_lt in E; lia | reflexivity].
Qed.

Lemma filter_insert_desc {A : Type} (key : A -> Z) (f : A -> bool) x l :
  non_increasing key l ->
  filter f (Py.insert_desc key x l) =
  if f x then Py.insert_desc key x (filter f l) else filter f l.
Proof.
  unfold non_increasing.
  induction l as [|y l IH]; simpl; intros S.
  - now destruct (f x).
  - inversion S as [|? ? Sl Hy]; subst.
    destruct (key x <? key y) eqn:E; simpl.
    + rewrite (IH Sl). destruct (f x), (f y); simpl; now rewrite ?E.
    + apply Z.ltb_ge in E.
      destruct (f x) eqn:Fx, (f y) eqn:Fy; simpl; rewrite ?Fx, ?Fy; try reflexivity.
      * destruct (key x <? key y) eqn:E'; [apply Z.ltb_lt in E'; lia | reflexivity].
      * rewrite insert_desc_ge_all; [reflexivity|].
        apply Forall_forall. intros z Hz. apply filter_In in Hz.
        rewrite Forall_forall in Hy. specialize (Hy z (proj1 Hz)). lia.
Qed.

(** Sorting and selecting commute, the sort being stable. *)
Lemma filter_sorted_desc {A : Type} (key : A -> Z) (f : A -> bool) l :
  filter f (Py.sorted_desc key l) = Py.sorted_desc key (filter f l).
Proof.
  induction l as [|x l IH]; simpl; [reflexivity|].
  rewrite filter_insert_desc by apply sorted_desc_sorted.
  rewrite IH. now destruct (f x).
Qed.

(** The head of a sorted selection is a top element of the selection. *)
Lemma sorted_head_top (sel : Technology -> bool) l first rest :
  Py.sorted_desc tech_importance (filter sel l) = first :: rest ->
  top_name sel l (tech_name first).
Proof.
  intros E. exists first.
  assert (Hin : In first (filter sel l)).
  { apply (sorted_desc_In tech_importance). rewrite E. now left. }
  apply filter_In in Hin. destruct Hin as [Hin Hsel].
  repeat split; auto.
  intros tech' Hin' Hsel'.
  assert (H' : In tech' (first :: rest)).
  { rewrite <- E. apply sorted_desc_In, filter_In. now split. }
  pose proof (sorted_desc_sorted tech_importance (filter sel l)) as S.
  rewrite E in S. inversion S as [|? ? _ Hall]; subst.
  destruct H' as [<-|H']; [lia|].
  rewrite Forall_forall in Hall. now apply Hall.
Qed.

Lemma sorted_desc_nil {A : Type} (key : A -> Z) l :
  Py.sorted_desc key l = [] -> l = [].
Proof.
  intros E. apply (f_equal (@List.length A)) in E.
  rewrite sorted_desc_length in E. now destruct l.
Qed.

Lemma get_primary_language_spec (p : Project) :
  primary_language_claim get_primary_language p.
Proof.
  unfold primary_language_claim, get_primary_language, languages.
  destruct (filter is_language (technologies p)) as [|t ts] eqn:F.
  - split; [tauto | intros H; now contradiction H].
  - destruct (Py.sorted_desc tech_importance (t :: ts)) as [|first rest] eqn:E.
    + apply sorted_desc_nil in E. discriminate.
    + split; [split; discriminate|].
      intros _. exists (tech_name first). split; [reflexivity|].
      rewrite <- F in E. now apply sorted_head_top in E.
Qed.

(** With a language technology in the list, [main_language] is
    [get_primary_language]. *)
Lemma main_language_with_language (p : Project) :
  languages p <> [] -> main_language p = get_primary_language p.
Proof.
  unfold languages, main_language, get_primary_language. intros H.
  destruct (technologies p) as [|t ts] eqn:T; [now contradiction H|].
  rewrite filter_sorted_desc.
  destruct (filter is_language (t :: ts)) as [|u us] eqn:F; [now contradiction H|].
  destruct (Py.sorted_desc tech_importance (u :: us)) eqn:E; [|reflexivity].
  apply sorted_desc_nil in E. discriminate.
Qed.

(** Without one, it is the name of a most important technology, whatever
    its category. *)
Lemma main_language_without_language (p : Project) :
  languages p = [] -> technologies p <> [] ->
  exists n, main_language p = Some n
            /\ top_name (fun _ => true) (technologies p) n.
Proof.
  unfold languages, main_language. intros H Hne.
  destruct (technologies p) as [|t ts] eqn:T; [now contradiction Hne|].
  rewrite filter_sorted_desc, H. simpl Py.sorted_desc at 1. cbv iota.
  destruct (Py.sorted_desc tech_importance (t :: ts)) as [|first rest] eqn:E.
  - apply sorted_desc_nil in E. discriminate.
  - exists (tech_name first). split; [reflexivity|].
    apply (sorted_head_top _ _ first rest).
    assert (Fa : filter (fun _ : Technology => true) (t :: ts) = t :: ts).
    { clear. induction (t :: ts) as [|x l IH]; simpl; [reflexivity | now rewrite IH]. }
    now rewrite Fa.
Qed.

(** C10 as stated fails for [main_language]: a project whose only
    technology is Docker has no language technology, and its
    [main_language] is "Docker", not [None]. *)
Lemma C10_counterexample : ~ primary_language_claim main_language docker_only.
Proof.
  intros [H _]. destruct H as [_ H].
  specialize (H eq_refl). discriminate H.
Qed.

(** C10, amended.  [get_primary_language] returns [None] exactly when no
    technology has category "language"; [main_language] returns [None]
    exactly when the project has no technology at all.  When there is a
    language technology both return the same name, that of a language
    technology of maximal importance among the language technologies.
    When there are technologies but none is a language, [main_language]
    returns the name of a technology of maximal importance among all. *)
Theorem C10_primary_language (p : Project) :
  primary_language_claim get_primary_language p
  /\ (main_language p = None <-> technologies p = [])
  /\ (languages p <> [] ->
      main_language p = get_primary_language p
      /\ exists n, main_language p = Some n
                   /\ top_name is_language (technologies p) n)
  /\ (languages p = [] -> technologies p <> [] ->
      exists n, main_language p = Some n
                /\ top_name (fun _ => true) (technologies p) n).
Proof.
  pose proof (get_primary_language_spec p) as G.
  split; [exact G|]. split; [|split].
  - split.
    + intros M. destruct (technologies p) as [|t ts] eqn:T; [reflexivity|].
      exfalso.
      destruct (filter is_language (t :: ts)) as [|u us] eqn:F.
      * destruct (main_language_without_language p) as [n [E _]];
          unfold languages; rewrite ?T; auto; try discriminate.
        congruence.
      * assert (L : languages p <> []) by (unfold languages; rewrite T, F; discriminate).
        rewrite (main_language_with_language p L) in M.
        destruct G as [_ G]. destruct (G L) as [n [E _]]. congruence.
    + intros T. unfold main_language. now rewrite T.
  - intros L. split; [now apply main_language_with_language|].
    rewrite (main_language_with_language p L). destruct G as [_ G]. now apply G.
  - apply main_language_without_language.
Qed.

Lemma C10_primary_language_witness :
  languages docker_only = [] /\ technologies docker_only <> []
  /\ exists n, main_language docker_only = Some n
               /\ top_name (fun _ => true) (technologies docker_only) n.
Proof.
  split; [reflexivity|]. split; [discriminate|].
  apply (proj2 (proj2 (proj2 (C10_primary_language docker_only))));
    [reflexivity | discriminate].
Defined.

(** ** Keyword counters *)

Lemma counter_count_up_eq c k n :
  counter (count_up c k n) k = counter c k + n.
Proof. unfold counter, count_up. now rewrite get_set_eq. Qed.

Lemma counter_count_up_ne c k k' n :
  k <> k' -> counter (count_up c k n) k' = counter c k'.
Proof. intros H. unfold counter, count_up. now rewrite get_set_ne. Qed.

Lemma count_indicators_eq content k indicators c :
  counter (count_indicators content c (k, indicators)) k
  = counter c k
    + fold_right Z.add 0 (map (fun indicator => once indicator content) indicators).
Proof.
  unfold count_indicators. simpl fst; simpl snd. revert c.
  induction indicators as [|i l IH]; intros c; simpl; [lia|].
  rewrite IH. unfold once at 2.
  destruct (Str.contains i content); [rewrite counter_count_up_eq|]; lia.
Qed.

Lemma count_indicators_ne content k k' indicators c :
  k <> k' ->
  counter (count_indicators content c (k, indicators)) k' = counter c k'.
Proof.
  intros H. unfold count_indicators. simpl fst; simpl snd. revert c.
  induction indicators as [|i l IH]; intros c; simpl; [reflexivity|].
  rewrite IH. destruct (Str.contains i content); [now rewrite counter_count_up_ne|reflexivity].
Qed.

Lemma scan_rows_outside content table k c :
  ~ In k (map fst table) ->
  counter (fold_left (count_indicators content) table c) k = counter c k.
Proof.
  revert c. induction table as [|[k0 inds] table IH]; intros c H; simpl; [reflexivity|].
  rewrite IH by (simpl in H; tauto).
  apply count_indicators_ne. simpl in H. tauto.
Qed.

Lemma scan_rows_inside content table k indicators c :
  NoDup (map fst table) -> In (k, indicators) table ->
  counter (fold_left (count_indicators content) table c) k
  = counter c k
    + fold_right Z.add 0 (map (fun indicator => once indicator content) indicators).
Proof.
  revert c. induction table as [|[k0 inds] table IH]; intros c N H; simpl; [contradiction|].
  inversion N as [|? ? Hk0 N']; subst.
  destruct H as [[= -> ->]|H].
  - rewrite scan_rows_outside by exact Hk0. apply count_indicators_eq.
  - rewrite (IH _ N' H). rewrite count_indicators_ne; [reflexivity|].
    intros ->. apply Hk0. change k with (fst (k, indicators)). now apply in_map.
Qed.

Lemma indicator_table_keys : NoDup (map fst indicator_table).
Proof.
  unfold indicator_table. simpl.
  repeat (constructor; [simpl; intuition discriminate|]). constructor.
Qed.

(** One file: every keyword of the category that occurs in the lower-cased
    content adds 1, however often it occurs. *)
Lemma scan_content_row content c row :
  In row indicator_table ->
  counter (scan_content content c) (fst row)
  = counter c (fst row)
    + fold_right Z.add 0 (map (fun indicator => once indicator content) (snd row)).
Proof.
  intros H. destruct row as [k inds]. unfold scan_content.
  now apply scan_rows_inside; [apply indicator_table_keys|].
Qed.

Lemma scan_file_row file c c' row :
  In row indicator_table ->
  scan_file c file = Some c' ->
  counter c' (fst row) = counter c (fst row) + file_score once (snd row) file.
Proof.
  intros H. unfold scan_file, file_score, scanned_content, Py.bind.
  destruct (Fs.size (snd file)) as [size|]; [|discriminate].
  destruct (size >? 100000); [intros [= <-]; destruct (Fs.content (snd file)); lia|].
  destruct (Fs.content (snd file)) as [content|]; intros [= <-]; [|lia].
  now apply scan_content_row.
Qed.

Lemma scan_files_row files c c' row :
  In row indicator_table ->
  Py.for_each scan_file files c = Some c' ->
  counter c' (fst row) = counter c (fst row) + files_score once (snd row) files.
Proof.
  intros H. revert c. unfold files_score.
  induction files as [|file files IH]; intros c; simpl.
  - intros [= <-]. lia.
  - unfold Py.bind at 1. destruct (scan_file c file) as [c1|] eqn:E; [|discriminate].
    intros E'. rewrite (IH _ E'), (scan_file_row _ _ _ _ H E). lia.
Qed.

Lemma once_sum_bound indicators content :
  0 <= fold_right Z.add 0 (map (fun indicator => once indicator content) indicators)
    <= Py.len indicators.
Proof.
  unfold Py.len.
  induction indicators as [|i l IH]; cbn [map fold_right List.length].
  - lia.
  - unfold once at 1 3. destruct (Str.contains i content); lia.
Qed.

Lemma once_sum_hits indicators content :
  fold_right Z.add 0 (map (fun indicator => once indicator content) indicators)
  = hits indicators content.
Proof.
  unfold hits, Py.len.
  induction indicators as [|i l IH]; cbn [map fold_right filter]; [reflexivity|].
  unfold once at 1. destruct (Str.contains i content); cbn [List.length]; lia.
Qed.

(** The sample: at most 50 files. *)
Lemma sample_source_files_length project_path es :
  (List.length (sample_source_files project_path es) <= 50)%nat.
Proof. unfold sample_source_files. apply firstn_le_length. Qed.

Lemma firstn_In {A : Type} n (l : list A) x : In x (firstn n l) -> In x l.
Proof.
  revert l. induction n as [|n IH]; intros [|y l]; simpl; try tauto.
  intros [->|H]; [now left | right; now apply IH].
Qed.

(** The sample: files with one of the six extensions. *)
Lemma sample_source_files_extension project_path es file :
  In file (sample_source_files project_path es) ->
  Str.mem (Str.lower (Str.splitext_ext (Fs.name (snd file)))) source_extensions
  = true.
Proof.
  unfold sample_source_files. intros H. apply firstn_In in H.
  apply in_flat_map in H. destruct H as [item [_ H]].
  destruct (existsb _ walk_ignored); [contradiction|].
  apply in_map_iff in H. destruct H as [f [<- H]].
  apply filter_In in H. exact (proj2 H).
Qed.

(** C3 as stated fails: a file that names Flask three times adds 1 to the
    web counter, not 3. *)
Lemma C3_counterexample : ~ every_occurrence_counts [flask_thrice].
Proof.
  intros H.
  specialize (H ("web", web_indicators) _ (or_introl eq_refl) eq_refl).
  vm_compute in H. discriminate H.
Qed.

(** C3, amended.  The scan samples at most 50 files, all with one of the
    extensions .py/.js/.ts/.java/.php/.rb.  For every sampled file that is
    scanned (readable, at most 100000 bytes) every keyword of a category
    that occurs in the lower-cased content, found by substring search, adds
    1 to the counter of the category: once for the file, however often the
    keyword occurs in it.  So a file adds at most the number of keywords of
    the category. *)
Theorem C3_keyword_counters (project_path : string) (es : list Fs.entry)
  (feature_counters : Dict.t Z) :
  let files := sample_source_files project_path es in
  Py.for_each scan_file files initial_counters = Some feature_counters ->
  (List.length files <= 50)%nat
  /\ (forall file, In file files ->
        Str.mem (Str.lower (Str.splitext_ext (Fs.name (snd file))))
          source_extensions = true)
  /\ (forall row, In row indicator_table ->
        counter feature_counters (fst row) = files_score once (snd row) files
        /\ forall file,
             0 <= file_score once (snd row) file <= Py.len (snd row)
             /\ forall content, scanned_content file = Some content ->
                  file_score once (snd row) file = hits (snd row) content).
Proof.
  intros files H.
  split; [apply sample_source_files_length|].
  split; [apply sample_source_files_extension|].
  intros row Hrow. split.
  - rewrite (scan_files_row _ _ _ _ Hrow H).
    assert (Z0 : counter initial_counters (fst row) = 0).
    { unfold indicator_table in Hrow. simpl in Hrow.
      repeat (destruct Hrow as [<-|Hrow]; [reflexivity|]). contradiction. }
    lia.
  - intros file. unfold file_score. split.
    + destruct (scanned_content file); [apply once_sum_bound|].
      unfold Py.len. lia.
    + intros content ->. apply once_sum_hits.
Qed.

Lemma C3_keyword_counters_witness :
  exists feature_counters,
    Py.for_each scan_file
      (sample_source_files "/work/demo"
         [Fs.File "app.py" (Some 17) (Some "Flask flask FLASK")])
      initial_counters = Some feature_counters
    /\ counter feature_counters "web" = 1.
Proof.
  eexists. split; [reflexivity|].
  destruct (C3_keyword_counters "/work/demo"
              [Fs.File "app.py" (Some 17) (Some "Flask flask FLASK")]
              _ eq_refl) as [_ [_ H]].
  destruct (H ("web", web_indicators) (or_introl eq_refl)) as [E _].
  simpl fst in E. rewrite E. reflexivity.
Defined.

(** ** Feature counters and qualification *)

Lemma keys_set_present {V : Type} (d : Dict.t V) k v :
  In k (Dict.keys d) -> Dict.keys (Dict.set d k v) = Dict.keys d.
Proof.
  unfold Dict.keys. induction d as [|[k' v'] d IH]; simpl; [tauto|].
  destruct (String.eqb k' k) eqn:E; simpl; [reflexivity|].
  intros [->|H]; [now rewrite String.eqb_refl in E | now rewrite IH].
Qed.

Lemma keys_count_up c k n :
  In k (Dict.keys c) -> Dict.keys (count_up c k n) = Dict.keys c.
Proof. apply keys_set_present. Qed.

Lemma scan_content_keys content c :
  Dict.keys c = Dict.keys initial_counters ->
  Dict.keys (scan_content content c) = Dict.keys initial_counters.
Proof.
  unfold scan_content.
  assert (G : forall table c,
             (forall row, In row table -> In (fst row) (Dict.keys initial_counters)) ->
             Dict.keys c = Dict.keys initial_counters ->
             Dict.keys (fold_left (count_indicators content) table c)
             = Dict.keys initial_counters).
  { induction table as [|row table IH]; intros c0 Hrows H0; simpl; [exact H0|].
    apply IH; [intros r Hr; apply Hrows; now right|].
    unfold count_indicators.
    apply (fold_left_invariant
             (fun c => Dict.keys c = Dict.keys initial_counters)); [|exact H0].
    intros s x Hs. destruct (Str.contains x content); [|exact Hs].
    rewrite keys_count_up; [exact Hs|]. rewrite Hs. apply Hrows. now left. }
  apply G. intros row Hrow. unfold indicator_table in Hrow. simpl in Hrow.
  repeat (destruct Hrow as [<-|Hrow]; [simpl; tauto|]). contradiction.
Qed.

Lemma scan_file_keys c file c' :
  Dict.keys c = Dict.keys initial_counters ->
  scan_file c file = Some c' ->
  Dict.keys c' = Dict.keys initial_counters.
Proof.
  intros H. unfold scan_file, Py.bind.
  destruct (Fs.size (snd file)) as [size|]; [|discriminate].
  destruct (size >? 100000); [now intros [= <-]|].
  destruct (Fs.content (snd file)); intros [= <-]; [|exact H].
  now apply scan_content_keys.
Qed.

Lemma scan_files_keys files c c' :
  Dict.keys c = Dict.keys initial_counters ->
  Py.for_each scan_file files c = Some c' ->
  Dict.keys c' = Dict.keys initial_counters.
Proof.
  revert c. induction files as [|file files IH]; intros c H; simpl.
  - now intros [= <-].
  - unfold Py.bind at 1. destruct (scan_file c file) as [c1|] eqn:E; [|discriminate].
    apply IH. exact (scan_file_keys _ _ _ H E).
Qed.

Lemma directory_bonus_keys c dir_name :
  Dict.keys c = Dict.keys initial_counters ->
  Dict.keys (directory_bonus c dir_name) = Dict.keys initial_counters.
Proof.
  intros H. unfold directory_bonus, indicator_table. simpl fold_left.
  cbn [fst snd].
  repeat match goal with
         | |- context [if ?b then count_up ?c ?k ?n else ?c] =>
             let E := fresh in
             assert (E : Dict.keys (if b then count_up c k n else c)
                         = Dict.keys initial_counters);
             [ destruct b; [rewrite keys_count_up; [assumption|];
                            match goal with Hk : Dict.keys c = _ |- _ => rewrite Hk end;
                            simpl; tauto
                           | assumption]
             | generalize dependent (if b then count_up c k n else c); intros ]
         end.
  assumption.
Qed.

Lemma technology_bonus_keys c tech :
  Dict.keys c = Dict.keys initial_counters ->
  Dict.keys (technology_bonus c tech) = Dict.keys initial_counters.
Proof.
  intros H. unfold technology_bonus. cbv zeta beta.
  repeat match goal with
         | |- context [if ?b then count_up ?c ?k ?n else ?c] =>
             let E := fresh in
             assert (E : Dict.keys (if b then count_up c k n else c)
                         = Dict.keys initial_counters);
             [ destruct b; [rewrite keys_count_up; [assumption|];
                            match goal with Hk : Dict.keys c = _ |- _ => rewrite Hk end;
                            simpl; tauto
                           | assumption]
             | generalize dependent (if b then count_up c k n else c); intros ]
         end.
  assumption.
Qed.

(** The counters keep their ten keys, in the order of the source. *)
Lemma feature_counters_keys project_path es technologies c :
  feature_counters_of project_path es technologies = Some c ->
  Dict.keys c = Dict.keys initial_counters.
Proof.
  unfold feature_counters_of, Py.bind.
  destruct (Py.for_each scan_file _ initial_counters) as [c0|] eqn:E; [|discriminate].
  intros [= <-].
  apply (fold_left_invariant (fun c => Dict.keys c = Dict.keys initial_counters)).
  - intros s x. apply technology_bonus_keys.
  - apply (fold_left_invariant (fun c => Dict.keys c = Dict.keys initial_counters)).
    + intros s x. apply directory_bonus_keys.
    + now apply (scan_files_keys _ _ _ eq_refl E).
Qed.

(** Counters with the ten keys are ten items. *)
Lemma ten_counters c :
  Dict.keys c = Dict.keys initial_counters ->
  c = [ ("web", counter c "web"); ("api", counter c "api");
        ("cli", counter c "cli"); ("database", counter c "database");
        ("ai", counter c "ai"); ("scraping", counter c "scraping");
        ("testing", counter c "testing"); ("auth", counter c "auth");
        ("file_processing", counter c "file_processing");
        ("async", counter c "async") ].
Proof.
  unfold Dict.keys. simpl. intros H.
  repeat (destruct c as [|[k ?] c]; [simpl in H; discriminate H|];
          simpl in H; injection H as Hk H; subst k).
  destruct c; [reflexivity | discriminate H].
Qed.

Lemma qualify_app features item :
  qualify features item = features ++ qualified item.
Proof.
  unfold qualify, qualified, category_feature.
  destruct (_ >=? _); [|now rewrite app_nil_r].
  destruct (Dict.get feature_descriptions (fst item)) as [[n d]|];
    [reflexivity | now rewrite app_nil_r].
Qed.

Lemma fold_qualify items features :
  fold_left qualify items features = features ++ flat_map qualified items.
Proof.
  revert features. induction items as [|item items IH]; intros features; simpl.
  - now rewrite app_nil_r.
  - now rewrite IH, qualify_app, app_assoc.
Qed.

(** Nothing is emitted when no counter reaches its threshold. *)
Lemma nothing_qualifies items :
  Forall (fun item => snd item < threshold (fst item)) items ->
  fold_left qualify items [] = [].
Proof.
  intros H. rewrite fold_qualify. simpl.
  induction H as [|item items Hi _ IH]; simpl; [reflexivity|].
  rewrite IH, app_nil_r. unfold qualified.
  destruct (snd item >=? threshold (fst item)) eqn:E; [|reflexivity].
  apply Z.geb_le in E. lia.
Qed.

(** *** Letter case of the generic feature name *)

Lemma lower_char_not_upper c : Str.is_upper (Str.lower_char c) = false.
Proof. destruct c as [[] [] [] [] [] [] [] []]; reflexivity. Qed.

Lemma no_upper_lower s : no_upper (Str.lower s) = true.
Proof.
  induction s as [|c s IH]; simpl; [reflexivity|].
  now rewrite lower_char_not_upper, IH.
Qed.

Lemma no_upper_app a b : no_upper (a ++ b) = no_upper a && no_upper b.
Proof.
  induction a as [|c a IH]; simpl; [reflexivity|].
  now rewrite IH, andb_assoc.
Qed.

Lemma no_upper_replace a b s :
  Str.is_upper b = false -> no_upper s = true ->
  no_upper (Str.replace_char a b s) = true.
Proof.
  intros Hb. induction s as [|c s IH]; simpl; [reflexivity|].
  intros H. apply andb_true_iff in H. destruct H as [Hc Hs].
  rewrite (IH Hs), andb_true_r.
  destruct (Ascii.eqb c a); [now rewrite Hb | exact Hc].
Qed.

Lemma no_upper_split_ws s :
  no_upper s = true -> Forall (fun w => no_upper w = true) (Str.split_ws s).
Proof.
  induction s as [|c s IH]; simpl; [constructor|].
  intros H. apply andb_true_iff in H. destruct H as [Hc Hs].
  specialize (IH Hs).
  assert (H1 : no_upper (String c "") = true) by (simpl; now rewrite Hc).
  destruct (Str.is_space c); [exact IH|].
  destruct s as [|c2 s2]; [now constructor|].
  destruct (Str.is_space c2); [now constructor|].
  destruct (Str.split_ws (String c2 s2)) as [|h t]; [now constructor|].
  inversion IH; subst. constructor; [|assumption].
  simpl. now rewrite Hc.
Qed.

Lemma no_upper_join l :
  Forall (fun w => no_upper w = true) l -> no_upper (Str.join " " l) = true.
Proof.
  unfold Str.join. induction 1 as [|w l Hw Hl IH]; simpl; [reflexivity|].
  destruct l as [|w' l']; [exact Hw|].
  rewrite !no_upper_app, Hw. simpl. exact IH.
Qed.

Lemma name_words_no_upper project_path :
  Forall (fun w => no_upper w = true) (name_words project_path).
Proof.
  unfold name_words.
  apply no_upper_split_ws, no_upper_replace; [reflexivity|].
  apply no_upper_replace; [reflexivity|]. apply no_upper_lower.
Qed.

(** The name of the generic feature has no capital after its first
    character. *)
Lemma generic_name_tail action_word rest :
  Forall (fun w => no_upper w = true) rest ->
  tail_no_upper (Str.capitalize action_word ++ " " ++ Str.join " " rest) = true.
Proof.
  intros H. destruct action_word as [|c s]; [simpl; now apply no_upper_join|].
  assert (T : exists c' t, Str.title_char c = String c' t /\ no_upper t = true).
  { unfold Str.title_char. destruct (Str.has_capital c); [now eexists; eexists|].
    destruct (Str.code c =? 223)%N; now eexists; eexists. }
  destruct T as [c' [t [E Ht]]]. cbn [Str.capitalize]. rewrite E.
  cbn [String.append tail_no_upper].
  rewrite !no_upper_app, Ht, no_upper_lower. simpl. now apply no_upper_join.
Qed.

(** *** The feature list *)

Lemma tail_no_upper_differs a b :
  tail_no_upper a = true -> tail_no_upper b = false -> String.eqb a b = false.
Proof.
  intros Ha Hb. apply String.eqb_neq. intros ->. congruence.
Qed.

(** The shape of what follows the counters. *)
Lemma features_of_counters_shape project_path feature_counters :
  features_of_counters project_path feature_counters
  = match with_name_rules project_path (flat_map qualified feature_counters) with
    | [] => generic_features project_path
    | features => features
    end.
Proof.
  unfold features_of_counters, with_name_rules, generic_features, name_words.
  rewrite fold_qualify. cbv zeta. cbn [app].
  match goal with
  | |- match ?l with [] => _ | _ :: _ => _ end = _ => destruct l
  end; [|reflexivity].
  destruct (Str.split_ws _) as [|a [|b rest]]; reflexivity.
Qed.

Lemma features_named_one name f :
  features_named name [f] = if String.eqb (feat_name f) name then [f] else [].
Proof. reflexivity. Qed.

Lemma features_in_one category f :
  features_in category [f]
  = if String.eqb (feat_category f) category then [f] else [].
Proof. reflexivity. Qed.

Lemma features_named_app name l l' :
  features_named name (l ++ l') = features_named name l ++ features_named name l'.
Proof. apply filter_app. Qed.

Lemma features_in_app category l l' :
  features_in category (l ++ l') = features_in category l ++ features_in category l'.
Proof. apply filter_app. Qed.

(** The features with a name that none of the name-derived features can
    have are those the loop over the counters emitted. *)
Lemma features_named_counters name project_path feature_counters :
  String.eqb "Content Download" name = false ->
  String.eqb "YouTube Integration" name = false ->
  tail_no_upper name = false ->
  features_named name (features_of_counters project_path feature_counters)
  = features_named name (flat_map qualified feature_counters).
Proof.
  intros Hd Hy Ht. rewrite features_of_counters_shape.
  set (fs := flat_map qualified feature_counters).
  assert (R : features_named name (with_name_rules project_path fs)
              = features_named name fs).
  { unfold with_name_rules. cbv zeta.
    destruct (_ || _); destruct (Str.contains "youtube" _);
      rewrite ?features_named_app, ?features_named_one; cbn [feat_name];
      rewrite ?Hd, ?Hy, ?app_nil_r; reflexivity. }
  destruct (with_name_rules project_path fs) as [|f l]; [|exact R].
  rewrite <- R. unfold generic_features.
  pose proof (name_words_no_upper project_path) as W.
  destruct (name_words project_path) as [|a [|b rest]]; try reflexivity.
  inversion W; subst. cbv zeta. rewrite features_named_one. cbn [feat_name].
  rewrite tail_no_upper_differs; auto. now apply generic_name_tail.
Qed.

(** The same for a category that is not one of the name-derived ones. *)
Lemma features_in_counters category project_path feature_counters :
  String.eqb "download" category = false ->
  String.eqb "integration" category = false ->
  String.eqb "general" category = false ->
  features_in category (features_of_counters project_path feature_counters)
  = features_in category (flat_map qualified feature_counters).
Proof.
  intros Hd Hy Hg. rewrite features_of_counters_shape.
  set (fs := flat_map qualified feature_counters).
  assert (R : features_in category (with_name_rules project_path fs)
              = features_in category fs).
  { unfold with_name_rules. cbv zeta.
    destruct (_ || _); destruct (Str.contains "youtube" _);
      rewrite ?features_in_app, ?features_in_one; cbn [feat_category];
      rewrite ?Hd, ?Hy, ?app_nil_r; reflexivity. }
  destruct (with_name_rules project_path fs) as [|f l]; [|exact R].
  rewrite <- R. unfold generic_features.
  destruct (name_words project_path) as [|a [|b rest]]; try reflexivity.
  cbv zeta. rewrite features_in_one. cbn [feat_category]. now rewrite Hg.
Qed.

Lemma qualified_named_web c :
  Dict.keys c = Dict.keys initial_counters ->
  features_named "Web Application" (flat_map qualified c)
  = if counter c "web" >=? 8 then [web_application (priority_of (counter c "web"))]
    else [].
Proof.
  intros H.
  assert (W : forall z,
             counter [("web", z)] "web" = z) by reflexivity.
  pose proof (ten_counters c H) as E.
  remember (counter c "web") as w eqn:Ew. clear Ew.
  generalize dependent (counter c "api");
  generalize dependent (counter c "cli");
  generalize dependent (counter c "database");
  generalize dependent (counter c "ai");
  generalize dependent (counter c "scraping");
  generalize dependent (counter c "testing");
  generalize dependent (counter c "auth");
  generalize dependent (counter c "file_processing");
  generalize dependent (counter c "async").
  intros; subst c. clear.
  unfold flat_map, qualified, features_named. cbn [fst snd].
  rewrite !filter_app.
  change (threshold "web") with 8; change (threshold "api") with 8;
  change (threshold "cli") with 8; change (threshold "database") with 5;
  change (threshold "ai") with 5; change (threshold "scraping") with 5;
  change (threshold "testing") with 5; change (threshold "auth") with 5;
  change (threshold "file_processing") with 5; change (threshold "async") with 5.
  repeat match goal with
         | |- context [?x >=? ?n] =>
             lazymatch x with w => fail | _ => destruct (x >=? n) end
         end;
  destruct (w >=? 8); reflexivity.
Qed.

Lemma features_in_category_feature category k priority :
  features_in category (category_feature k priority)
  = if String.eqb k category then category_feature k priority else [].
Proof.
  unfold category_feature.
  destruct (Dict.get feature_descriptions k) as [[n d]|].
  - apply features_in_one.
  - now destruct (String.eqb k category).
Qed.

Lemma features_in_qualified category item :
  features_in category (qualified item)
  = if String.eqb (fst item) category then qualified item else [].
Proof.
  unfold qualified. destruct (_ >=? _).
  - apply features_in_category_feature.
  - now destruct (String.eqb (fst item) category).
Qed.

Lemma features_in_items category items :
  NoDup (Dict.keys items) -> In category (Dict.keys items) ->
  features_in category (flat_map qualified items)
  = qualified (category, counter items category).
Proof.
  unfold Dict.keys, counter.
  induction items as [|[k v] items IH]; simpl; [tauto|].
  intros N H. inversion N as [|? ? Hk N']; subst.
  rewrite features_in_app, features_in_qualified. cbn [fst].
  destruct (String.eqb k category) eqn:E.
  - apply String.eqb_eq in E. subst k.
    assert (Z0 : features_in category (flat_map qualified items) = []).
    { clear - Hk. induction items as [|[k' v'] items IH]; simpl; [reflexivity|].
      rewrite features_in_app, features_in_qualified. cbn [fst].
      destruct (String.eqb k' category) eqn:E'.
      - apply String.eqb_eq in E'. subst. exfalso. apply Hk. now left.
      - apply IH. intros H. apply Hk. now right. }
    now rewrite Z0, app_nil_r.
  - destruct H as [->|H]; [now rewrite String.eqb_refl in E|].
    now rewrite IH.
Qed.

Lemma priority_of_cases counter :
  (15 <= counter -> priority_of counter = 5)
  /\ (10 <= counter < 15 -> priority_of counter = 4)
  /\ (counter < 10 -> priority_of counter = 3).
Proof.
  unfold priority_of. repeat split; intros H.
  - destruct (counter >=? 15) eqn:E; [reflexivity|]. rewrite Z.geb_leb in E; apply Z.leb_gt in E. lia.
  - destruct (counter >=? 15) eqn:E; [apply Z.geb_le in E; lia|].
    destruct (counter >=? 10) eqn:E'; [reflexivity|]. rewrite Z.geb_leb in E'; apply Z.leb_gt in E'. lia.
  - destruct (counter >=? 15) eqn:E; [apply Z.geb_le in E; lia|].
    destruct (counter >=? 10) eqn:E'; [apply Z.geb_le in E'; lia | reflexivity].
Qed.

(** C4. The boundaries of qualification.  With the counters the three
    passes leave: a web counter below 8 (so 7) gives no "Web Application"
    feature; from 8 on there is exactly one, of priority 3 at 8, 4 at 10
    and 5 at 15.  For each of the ten categories the feature of the
    category is emitted exactly when its counter reaches the threshold
    (8 for web, cli and api, 5 for the others), with priority 5 from 15 on,
    4 from 10 on, else 3. *)
Theorem C4_feature_boundaries (project_path : string) (es : list Fs.entry)
  (technologies : list Technology) (feature_counters : Dict.t Z) :
  feature_counters_of project_path es technologies = Some feature_counters ->
  exists features,
    _detect_project_features project_path es technologies = Some features
    /\ (let web := counter feature_counters "web" in
        (web < 8 -> features_named "Web Application" features = [])
        /\ (8 <= web ->
            features_named "Web Application" features
            = [web_application (priority_of web)])
        /\ (web = 7 -> features_named "Web Application" features = [])
        /\ (web = 8 ->
            features_named "Web Application" features = [web_application 3])
        /\ (web = 10 ->
            features_named "Web Application" features = [web_application 4])
        /\ (web = 15 ->
            features_named "Web Application" features = [web_application 5]))
    /\ (forall category, In category (Dict.keys initial_counters) ->
        let counter := counter feature_counters category in
        threshold category
        = (if Str.mem category ["web"; "cli"; "api"] then 8 else 5)
        /\ (counter < threshold category -> features_in category features = [])
        /\ (threshold category <= counter ->
            features_in category features
            = category_feature category (priority_of counter)
            /\ List.length (features_in category features) = 1%nat)
        /\ (15 <= counter -> priority_of counter = 5)
        /\ (10 <= counter < 15 -> priority_of counter = 4)
        /\ (counter < 10 -> priority_of counter = 3)).
Proof.
  intros H. exists (features_of_counters project_path feature_counters).
  pose proof (feature_counters_keys _ _ _ _ H) as K.
  split; [unfold _detect_project_features; now rewrite H|].
  split.
  - cbv zeta.
    rewrite features_named_counters by reflexivity.
    rewrite (qualified_named_web _ K).
    set (web := counter feature_counters "web").
    assert (G : 8 <= web ->
                (if web >=? 8 then [web_application (priority_of web)] else [])
                = [web_application (priority_of web)]).
    { intros Hw. destruct (web >=? 8) eqn:E; [reflexivity|].
      rewrite Z.geb_leb in E; apply Z.leb_gt in E. lia. }
    assert (L : web < 8 ->
                (if web >=? 8 then [web_application (priority_of web)] else [])
                = []).
    { intros Hw. destruct (web >=? 8) eqn:E; [|reflexivity].
      apply Z.geb_le in E. lia. }
    repeat split; intros Hw.
    + now apply L.
    + now apply G.
    + apply L. lia.
    + rewrite G by lia. now rewrite Hw.
    + rewrite G by lia. now rewrite Hw.
    + rewrite G by lia. now rewrite Hw.
  - intros category Hc. cbv zeta.
    assert (F : features_in category (features_of_counters project_path feature_counters)
                = qualified (category, counter feature_counters category)).
    { rewrite features_in_counters.
      - apply features_in_items; rewrite K; [|exact Hc].
        simpl. repeat (constructor; [simpl; intuition discriminate|]). constructor.
      - simpl in Hc. repeat (destruct Hc as [<-|Hc]; [reflexivity|]). contradiction.
      - simpl in Hc. repeat (destruct Hc as [<-|Hc]; [reflexivity|]). contradiction.
      - simpl in Hc. repeat (destruct Hc as [<-|Hc]; [reflexivity|]). contradiction. }
    rewrite F. unfold qualified. cbn [fst snd].
    split; [reflexivity|].
    split; [|split; [|apply priority_of_cases]].
    + intros Hlt. destruct (_ >=? _) eqn:E; [|reflexivity]. apply Z.geb_le in E. lia.
    + intros Hge. destruct (_ >=? _) eqn:E; [|rewrite Z.geb_leb in E; apply Z.leb_gt in E; lia].
      split; [reflexivity|].
      simpl in Hc. repeat (destruct Hc as [<-|Hc]; [reflexivity|]). contradiction.
Qed.

Lemma C4_feature_boundaries_witness :
  let es :=
    [Fs.File "app.py" (Some 63)
       (Some "flask django express fastapi templates views controllers render")] in
  exists feature_counters features,
    feature_counters_of "/work/demo" es [] = Some feature_counters
    /\ counter feature_counters "web" = 8
    /\ _detect_project_features "/work/demo" es [] = Some features
    /\ features_named "Web Application" features = [web_application 3].
Proof.
  intros es.
  destruct (feature_counters_of "/work/demo" es []) as [c|] eqn:E;
    [|vm_compute in E; discriminate E].
  destruct (C4_feature_boundaries "/work/demo" es [] c E)
    as [features [D [[_ [_ [_ [W8 _]]]] _]]].
  assert (W : counter c "web" = 8).
  { vm_compute in E. injection E as <-. reflexivity. }
  exists c, features. repeat split; auto.
Defined.

(** C8 as stated fails: a project directory named "demo" with nothing in
    it qualifies for no category and fires no name rule, and it gets no
    feature at all. *)
Lemma C8_counterexample : ~ one_generic_feature "/work/demo" [] [].
Proof.
  intros H.
  destruct (H initial_counters eq_refl) as [f Hf].
  - unfold none_qualifies, initial_counters.
    repeat (constructor; [vm_compute; reflexivity|]). constructor.
  - split; reflexivity.
  - vm_compute in Hf. discriminate Hf.
Qed.

(** C8, amended.  When no category reaches its threshold and neither name
    rule fires, the features are: exactly one generic feature, built from
    the first word of the project directory name and the remaining words,
    when the name has at least two words (split at "-", "_" and white
    space); and none when the name has fewer than two words.  The generic
    feature has the category "general", the priority 3 and a description
    made of the remaining words; its name is the first word capitalized,
    a space and the remaining words (the name is given when the capital of
    the first character is a code point of the embedding). *)
Theorem C8_generic_feature (project_path : string) (es : list Fs.entry)
  (technologies : list Technology) (feature_counters : Dict.t Z) :
  feature_counters_of project_path es technologies = Some feature_counters ->
  none_qualifies feature_counters ->
  no_name_rule project_path ->
  exists features,
    _detect_project_features project_path es technologies = Some features
    /\ (forall action_word second rest,
          name_words project_path = action_word :: second :: rest ->
          let subject_words := Str.join " " (second :: rest) in
          (map feat_description features
           = [("Application for working with " ++ subject_words)%string]
           /\ map feat_category features = ["general"]
           /\ map feat_priority features = [3])
          /\ (Str.title_in_range action_word = true ->
              features
              = [mk_Feature (Str.capitalize action_word ++ " " ++ subject_words)
                   ("Application for working with " ++ subject_words)
                   "general" 3]))
    /\ ((List.length (name_words project_path) < 2)%nat -> features = []).
Proof.
  intros H Hq [Hd Hy]. exists (features_of_counters project_path feature_counters).
  split; [unfold _detect_project_features; now rewrite H|].
  rewrite features_of_counters_shape.
  assert (E : flat_map qualified feature_counters = []).
  { pose proof (nothing_qualifies _ Hq) as N. now rewrite fold_qualify in N. }
  rewrite E. unfold with_name_rules. cbv zeta. rewrite Hd, Hy.
  unfold generic_features. split.
  - intros a b rest ->. split; [repeat split|]; reflexivity.
  - intros L. destruct (name_words project_path) as [|a [|b rest]];
      [reflexivity | reflexivity | simpl in L; lia].
Qed.

Lemma C8_generic_feature_witness :
  exists features,
    _detect_project_features latin_project_path [] [] = Some features
    /\ features
       = [mk_Feature (String (ascii_of_N 201) "tude " ++ String (ascii_of_N 233) "cole")
            ("Application for working with " ++ String (ascii_of_N 233) "cole")
            "general" 3].
Proof.
  destruct (C8_generic_feature latin_project_path [] [] initial_counters eq_refl)
    as [features [D [G _]]].
  - unfold none_qualifies, initial_counters.
    repeat (constructor; [vm_compute; reflexivity|]). constructor.
  - split; reflexivity.
  - exists features. split; [exact D|].
    apply (G (String (ascii_of_N 233) "tude")
             (String (ascii_of_N 233) "cole") []); reflexivity.
Defined.

(** ** Requirements-style manifests *)

Lemma prefix_nil s : String.prefix "" s = true.
Proof. now destruct s. Qed.

Lemma prefix_app p s : String.prefix p (p ++ s)%string = true.
Proof.
  induction p as [|c p IH]; simpl; [apply prefix_nil|].
  destruct (ascii_dec c c); [exact IH | contradiction].
Qed.

Lemma prefix_split p s :
  String.prefix p s = true -> s = (p ++ Str.drop (String.length p) s)%string.
Proof.
  revert s. induction p as [|c p IH]; intros s; [reflexivity|].
  destruct s as [|d s]; simpl; [discriminate|].
  destruct (ascii_dec c d) as [<-|]; [|discriminate].
  intros H. now rewrite <- (IH s H).
Qed.

Lemma split_once_eq sep s :
  Str.split_once sep s
  = if String.prefix sep s then Some (EmptyString, Str.drop (String.length sep) s)
    else match s with
         | EmptyString => None
         | String c s' =>
             match Str.split_once sep s' with
             | Some (a, b) => Some (String c a, b)
             | None => None
             end
         end.
Proof. now destruct s. Qed.

Lemma contains_eq sub s :
  Str.contains sub s
  = String.prefix sub s
    || match s with
       | EmptyString => false
       | String _ s' => Str.contains sub s'
       end.
Proof. now destruct s. Qed.

Lemma split_once_sound sep s a b :
  Str.split_once sep s = Some (a, b) -> s = (a ++ sep ++ b)%string.
Proof.
  revert a. induction s as [|c s IH]; intros a; rewrite split_once_eq.
  - destruct (String.prefix sep "") eqn:P; [|discriminate].
    intros [= <- <-]. now apply prefix_split.
  - destruct (String.prefix sep (String c s)) eqn:P.
    + intros [= <- <-]. now apply prefix_split.
    + destruct (Str.split_once sep s) as [[a0 b0]|]; [|discriminate].
      intros [= <- <-]. simpl. now rewrite <- (IH a0 eq_refl).
Qed.

Lemma split_once_leftmost sep s a b a' b' :
  Str.split_once sep s = Some (a, b) -> s = (a' ++ sep ++ b')%string ->
  (String.length a <= String.length a')%nat.
Proof.
  revert a a'. induction s as [|c s IH]; intros a a'; rewrite split_once_eq.
  - destruct (String.prefix sep ""); [|discriminate].
    intros [= <- <-] _. simpl. lia.
  - destruct (String.prefix sep (String c s)) eqn:P.
    + intros [= <- <-] _. simpl. lia.
    + destruct (Str.split_once sep s) as [[a0 b0]|] eqn:E; [|discriminate].
      intros [= <- <-] H.
      destruct a' as [|c' a'].
      * simpl in H. rewrite H, prefix_app in P. discriminate.
      * simpl in H. injection H as -> H. simpl.
        apply le_n_S. now apply (IH a0 a' eq_refl).
Qed.

Lemma split_once_complete sep s :
  Str.contains sep s = true -> exists a b, Str.split_once sep s = Some (a, b).
Proof.
  induction s as [|c s IH]; rewrite contains_eq, split_once_eq.
  - destruct (String.prefix sep ""); [eauto | discriminate].
  - destruct (String.prefix sep (String c s)); [eauto|]. simpl.
    intros H. destruct (IH H) as [a [b ->]]. eauto.
Qed.

(** Splitting at an operator that occurs in the line. *)
Lemma split_at_operator op line :
  Str.contains op line = true ->
  exists name version,
    leftmost_split op line name version
    /\ match Str.split_once op line with
       | Some nv => nv
       | None => (line, "")
       end = (name, version).
Proof.
  intros H. destruct (split_once_complete _ _ H) as [a [b E]].
  exists a, b. rewrite E. split; [|reflexivity].
  split; [now apply split_once_sound|].
  intros a' b'. now apply (split_once_leftmost op line a b a' b').
Qed.

Lemma strip_empty_version version :
  (if Str.is_empty version then version else Str.strip version)
  = Str.strip version.
Proof. now destruct version. Qed.

(** C5. Parsing one line of requirements.txt.  A blank line and a comment
    line yield no package.  Any other line, stripped, is split at the
    leftmost occurrence of the first of "==", ">=", "<=", "~=" (looked for
    in that order) that occurs in it, into a name and a version, both
    stripped; a line with none of them is a bare name with the empty
    version.  In particular "flask==2.0.1" is flask 2.0.1 and
    "requests>=2.0" is requests 2.0.  The packages of a file are those of
    its lines, in order. *)
Theorem C5_requirements_parsing :
  (forall line,
      if blank_or_comment line then parse_requirement_line line = None
      else
        match first_operator (Str.strip line) with
        | Some op =>
            exists name version,
              leftmost_split op (Str.strip line) name version
              /\ parse_requirement_line line
                 = Some (mk_package (Str.strip name) (Str.strip version))
        | None =>
            parse_requirement_line line
            = Some (mk_package (Str.strip (Str.strip line)) "")
        end)
  /\ parse_requirement_line "flask==2.0.1" = Some (mk_package "flask" "2.0.1")
  /\ parse_requirement_line "requests>=2.0" = Some (mk_package "requests" "2.0")
  /\ parse_requirement_line "" = None
  /\ parse_requirement_line "   " = None
  /\ parse_requirement_line "# comment" = None
  /\ parse_requirement_line "numpy" = Some (mk_package "numpy" "")
  /\ (forall content p,
        In p (_parse_requirements_txt (Some content))
        <-> exists line, In line (Str.splitlines content)
                         /\ parse_requirement_line line = Some p).
Proof.
  split; [|repeat (split; [reflexivity|])].
  - intros line. unfold blank_or_comment, parse_requirement_line, first_operator.
    set (l := Str.strip line). cbv zeta.
    destruct (Str.is_empty l || Str.startswith l "#"); [reflexivity|].
    unfold version_operators. simpl List.find.
    destruct (Str.contains "==" l) eqn:C1;
      [|destruct (Str.contains ">=" l) eqn:C2;
        [|destruct (Str.contains "<=" l) eqn:C3;
          [|destruct (Str.contains "~=" l) eqn:C4]]];
      try (match goal with
           | C : Str.contains ?op l = true |- _ =>
               destruct (split_at_operator op l C) as [name [version [L ->]]];
               exists name, version; split; [exact L|];
               now rewrite strip_empty_version
           end).
    reflexivity.
  - intros content p. simpl.
    induction (Str.splitlines content) as [|line lines IH]; simpl.
    + split; [tauto | intros [line [[] _]]].
    + destruct (parse_requirement_line line) as [q|] eqn:E; simpl; rewrite IH.
      * split.
        -- intros [<-|[l [Hl Hp]]]; [exists line | exists l]; auto.
        -- intros [l [[<-|Hl] Hp]]; [left; congruence | right; eauto].
      * split.
        -- intros [l [Hl Hp]]. exists l. auto.
        -- intros [l [[<-|Hl] Hp]]; [congruence | eauto].
Qed.

(** ** Description from the README *)

Lemma readme_scan_text i pre line post :
  0 < i ->
  Forall (fun l => is_text_line l = false) pre ->
  is_text_line line = true ->
  readme_scan i (pre ++ line :: post) = Some (truncate (Str.strip line)).
Proof.
  intros Hi Hpre Hline. revert i Hi.
  induction Hpre as [|l pre Hl _ IH]; intros i Hi; simpl.
  - unfold is_text_line in Hline. rewrite Hline.
    destruct (i >? 0) eqn:E; [reflexivity|]. rewrite Z.gtb_ltb in E. apply Z.ltb_ge in E. lia.
  - unfold is_text_line in Hl. rewrite Hl. simpl. apply IH. lia.
Qed.

Lemma readme_scan_none i lines :
  Forall (fun l => is_text_line l = false) lines -> readme_scan i lines = None.
Proof.
  intros H. revert i. induction H as [|l lines Hl _ IH]; intros i; simpl.
  - reflexivity.
  - unfold is_text_line in Hl. rewrite Hl. simpl. apply IH.
Qed.

(** The first line of the README is never looked at. *)
Lemma readme_scan_first first rest :
  readme_scan 0 (first :: rest) = readme_scan 1 rest.
Proof. simpl. now rewrite andb_false_r. Qed.

Lemma take_all n s : (String.length s <= n)%nat -> Str.take n s = s.
Proof.
  revert n. induction s as [|c s IH]; intros [|n] H; simpl in *;
    try reflexivity; try lia.
  rewrite IH; [reflexivity | lia].
Qed.

Lemma truncate_cases description :
  ((String.length description <= 200)%nat -> truncate description = description)
  /\ ((200 < String.length description)%nat ->
      truncate description = (Str.take 200 description ++ "...")%string).
Proof.
  unfold truncate. split; intros H.
  - destruct (200 <? String.length description)%nat eqn:E.
    + apply Nat.ltb_lt in E. lia.
    + rewrite take_all by exact H.
      clear. induction description as [|c s IH]; simpl; [reflexivity | now rewrite IH].
  - destruct (200 <? String.length description)%nat eqn:E; [reflexivity|].
    apply Nat.ltb_ge in E. lia.
Qed.

(** C6 as stated fails: for a README that starts with the line
    "Hello world", followed by "Second line", the first text line is
    "Hello world" and the description is "Second line". *)
Lemma C6_counterexample : ~ first_line_described readme_without_title.
Proof.
  intros H. specialize (H "" "Hello world" eq_refl).
  vm_compute in H. discriminate H.
Qed.

(** C6, amended.  Without a description in the package manifest and with
    a readable README.md, the description is the first line after the
    first one that is not empty (once stripped) and does not start with
    "#", stripped, cut to 200 characters with "..." appended when it is
    longer.  The first line of the README is skipped whatever it holds;
    when no later line qualifies the later providers decide. *)
Theorem C6_readme_description (es : list Fs.entry) (content : string)
  (later_providers : string) (first : string) (rest : list string) :
  Fs.file_exists es "README.md" = true ->
  Fs.read_file es "README.md" = Some content ->
  Str.split_char Str.LF content = first :: rest ->
  let description := _detect_project_description None es later_providers in
  (forall pre line post,
      rest = pre ++ line :: post ->
      Forall (fun l => is_text_line l = false) pre ->
      is_text_line line = true ->
      description = truncate (Str.strip line)
      /\ ((String.length (Str.strip line) <= 200)%nat ->
          description = Str.strip line)
      /\ ((200 < String.length (Str.strip line))%nat ->
          description = (Str.take 200 (Str.strip line) ++ "...")%string))
  /\ (Forall (fun l => is_text_line l = false) rest ->
      description = later_providers).
Proof.
  intros He Hr Hs description. subst description.
  unfold _detect_project_description. rewrite He, Hr.
  unfold readme_description. rewrite Hs, readme_scan_first.
  split.
  - intros pre line post -> Hpre Hline.
    rewrite readme_scan_text by (auto; lia).
    destruct (truncate_cases (Str.strip line)) as [T1 T2]. cbv beta iota.
    split; [reflexivity|]. split; intros L; [now rewrite T1 | now rewrite T2].
  - intros H. now rewrite readme_scan_none.
Qed.

Lemma C6_readme_description_witness :
  _detect_project_description None (readme_only readme_without_title) ""
  = "Second line".
Proof.
  destruct (C6_readme_description (readme_only readme_without_title)
              readme_without_title "" "Hello world" ["Second line"]
              eq_refl eq_refl eq_refl) as [H _].
  destruct (H [] "Second line" [] eq_refl (Forall_nil _) eq_refl) as [_ [E _]].
  apply E. vm_compute. lia.
Defined.

(** ** The Express project *)

Lemma mem_In x l : Str.mem x l = true <-> In x l.
Proof.
  unfold Str.mem. rewrite existsb_exists. split.
  - intros [y [Hy E]]. apply String.eqb_eq in E. now subst.
  - intros H. exists x. split; [exact H | apply String.eqb_refl].
Qed.

(** The Express hint is given exactly when some technology is named
    "express" up to letter case; the name "Express.js" of the manifest
    and directory detectors does not count. *)
Lemma express_hint_exact (technologies : list Technology) :
  In "Express.js Middleware Architecture" (technology_hints technologies)
  <-> exists tech, In tech technologies /\ Str.lower (tech_name tech) = "express".
Proof.
  unfold technology_hints. cbv zeta.
  set (names := map (fun tech => Str.lower (tech_name tech)) technologies).
  assert (M : Str.mem "express" names = true
              <-> exists tech, In tech technologies
                               /\ Str.lower (tech_name tech) = "express").
  { rewrite mem_In. unfold names. rewrite in_map_iff.
    split; intros [t [A B]]; exists t; tauto. }
  rewrite <- M.
  destruct (Str.mem "django" names), (Str.mem "flask" names || Str.mem "fastapi" names),
    (Str.mem "express" names), (Str.mem "react" names); simpl;
    intuition discriminate.
Qed.

(** C7. On the project with the Express manifest and the [routes]
    directory the technologies are JavaScript, Express.js (backend,
    importance 5) and Routing (backend, from the directory scanner), as
    the claim says; the architecture description is the generic sentence
    and mentions neither Express.js nor its middleware architecture, which
    the claim says it does. *)
Theorem C7_express_project :
  technologies_of express_project
  = [ mk_Technology "JavaScript" "language" None 5;
      mk_Technology "Express.js" "backend" None 5;
      mk_Technology "Routing" "backend" None 3 ]
  /\ _detect_architecture_description (project_entries express_project)
       (technologies_of express_project)
     = "Standard application architecture."
  /\ ~ In "Express.js Middleware Architecture"
         (architecture_components (project_entries express_project)
            (technologies_of express_project))
  /\ Str.contains "Express"
       (_detect_architecture_description (project_entries express_project)
          (technologies_of express_project)) = false.
Proof.
  split; [reflexivity|]. split; [reflexivity|]. split; [|reflexivity].
  vm_compute. tauto.
Qed.

(** The sibling hint works on the same project with React for Express:
    the manifest detector names the technology "React", which the hint
    finds. *)
Lemma react_project_hint :
  _detect_architecture_description (project_entries react_project)
    (technologies_of react_project)
  = "The project uses the following architectural approaches and patterns: Component-Based Architecture.".
Proof. reflexivity. Qed.

(** ** More on the file statistics *)

Lemma sorted_last_least {A : Type} (key : A -> Z) (l : list A) (d e : A) :
  non_increasing key l -> In e l -> key (last l d) <= key e.
Proof.
  unfold non_increasing. induction 1 as [|x l Hl IH Hx]; [contradiction|].
  intros [<-|He].
  - destruct l as [|y l]; [simpl; lia|].
    rewrite Forall_forall in Hx. apply Hx.
    change (last (x :: y :: l) d) with (last (y :: l) d).
    clear. revert y. induction l as [|z l IH]; intros y; [now left|].
    right. apply IH.
  - destruct l as [|y l]; [contradiction|]. now apply IH.
Qed.

Lemma last_In {A : Type} (l : list A) (d : A) : l <> [] -> In (last l d) l.
Proof.
  induction l as [|x l IH]; [congruence|]. intros _.
  destruct l as [|y l]; [now left|]. right. apply IH. discriminate.
Qed.

Lemma skipn_In {A : Type} (n : nat) (l : list A) x : In x (skipn n l) -> In x l.
Proof.
  revert l. induction n as [|n IH]; intros [|y l]; simpl; auto.
Qed.

Lemma sorted_firstn_skipn {A : Type} (key : A -> Z) (n : nat) (l : list A) c e :
  non_increasing key l -> In c (skipn n l) -> In e (firstn n l) ->
  key c <= key e.
Proof.
  unfold non_increasing. intros H. revert n.
  induction H as [|x l Hl IH Hx]; intros [|n]; simpl; try contradiction.
  intros Hc [<-|He]; [|now apply (IH n)].
  rewrite Forall_forall in Hx. apply Hx. now apply skipn_In in Hc.
Qed.

Lemma In_firstn_or_skipn {A : Type} (n : nat) (l : list A) x :
  In x l -> In x (firstn n l) \/ In x (skipn n l).
Proof.
  intros H. rewrite <- (firstn_skipn n l) in H. now apply in_app_or in H.
Qed.

Lemma fold_seen {A B S : Type} (Inv : list B -> S -> Prop) (f : S -> A -> S)
  (g : A -> list B) (l : list A) :
  (forall st seen a, Inv seen st -> Inv (seen ++ g a) (f st a)) ->
  forall st seen, Inv seen st -> Inv (seen ++ flat_map g l) (fold_left f l st).
Proof.
  intros Hf. induction l as [|a l IH]; intros st seen H; simpl.
  - now rewrite app_nil_r.
  - rewrite app_assoc. apply IH, Hf, H.
Qed.

(** A stable descending sort, seen from the end of the list. *)
Lemma insert_desc_behind {A : Type} (key : A -> Z) (a x : A) (s : list A) :
  Py.insert_desc key a (insert_behind key x s)
  = insert_behind key x (Py.insert_desc key a s).
Proof.
  induction s as [|y s IH]; simpl.
  - destruct (key a <? key x); reflexivity.
  - destruct (key y <? key x) eqn:Yx, (key a <? key y) eqn:Ay,
      (key a <? key x) eqn:Ax;
      simpl; rewrite ?Yx, ?Ay, ?Ax, ?IH; try reflexivity; exfalso;
      rewrite ?Z.ltb_lt, ?Z.ltb_ge in *; lia.
Qed.

Lemma sorted_desc_last {A : Type} (key : A -> Z) (l : list A) (x : A) :
  Py.sorted_desc key (l ++ [x]) = insert_behind key x (Py.sorted_desc key l).
Proof.
  induction l as [|a l IH]; simpl; [reflexivity|].
  now rewrite IH, insert_desc_behind.
Qed.

Lemma sorted_desc_id {A : Type} (key : A -> Z) (l : list A) :
  non_increasing key l -> Py.sorted_desc key l = l.
Proof.
  unfold non_increasing. induction 1 as [|a l Hl IH Ha]; simpl; [reflexivity|].
  rewrite IH. destruct l as [|y l]; [reflexivity|]. simpl.
  inversion Ha as [|? ? Hy _]; subst.
  assert (E : (key a <? key y) = false) by (apply Z.ltb_ge; lia).
  now rewrite E.
Qed.

Lemma firstn_insert_behind {A : Type} (key : A -> Z) (x : A) n (s : list A) :
  firstn n (insert_behind key x (firstn n s))
  = firstn n (insert_behind key x s).
Proof.
  revert s. induction n as [|n IH]; intros s; [reflexivity|].
  destruct s as [|y s]; [reflexivity|].
  cbn [firstn insert_behind]. destruct (key y <? key x).
  - cbn [firstn]. f_equal.
    change (y :: firstn n s) with (firstn (S n) (y :: s)).
    rewrite firstn_firstn. f_equal. lia.
  - cbn [firstn]. f_equal. apply IH.
Qed.

Lemma insert_behind_least {A : Type} (key : A -> Z) (x : A) (l : list A) :
  Forall (fun y => key x <= key y) l -> insert_behind key x l = l ++ [x].
Proof.
  induction 1 as [|y l Hy Hl IH]; simpl; [reflexivity|].
  assert (E : (key y <? key x) = false) by (apply Z.ltb_ge; lia).
  now rewrite E, IH.
Qed.

Lemma insert_desc_perm {A : Type} (key : A -> Z) (x : A) (l : list A) :
  Permutation (Py.insert_desc key x l) (x :: l).
Proof.
  induction l as [|y l IH]; simpl; [reflexivity|].
  destruct (key x <? key y); [|reflexivity].
  rewrite IH. apply perm_swap.
Qed.

Lemma sorted_desc_perm {A : Type} (key : A -> Z) (l : list A) :
  Permutation (Py.sorted_desc key l) l.
Proof.
  induction l as [|x l IH]; simpl; [reflexivity|].
  rewrite insert_desc_perm. now constructor.
Qed.

(** One more record: the running list stays the first five of the records
    seen, sorted. *)
Lemma update_largest_sorted seen path size :
  update_largest (firstn 5 (Py.sorted_desc lf_size seen)) path (Some size)
  = firstn 5 (Py.sorted_desc lf_size (seen ++ [mk_largest path size])).
Proof.
  remember (mk_largest path size) as x eqn:Ex.
  assert (Sx : lf_size x = size) by now subst x.
  set (s := Py.sorted_desc lf_size seen).
  assert (Ss : non_increasing lf_size s) by apply sorted_desc_sorted.
  assert (Sl : non_increasing lf_size (firstn 5 s))
    by now apply non_increasing_firstn.
  rewrite sorted_desc_last. fold s. rewrite <- firstn_insert_behind.
  unfold update_largest.
  destruct ((Py.len (firstn 5 s) <? 5)
            || (size >? lf_size (last (firstn 5 s) (mk_largest "" 0)))) eqn:Cond.
  - rewrite <- Ex, sorted_desc_last, sorted_desc_id by exact Sl. reflexivity.
  - apply orb_false_iff in Cond. destruct Cond as [C1 C2].
    apply Z.ltb_ge in C1. unfold Py.len in C1.
    rewrite Z.gtb_ltb in C2. apply Z.ltb_ge in C2.
    pose proof (firstn_le_length 5 s) as L.
    assert (L5 : List.length (firstn 5 s) = 5%nat) by lia.
    rewrite insert_behind_least.
    + rewrite firstn_app, L5, firstn_firstn.
      change (5 - 5)%nat with 0%nat. change (Nat.min 5 5) with 5%nat.
      rewrite firstn_O. symmetry. apply app_nil_r.
    + apply Forall_forall. intros e He.
      pose proof (sorted_last_least lf_size _ (mk_largest "" 0) e Sl He). lia.
Qed.

Lemma stats_file_sorted project_path root st file seen :
  largest_files st = firstn 5 (Py.sorted_desc lf_size seen) ->
  largest_files (stats_file project_path root st file)
  = firstn 5 (Py.sorted_desc lf_size (seen ++ candidate project_path root file)).
Proof.
  intros H. unfold stats_file, candidate.
  destruct (is_ignored ignored_files (Fs.name file)); [now rewrite app_nil_r|].
  cbn [largest_files]. rewrite H.
  destruct (Fs.size file) as [size|];
    [apply update_largest_sorted | now rewrite app_nil_r].
Qed.

(** X1. The five largest files.  [largest_files] is exactly the first
    five of the records of the files the walk visits (not ignored, size
    readable), sorted by size, the largest first and files of the same size
    in the order of the walk.  So it is a selection of these records without
    repetition: together with the records left out it is a rearrangement of
    them, it has five entries when there are five records and all of them
    otherwise, and every record left out is no larger than every record
    kept. *)
Theorem X1_largest_files_are_largest (project_path : string)
  (es : list Fs.entry) :
  let l := largest_files (_collect_file_stats project_path es) in
  let seen := candidates project_path es in
  l = firstn 5 (Py.sorted_desc lf_size seen)
  /\ List.length l = Nat.min 5 (List.length seen)
  /\ exists rest,
       Permutation (l ++ rest) seen
       /\ forall kept left,
            In kept l -> In left rest -> lf_size left <= lf_size kept.
Proof.
  cbv zeta.
  assert (H : largest_files (_collect_file_stats project_path es)
              = firstn 5 (Py.sorted_desc lf_size (candidates project_path es))).
  { unfold _collect_file_stats, candidates.
    set (items := Fs.walk_pruned _ project_path es).
    apply (fold_seen
             (fun seen st =>
                largest_files st = firstn 5 (Py.sorted_desc lf_size seen))
             (stats_item project_path)
             (fun item =>
                flat_map (candidate project_path (Fs.root item)) (Fs.files item))
             items) with (seen := []); [|reflexivity].
    intros st seen item Hs. unfold stats_item.
    apply (fold_seen
             (fun seen st =>
                largest_files st = firstn 5 (Py.sorted_desc lf_size seen))
             (stats_file project_path (Fs.root item))
             (candidate project_path (Fs.root item))); [|exact Hs].
    intros st' seen' file. apply stats_file_sorted. }
  rewrite H. set (s := Py.sorted_desc lf_size (candidates project_path es)).
  split; [reflexivity|]. split.
  - rewrite length_firstn. unfold s. now rewrite sorted_desc_length.
  - exists (skipn 5 s). split.
    + rewrite firstn_skipn. apply sorted_desc_perm.
    + intros kept left Hk Hl.
      apply (sorted_firstn_skipn lf_size 5 s); [apply sorted_desc_sorted | exact Hl | exact Hk].
Qed.







(** The extensions are lower-cased as Python does it: "a" with the
    extension capital E acute (201) and "b" with the extension e acute (233)
    are counted under the one key "." followed by 233. *)
Lemma file_types_latin1 :
  file_types
    (_collect_file_stats "/work/p"
       [ Fs.File ("a." ++ String (ascii_of_N 201) "")%string (Some 1) None;
         Fs.File ("b." ++ String (ascii_of_N 233) "")%string (Some 2) None ])
  = [ (("." ++ String (ascii_of_N 233) "")%string, 2) ].
Proof. reflexivity. Qed.

(** ** What every step of the pipeline preserves *)

Lemma get_In {V : Type} (d : Dict.t V) k v : Dict.get d k = Some v -> In (k, v) d.
Proof.
  induction d as [|[k' v'] d IH]; simpl; [discriminate|].
  destruct (String.eqb k' k) eqn:E.
  - apply String.eqb_eq in E. intros [= ->]. left. now subst.
  - intros H. right. now apply IH.
Qed.

Lemma In_set {V : Type} (d : Dict.t V) k v k' v' :
  In (k', v') (Dict.set d k v) -> (k' = k /\ v' = v) \/ In (k', v') d.
Proof.
  induction d as [|[k0 v0] d IH]; simpl.
  - intros [[= <- <-]|[]]. now left.
  - destruct (String.eqb k0 k) eqn:E; simpl.
    + apply String.eqb_eq in E. subst. intros [[= <- <-]|H]; [now left | right; now right].
    + intros [H|H]; [right; now left|]. destruct (IH H); [now left | right; now right].
Qed.

Section Preservation.

(** [P] is a property of registries and [ok] says which calls keep it. *)
Variable P : registry -> Prop.
Variable ok : string -> Z -> Prop.

Hypothesis P_upsert :
  forall result category name importance,
    ok category importance -> P result ->
    P (_add_technology_if_not_exists result category name importance).
Hypothesis P_append :
  forall result category e,
    ok category (te_importance e) -> P result ->
    P (Dict.set result category (entries result category ++ [e])).
Hypothesis ok_tables :
  forall category importance,
    In category nine_categories -> 2 <= importance <= 5 ->
    ok category importance.

Lemma P_add_lib (table : Dict.t lib_info) k info result :
  table_in_model table -> Dict.get table k = Some info ->
  P result -> P (add_lib result info).
Proof.
  intros T G H. apply P_upsert; [|exact H].
  apply get_In in G. unfold table_in_model in T. rewrite Forall_forall in T.
  destruct (T _ G) as [A B]. now apply ok_tables.
Qed.

Lemma P_literal result category name importance :
  In category nine_categories -> 2 <= importance <= 5 -> P result ->
  P (_add_technology_if_not_exists result category name importance).
Proof. intros A B. apply P_upsert. now apply ok_tables. Qed.

Lemma P_run_upserts calls result :
  Forall (fun c => ok (up_category c) (up_importance c)) calls ->
  P result -> P (run_upserts calls result).
Proof.
  unfold run_upserts. revert result.
  induction calls as [|c calls IH]; intros result F H; simpl; [exact H|].
  inversion F; subst. apply IH; [assumption|]. now apply P_upsert.
Qed.

Hypothesis P_new_key :
  forall result category,
    In category nine_categories -> Dict.mem result category = false ->
    P result -> P (Dict.set result category []).

(** Goes through the conditionals of a detector. *)
Ltac through :=
  repeat match goal with
         | |- P (if ?b then _ else _) => destruct b
         | |- P (_add_technology_if_not_exists _ _ _ _) =>
             apply P_literal; [simpl; tauto | lia |]
         end.

Lemma tables_in_model :
  table_in_model python_frameworks /\ table_in_model all_libs
  /\ table_in_model directory_to_tech
  /\ table_in_model framework_directory_names.
Proof.
  unfold table_in_model. repeat split;
    (apply Forall_forall; intros kv H; vm_compute in H;
     repeat (destruct H as [<-|H]; [vm_compute; intuition discriminate|]);
     contradiction).
Qed.

Lemma P_python packages result :
  P result -> P (_process_python_packages packages result).
Proof.
  intros H. unfold _process_python_packages.
  apply fold_left_invariant.
  - intros s x Hs. cbv zeta.
    assert (Hs' : P match Dict.get python_frameworks (Str.lower (pk_name x)) with
                    | Some lib_info => add_lib s lib_info
                    | None => s
                    end).
    { destruct (Dict.get python_frameworks _) eqn:G; [|exact Hs].
      eapply P_add_lib; [apply (proj1 tables_in_model) | exact G | exact Hs]. }
    through; exact Hs'.
  - through. exact H.
Qed.

Lemma P_js_scan deps st :
  P (js_result st) -> P (js_result (fold_left js_scan_step deps st)).
Proof.
  apply (fold_left_invariant (fun st => P (js_result st))).
  intros s x Hs. unfold js_scan_step. cbn [js_result].
  destruct (Dict.get all_libs (fst x)) eqn:G; [|exact Hs].
  eapply P_add_lib;
    [apply (proj1 (proj2 tables_in_model)) | exact G | exact Hs].
Qed.

Lemma P_js package_data result :
  P result -> P (_process_js_packages package_data result).
Proof.
  intros H. unfold _process_js_packages. cbv zeta.
  destruct (pkg_scripts package_data); through;
    apply P_js_scan; cbn [js_result]; through; exact H.
Qed.

Lemma rank_importance_range i : 2 <= rank_importance i <= 5.
Proof.
  unfold rank_importance.
  destruct (i =? 0), (i =? 1), (i <? 4); lia.
Qed.

Lemma P_append_languages sorted_languages i result :
  P result -> P (append_languages i sorted_languages result).
Proof.
  revert i result.
  induction sorted_languages as [|[language count] rest IH];
    intros i result H; simpl; [exact H|].
  apply IH, P_append; [|exact H].
  apply ok_tables; [simpl; tauto | apply rank_importance_range].
Qed.

Lemma P_check_directory result dir_name :
  P result -> P (check_directory result dir_name).
Proof.
  intros H. unfold check_directory. cbv zeta.
  destruct (Str.startswith _ _); [exact H|].
  assert (H' : P match Dict.get directory_to_tech (Str.lower dir_name) with
                 | Some tech_info => add_lib result tech_info
                 | None => result
                 end).
  { destruct (Dict.get directory_to_tech _) eqn:G; [|exact H].
    eapply P_add_lib;
      [apply (proj1 (proj2 (proj2 tables_in_model))) | exact G | exact H]. }
  destruct (Dict.get framework_directory_names _) eqn:G; [|exact H'].
  eapply P_add_lib;
    [apply (proj2 (proj2 (proj2 tables_in_model))) | exact G | exact H'].
Qed.

Lemma P_framework_directories project_path es result :
  P result -> P (_check_framework_directories project_path es result).
Proof.
  intros H. unfold _check_framework_directories.
  apply fold_left_invariant; [|exact H].
  intros s item Hs. destruct (_ >? _); [exact Hs|].
  destruct (_is_ignored_dir _); [exact Hs|].
  apply fold_left_invariant; [|exact Hs].
  intros s' d. apply P_check_directory.
Qed.

(** From the registry the first detector starts with to the one the last
    detector leaves. *)
Lemma P_detect_from (p : project) result :
  Forall (fun c => ok (up_category c) (up_importance c)) (external_calls p) ->
  P result ->
  P (_analyze_project_files p
       (_analyze_config_files p
          (_analyze_package_files p
             (_analyze_file_extensions (extensions_config p) (project_path p)
                (project_entries p) result)))).
Proof.
  unfold external_calls. rewrite !Forall_app. intros [C1 [C2 [C3 C4]]] H.
  unfold _analyze_project_files, _analyze_config_files, _analyze_package_files,
    _analyze_file_extensions. cbv zeta.
  set (r1 := append_languages 0 _ result).
  assert (H1 : P r1) by now apply P_append_languages.
  clearbody r1.
  apply P_run_upserts; [exact C4|].
  apply P_framework_directories, P_run_upserts; [exact C3|].
  apply P_run_upserts; [exact C2|].
  set (r2 := run_upserts (python_manifest_calls p) _).
  assert (H2 : P r2).
  { apply P_run_upserts; [exact C1|].
    destruct (Fs.file_exists _ "requirements.txt"); [now apply P_python | exact H1]. }
  clearbody r2.
  destruct (Fs.file_exists _ "package.json"); [now apply P_js | exact H2].
Qed.

Lemma P_enrich found_libraries tech_data :
  P tech_data -> P (_enrich_technologies_from_source found_libraries tech_data).
Proof.
  intros H. unfold _enrich_technologies_from_source.
  apply fold_left_invariant; [|exact H].
  intros s x Hs. unfold enrich_library. cbv zeta.
  destruct (existsb _ _); [exact Hs|].
  apply P_append; [|exact Hs]. apply ok_tables; [|simpl; lia].
  unfold _map_library_category_to_tech_category.
  destruct (Dict.get library_category_mapping (fst (snd x))) as [c|] eqn:G;
    [|simpl; tauto].
  apply get_In in G. unfold library_category_mapping in G. simpl in G.
  repeat (destruct G as [G|G]; [injection G as _ <-; simpl; tauto|]).
  contradiction.
Qed.

Lemma P_fill tech_data : P tech_data -> P (fill_categories tech_data).
Proof.
  intros H. unfold fill_categories.
  assert (G : forall cats d,
             (forall c, In c cats -> In c nine_categories) ->
             P d ->
             P (fold_left (fun tech_data category =>
                             if Dict.mem tech_data category then tech_data
                             else Dict.set tech_data category []) cats d)).
  { induction cats as [|c cats IH]; intros d Hc Hd; simpl; [exact Hd|].
    apply IH; [intros c' Hc'; apply Hc; now right|].
    destruct (Dict.mem d c) eqn:M; [exact Hd|].
    apply P_new_key; auto. apply Hc. now left. }
  apply G; [|exact H]. intros c Hc. unfold required_categories in Hc.
  simpl in *. intuition.
Qed.

(** The whole pipeline, from the initial result to the mapping that is
    converted. *)
Lemma P_analyze (p : project) found_libraries :
  Forall (fun c => ok (up_category c) (up_importance c)) (external_calls p) ->
  P initial_result -> P (analyze_tech_data p found_libraries).
Proof.
  intros C H. unfold analyze_tech_data, detect_technologies. cbv zeta.
  apply P_fill, P_enrich. now apply P_detect_from.
Qed.

End Preservation.

(** *** The data model: categories and importances *)

Lemma bump_first_forall (Q : tech_entry -> Prop) name importance l l' :
  (forall e, Q e -> Q (mk_entry (te_name e) (te_count e) importance)) ->
  Forall Q l -> bump_first name importance l = Some l' -> Forall Q l'.
Proof.
  intros HQ. revert l'. induction l as [|tech l IH]; intros l' F; simpl; [discriminate|].
  inversion F as [|? ? Ht Hl]; subst.
  destruct (String.eqb (te_name tech) name).
  - destruct (te_importance tech <? importance); intros [= <-]; [|exact F].
    constructor; [now apply HQ | exact Hl].
  - destruct (bump_first name importance l) as [l''|]; [|discriminate].
    intros [= <-]. constructor; [exact Ht | now apply IH].
Qed.

Lemma well_formed_entries result category :
  well_formed result ->
  Forall (fun e => in_model category (te_importance e)) (entries result category).
Proof.
  intros W. unfold entries.
  destruct (Dict.get result category) as [l|] eqn:G; [|constructor].
  apply get_In in G. now apply W.
Qed.

Lemma well_formed_set result category l :
  well_formed result -> In category nine_categories ->
  Forall (fun e => in_model category (te_importance e)) l ->
  well_formed (Dict.set result category l).
Proof.
  intros W C F c' l' H. apply In_set in H.
  destruct H as [[-> ->]|H]; [now split | now apply W].
Qed.

Lemma well_formed_upsert result category name importance :
  in_model category importance -> well_formed result ->
  well_formed (_add_technology_if_not_exists result category name importance).
Proof.
  intros [C I] W. unfold _add_technology_if_not_exists.
  set (r' := if Dict.mem result category then result
             else Dict.set result category []).
  assert (W' : well_formed r').
  { subst r'. destruct (Dict.mem result category); [exact W|].
    apply well_formed_set; auto. }
  pose proof (well_formed_entries r' category W') as F.
  destruct (bump_first name importance (entries r' category)) as [l'|] eqn:B.
  - apply well_formed_set; auto.
    apply (bump_first_forall _ name importance (entries r' category)); auto.
    intros e _. now split.
  - apply well_formed_set; auto. apply Forall_app. split; [exact F|].
    constructor; [now split | constructor].
Qed.

Lemma well_formed_append result category e :
  in_model category (te_importance e) -> well_formed result ->
  well_formed (Dict.set result category (entries result category ++ [e])).
Proof.
  intros [C I] W. apply well_formed_set; auto. apply Forall_app.
  split; [now apply well_formed_entries|]. constructor; [now split | constructor].
Qed.

Lemma well_formed_initial : well_formed initial_result.
Proof.
  intros c l H. unfold initial_result in H. simpl in H.
  repeat (destruct H as [[= <- <-]|H]; [split; [constructor | simpl; tauto]|]).
  contradiction.
Qed.

Lemma keys_upsert result category name importance :
  In category (Dict.keys result) ->
  Dict.keys (_add_technology_if_not_exists result category name importance)
  = Dict.keys result.
Proof.
  intros H. unfold _add_technology_if_not_exists.
  assert (M : Dict.mem result category = true).
  { unfold Dict.keys in H. apply in_map_iff in H. destruct H as [[k v] [<- H]].
    unfold Dict.mem. clear - H. induction result as [|[k' v'] d IH]; [contradiction|].
    simpl. destruct (String.eqb k' k) eqn:E; [reflexivity|].
    destruct H as [[= -> _]|H]; [now rewrite String.eqb_refl in E | now apply IH]. }
  rewrite M. destruct (bump_first _ _ _); now apply keys_set_present.
Qed.

Lemma analyze_keys (p : project) (found_libraries : Dict.t (string * string)) :
  Forall (fun c => In (up_category c) nine_categories) (external_calls p) ->
  Dict.keys (analyze_tech_data p found_libraries) = nine_categories.
Proof.
  intros C.
  apply (P_analyze (fun r => Dict.keys r = nine_categories)
           (fun c _ => In c nine_categories)).
  - intros r c n i Hc Hr. rewrite keys_upsert; [exact Hr | now rewrite Hr].
  - intros r c e Hc Hr. rewrite keys_set_present; [exact Hr | now rewrite Hr].
  - auto.
  - intros r c Hc M Hr. exfalso.
    assert (M' : Dict.mem r c = true).
    { apply mem_get. assert (Hin : In c (Dict.keys r)) by now rewrite Hr.
      clear - Hin. induction r as [|[k v] d IH]; [contradiction|]. simpl.
      destruct (String.eqb k c) eqn:E; [now exists v|].
      destruct Hin as [Hk|Hin]; [simpl in Hk; subst; now rewrite String.eqb_refl in E|].
      now apply IH. }
    congruence.
  - exact C.
  - reflexivity.
Qed.

(** X3. The data model of the technologies.  When the calls of the
    detectors that are not embedded use categories of the model and
    importances from 1 to 5, so does everything: the mapping that is
    converted has exactly the nine categories as its keys, in the order of
    the initial result, and every technology of the final list has one of
    the nine categories, an importance from 1 to 5 and no version. *)
Theorem X3_technologies_in_model (p : project)
  (found_libraries : Dict.t (string * string)) :
  Forall (fun c => in_model (up_category c) (up_importance c)) (external_calls p) ->
  Dict.keys (analyze_tech_data p found_libraries) = nine_categories
  /\ Forall
       (fun tech =>
          In (tech_category tech) nine_categories
          /\ 1 <= tech_importance tech <= 5
          /\ tech_version tech = None)
       (_convert_technologies_data (analyze_tech_data p found_libraries)).
Proof.
  intros C. split.
  - apply analyze_keys. eapply Forall_impl; [|exact C]. now intros c [H _].
  - assert (W : well_formed (analyze_tech_data p found_libraries)).
    { apply (P_analyze well_formed in_model).
      - intros r c n i. apply well_formed_upsert.
      - intros r c e. apply well_formed_append.
      - intros c i Hc Hi. split; [exact Hc | lia].
      - intros r c Hc _ Hr. apply well_formed_set; auto.
      - exact C.
      - apply well_formed_initial. }
    unfold _convert_technologies_data. apply Forall_forall.
    intros tech H. apply in_flat_map in H. destruct H as [[c l] [Hcl H]].
    apply in_map_iff in H. destruct H as [item [<- Hitem]]. simpl.
    destruct (W c l Hcl) as [F Hc]. rewrite Forall_forall in F.
    destruct (F item Hitem) as [_ Hi]. auto.
Qed.

Lemma X3_technologies_in_model_witness :
  Dict.keys (analyze_tech_data express_project []) = nine_categories
  /\ Forall
       (fun tech =>
          In (tech_category tech) nine_categories
          /\ 1 <= tech_importance tech <= 5
          /\ tech_version tech = None)
       (_convert_technologies_data (analyze_tech_data express_project [])).
Proof.
  apply (X3_technologies_in_model express_project []). constructor.
Defined.

(** *** Enrichment from the imports of the sources *)

Lemma exists_lower_names lib l :
  existsb (fun tech => String.eqb (Str.lower (te_name tech)) (Str.lower lib)) l = true
  <-> In (Str.lower lib) (lower_names l).
Proof.
  unfold lower_names. rewrite existsb_exists, in_map_iff. split.
  - intros [e [H E]]. apply String.eqb_eq in E. now exists e.
  - intros [e [E H]]. exists e. split; [exact H | now apply String.eqb_eq].
Qed.

Lemma enrich_library_entries tech_data found category :
  exists added,
    entries (enrich_library tech_data found) category
    = entries tech_data category ++ added
    /\ (added = []
        \/ added = [mk_entry (fst found) None 3]
           /\ category = _map_library_category_to_tech_category (fst (snd found))
           /\ ~ In (Str.lower (fst found)) (lower_names (entries tech_data category))).
Proof.
  unfold enrich_library. cbv zeta.
  set (mapped := _map_library_category_to_tech_category (fst (snd found))).
  destruct (existsb _ (entries tech_data mapped)) eqn:E.
  - exists []. rewrite app_nil_r. auto.
  - destruct (String.eqb mapped category) eqn:C.
    + apply String.eqb_eq in C. subst category.
      exists [mk_entry (fst found) None 3]. rewrite entries_set. split; [reflexivity|].
      right. repeat split. intros H. apply exists_lower_names in H. congruence.
    + apply String.eqb_neq in C. exists []. rewrite entries_set_ne by exact C.
      rewrite app_nil_r. auto.
Qed.

Lemma enrich_entries found_libraries tech_data category :
  exists added,
    entries (_enrich_technologies_from_source found_libraries tech_data) category
    = entries tech_data category ++ added
    /\ Forall (fun e => te_importance e = 3 /\ te_count e = None
                        /\ In (te_name e) (Dict.keys found_libraries)) added
    /\ NoDup (lower_names added)
    /\ (forall n, In n (lower_names added) ->
                  ~ In n (lower_names (entries tech_data category))).
Proof.
  unfold _enrich_technologies_from_source. revert tech_data.
  induction found_libraries as [|found rest IH]; intros tech_data; simpl.
  - exists []. rewrite app_nil_r. repeat split; try constructor. intros n [].
  - destruct (IH (enrich_library tech_data found)) as [added' [E' [F' [N' D']]]].
    destruct (enrich_library_entries tech_data found category) as [a [E H]].
    rewrite E in E', D'. exists (a ++ added'). rewrite E', app_assoc.
    split; [reflexivity|].
    assert (F'' : Forall (fun e => te_importance e = 3 /\ te_count e = None
                            /\ (fst found = te_name e
                                \/ In (te_name e) (Dict.keys rest))) added').
    { eapply Forall_impl; [|exact F']. intros e [A [B C]]. auto. }
    destruct H as [->|[-> [_ Hnew]]]; simpl.
    + rewrite app_nil_r in D'. auto.
    + split; [constructor; [simpl; auto | exact F'']|].
      split.
      * constructor; [|exact N']. intros Hin. apply (D' _ Hin).
        unfold lower_names. rewrite map_app. apply in_or_app. right. now left.
      * intros n [<-|Hn]; [exact Hnew|]. intros Hold. apply (D' _ Hn).
        unfold lower_names. rewrite map_app. apply in_or_app. now left.
Qed.

(** X4. The enrichment only appends.  In every category the entries that
    were there stay, in their order and with their importance; what is added
    comes after them, each with importance 3 and the name of a found
    library, and no added name is equal, ignoring case, to a name that was
    there or to another added name. *)
Theorem X4_enrichment_appends (found_libraries : Dict.t (string * string))
  (tech_data : registry) (category : string) :
  exists added,
    entries (_enrich_technologies_from_source found_libraries tech_data) category
    = entries tech_data category ++ added
    /\ Forall (fun e => te_importance e = 3 /\ te_count e = None
                        /\ In (te_name e) (Dict.keys found_libraries)) added
    /\ NoDup (lower_names added)
    /\ (forall n, In n (lower_names added) ->
                  ~ In n (lower_names (entries tech_data category))).
Proof. apply enrich_entries. Qed.

(** X5. Every found library is in the enriched data: the category its
    library category is mapped to has an entry with its name, compared
    ignoring case. *)
Theorem X5_enrichment_complete (found_libraries : Dict.t (string * string))
  (tech_data : registry) (lib lib_category description : string) :
  In (lib, (lib_category, description)) found_libraries ->
  In (Str.lower lib)
    (lower_names
       (entries (_enrich_technologies_from_source found_libraries tech_data)
          (_map_library_category_to_tech_category lib_category))).
Proof.
  unfold _enrich_technologies_from_source. revert tech_data.
  induction found_libraries as [|found rest IH]; intros tech_data; [intros []|].
  intros [->|H]; simpl; [|now apply IH].
  set (mapped := _map_library_category_to_tech_category lib_category).
  destruct (enrich_entries rest (enrich_library tech_data (lib, (lib_category, description)))
              mapped) as [added [E _]].
  unfold _enrich_technologies_from_source in E. rewrite E.
  unfold lower_names. rewrite map_app. apply in_or_app. left.
  unfold enrich_library. cbv zeta. cbn [fst snd]. fold mapped.
  destruct (existsb _ (entries tech_data mapped)) eqn:X.
  - now apply exists_lower_names in X.
  - rewrite entries_set, map_app. apply in_or_app. right. now left.
Qed.

Lemma X5_enrichment_complete_witness :
  In (Str.lower "express")
    (lower_names
       (entries (_enrich_technologies_from_source
                   [("express", ("backend", "Web framework for Node.js"))]
                   initial_result)
          (_map_library_category_to_tech_category "backend"))).
Proof.
  apply (X5_enrichment_complete
           [("express", ("backend", "Web framework for Node.js"))]
           initial_result "express" "backend" "Web framework for Node.js").
  simpl. auto.
Defined.

(** *** The order of the final list *)

Lemma set_absent {V : Type} (d : Dict.t V) k v :
  Dict.mem d k = false -> Dict.set d k v = d ++ [(k, v)].
Proof.
  unfold Dict.mem. induction d as [|[k' v'] d IH]; simpl; [reflexivity|].
  destruct (String.eqb k' k); [discriminate|]. intros H. now rewrite IH.
Qed.

Lemma convert_app a b :
  _convert_technologies_data (a ++ b)
  = _convert_technologies_data a ++ _convert_technologies_data b.
Proof. unfold _convert_technologies_data. apply flat_map_app. Qed.

Lemma convert_by_keys (tech_data : registry) :
  NoDup (Dict.keys tech_data) ->
  _convert_technologies_data tech_data
  = flat_map (technologies_in tech_data) (Dict.keys tech_data).
Proof.
  unfold _convert_technologies_data, technologies_in, Dict.keys.
  assert (G : forall (pre d : registry),
             NoDup (map fst (pre ++ d)) ->
             flat_map (fun ci => map (fun item => mk_Technology (te_name item) (fst ci) None
                                                    (te_importance item)) (snd ci)) d
             = flat_map (fun category =>
                           map (fun item => mk_Technology (te_name item) category None
                                              (te_importance item))
                             (entries (pre ++ d) category)) (map fst d)).
  { intros pre d. revert pre. induction d as [|[k v] d IH]; intros pre N; [reflexivity|].
    simpl. f_equal.
    - f_equal. unfold entries.
      assert (E : Dict.get (pre ++ (k, v) :: d) k = Some v).
      { clear IH. induction pre as [|[k' v'] pre IHp]; simpl.
        - now rewrite String.eqb_refl.
        - simpl in N. inversion N as [|? ? Hk Hn]; subst.
          destruct (String.eqb k' k) eqn:E.
          + apply String.eqb_eq in E. subst. exfalso. apply Hk.
            rewrite map_app. apply in_or_app. right. now left.
          + now apply IHp. }
      now rewrite E.
    - specialize (IH (pre ++ [(k, v)])). rewrite <- app_assoc in IH. now apply IH. }
  intros N. apply (G [] tech_data N).
Qed.

(** X6. The loop of [analyze] that supplies the missing categories never
    changes the list of technologies. *)
Theorem X6_fill_keeps_technologies (tech_data : registry) :
  _convert_technologies_data (fill_categories tech_data)
  = _convert_technologies_data tech_data.
Proof.
  unfold fill_categories. generalize required_categories as cats.
  intros cats. revert tech_data.
  induction cats as [|c cats IH]; intros tech_data; simpl; [reflexivity|].
  rewrite IH. destruct (Dict.mem tech_data c) eqn:M; [reflexivity|].
  rewrite set_absent by exact M. rewrite convert_app. simpl. apply app_nil_r.
Qed.

(** X7. The final list is grouped by category, in the order of the initial
    result: the languages first, then the frameworks, the databases, the
    frontend, backend, devops and testing technologies, the architecture and
    the rest; inside a category the technologies are in the order of their
    entries. *)
Theorem X7_technologies_by_category (p : project)
  (found_libraries : Dict.t (string * string)) :
  Forall (fun c => In (up_category c) nine_categories) (external_calls p) ->
  _convert_technologies_data (analyze_tech_data p found_libraries)
  = flat_map (technologies_in (analyze_tech_data p found_libraries))
      [ "language"; "framework"; "database"; "frontend"; "backend";
        "devops"; "testing"; "architecture"; "other" ].
Proof.
  intros C.
  pose proof (analyze_keys p found_libraries C) as K.
  rewrite convert_by_keys; rewrite K; [reflexivity|].
  unfold nine_categories. repeat constructor; simpl; intuition discriminate.
Qed.

Lemma X7_technologies_by_category_witness :
  _convert_technologies_data (analyze_tech_data express_project [])
  = flat_map (technologies_in (analyze_tech_data express_project []))
      [ "language"; "framework"; "database"; "frontend"; "backend";
        "devops"; "testing"; "architecture"; "other" ].
Proof.
  apply (X7_technologies_by_category express_project []). constructor.
Defined.

(** *** What a detector has found stays found *)

Lemma bump_first_keeps name importance l l' :
  bump_first name importance l = Some l' ->
  forall e, In e l ->
    exists e', In e' l' /\ te_name e' = te_name e
               /\ te_importance e <= te_importance e'.
Proof.
  revert l'. induction l as [|tech l IH]; intros l'; simpl; [discriminate|].
  destruct (String.eqb (te_name tech) name).
  - destruct (te_importance tech <? importance) eqn:L; intros [= <-] e [<-|H].
    + apply Z.ltb_lt in L. eexists. split; [now left|]. simpl. split; [reflexivity | lia].
    + exists e. split; [now right|]. split; [reflexivity | lia].
    + exists tech. split; [now left|]. split; [reflexivity | lia].
    + exists e. split; [now right|]. split; [reflexivity | lia].
  - destruct (bump_first name importance l) as [l''|]; [|discriminate].
    intros [= <-] e [<-|H].
    + exists tech. split; [now left|]. split; [reflexivity | lia].
    + destruct (IH l'' eq_refl e H) as [e' [A B]]. exists e'. split; [now right | exact B].
Qed.

Lemma entries_first_statement result category category' :
  entries (if Dict.mem result category then result
           else Dict.set result category []) category'
  = entries result category'.
Proof.
  destruct (Dict.mem result category) eqn:M; [reflexivity|].
  destruct (String.eqb category category') eqn:E.
  - apply String.eqb_eq in E. subst. rewrite entries_set.
    unfold entries, Dict.mem in *. now destruct (Dict.get result category').
  - apply String.eqb_neq in E. now apply entries_set_ne.
Qed.

Lemma has_entry_upsert_kept c n i result category name importance :
  has_entry c n i result ->
  has_entry c n i (_add_technology_if_not_exists result category name importance).
Proof.
  intros [e [H [N I]]]. unfold has_entry.
  destruct (String.eqb category c) eqn:E.
  - apply String.eqb_eq in E. subst c. unfold _add_technology_if_not_exists.
    pose proof (entries_first_statement result category category) as F.
    set (r' := if Dict.mem result category then result
               else Dict.set result category []) in *.
    destruct (bump_first name importance (entries r' category)) as [l'|] eqn:B;
      rewrite entries_set.
    + rewrite F in B. destruct (bump_first_keeps _ _ _ _ B e H) as [e' [A [B1 B2]]].
      exists e'. split; [exact A|]. split; [congruence | lia].
    + exists e. rewrite F. split; [apply in_or_app; now left | auto].
  - apply String.eqb_neq in E. rewrite upsert_other_category by exact E. now exists e.
Qed.

Lemma has_entry_append_kept c n i result category e :
  has_entry c n i result ->
  has_entry c n i (Dict.set result category (entries result category ++ [e])).
Proof.
  intros [e0 [H [N I]]]. exists e0. split; [|auto].
  destruct (String.eqb category c) eqn:E.
  - apply String.eqb_eq in E. subst c. rewrite entries_set. apply in_or_app. now left.
  - apply String.eqb_neq in E. now rewrite entries_set_ne.
Qed.

Lemma has_entry_new_key_kept c n i result category :
  Dict.mem result category = false ->
  has_entry c n i result -> has_entry c n i (Dict.set result category []).
Proof.
  intros M [e [H [N I]]]. exists e. split; [|auto].
  pose proof (entries_first_statement result category c) as F.
  rewrite M in F. now rewrite F.
Qed.

Lemma has_entry_upsert result category name importance :
  has_entry category name importance
    (_add_technology_if_not_exists result category name importance).
Proof.
  pose proof (upsert_named result category name importance) as U.
  assert (G : forall e l, named name l = e :: nil \/ (exists r, named name l = e :: r) ->
                          In e l /\ te_name e = name).
  { intros e l Hn.
    assert (Hin : In e (named name l)) by (destruct Hn as [->|[r ->]]; now left).
    unfold named in Hin. apply filter_In in Hin. destruct Hin as [A B].
    apply String.eqb_eq in B. auto. }
  destruct (named name (entries result category)) as [|e0 rest].
  - destruct (G _ _ (or_introl U)) as [A B]. eexists. split; [exact A|].
    split; [reflexivity | simpl; lia].
  - destruct (G _ _ (or_intror (ex_intro _ rest U))) as [A B]. eexists. split; [exact A|].
    split; [reflexivity | simpl; lia].
Qed.

Lemma has_entry_add_lib result info :
  has_entry (li_category info) (li_name info) (li_importance info)
    (add_lib result info).
Proof. apply has_entry_upsert. Qed.

(** When one step of a loop establishes what every step keeps, the loop
    establishes it. *)
Lemma fold_left_reaches {A S : Type} (P : S -> Prop) (f : S -> A -> S) x l s :
  (forall s y, P s -> P (f s y)) -> (forall s, P (f s x)) -> In x l ->
  P (fold_left f l s).
Proof.
  intros K R. revert s. induction l as [|y l IH]; intros s; [intros []|].
  intros [->|H]; simpl.
  - apply fold_left_invariant; [exact K | apply R].
  - now apply IH.
Qed.

Lemma has_entry_technology c n i tech_data :
  has_entry c n i tech_data ->
  has_technology c n i (_convert_technologies_data tech_data).
Proof.
  intros [e [H [N I]]]. unfold entries in H.
  destruct (Dict.get tech_data c) as [l|] eqn:G; [|contradiction].
  apply get_In in G.
  exists (mk_Technology (te_name e) c None (te_importance e)).
  split; [|simpl; auto].
  unfold _convert_technologies_data. apply in_flat_map. exists (c, l).
  split; [exact G|]. simpl. apply in_map_iff. now exists e.
Qed.

(** The steps of the pipeline keep an entry that is there. *)
Ltac kept :=
  first
    [ apply has_entry_upsert_kept
    | apply (P_run_upserts (has_entry _ _ _) (fun _ _ => True));
      [ intros ? ? ? ? _; apply has_entry_upsert_kept
      | apply Forall_forall; intros; exact I | ]
    | apply (P_python (has_entry _ _ _) (fun _ _ => True));
      [ intros ? ? ? ? _; apply has_entry_upsert_kept | intros; exact I | ]
    | apply (P_js (has_entry _ _ _) (fun _ _ => True));
      [ intros ? ? ? ? _; apply has_entry_upsert_kept | intros; exact I | ]
    | apply (P_framework_directories (has_entry _ _ _) (fun _ _ => True));
      [ intros ? ? ? ? _; apply has_entry_upsert_kept | intros; exact I | ]
    | apply (P_enrich (has_entry _ _ _) (fun _ _ => True));
      [ intros ? ? ? _; apply has_entry_append_kept | intros; exact I | ]
    | apply (P_fill (has_entry _ _ _));
      [ intros ? ? _; apply has_entry_new_key_kept | ] ].

Lemma has_entry_from_packages (p : project) found_libraries c n i result :
  has_entry c n i (_analyze_package_files p result) ->
  has_technology c n i
    (_convert_technologies_data
       (fill_categories
          (_enrich_technologies_from_source found_libraries
             (_analyze_project_files p (_analyze_config_files p
                (_analyze_package_files p result)))))).
Proof.
  generalize (_analyze_package_files p result) as r. intros r H.
  apply has_entry_technology.
  unfold _analyze_project_files, _analyze_config_files. cbv zeta.
  repeat kept. exact H.
Qed.

Ltac conditionals :=
  repeat match goal with
         | |- has_entry _ _ _ (if ?b then _ else _) => destruct b
         | |- has_entry _ _ _ (_add_technology_if_not_exists _ _ _ _) =>
             first [ solve [apply has_entry_upsert]
                   | apply has_entry_upsert_kept ]
         end.






Lemma python_step_kept c n i (result : registry) (package : package) :
  has_entry c n i result ->
  has_entry c n i
    (let name := Str.lower (pk_name package) in
     let result :=
       match Dict.get python_frameworks name with
       | Some lib_info => add_lib result lib_info
       | None => result
       end in
     let result :=
       if Str.startswith name "django"
       then _add_technology_if_not_exists result "framework" "Django" 5
       else result in
     let result :=
       if Str.startswith name "flask"
       then _add_technology_if_not_exists result "framework" "Flask" 5
       else result in
     if String.eqb name "fastapi"
     then _add_technology_if_not_exists result "framework" "FastAPI" 5
     else result).
Proof.
  intros H. cbv zeta. conditionals.
  all: destruct (Dict.get python_frameworks _); [apply has_entry_upsert_kept|]; exact H.
Qed.



Lemma python_prefix packages result package prefix name :
  In package packages ->
  In (prefix, name) python_prefix_rules ->
  Str.startswith (Str.lower (pk_name package)) prefix = true ->
  has_entry "framework" name 5 (_process_python_packages packages result).
Proof.
  intros H R S. unfold _process_python_packages. cbv zeta.
  apply (fold_left_reaches _ _ package); [| |exact H].
  - intros s x. apply python_step_kept.
  - intros s. destruct R as [[= <- <-]|[[= <- <-]|[]]]; rewrite S.
    + conditionals; apply has_entry_upsert.
    + destruct (String.eqb _ "fastapi"); [apply has_entry_upsert_kept|];
        apply has_entry_upsert.
Qed.

Lemma has_entry_from_requirements (p : project) found_libraries c n i :
  Fs.file_exists (project_entries p) "requirements.txt" = true ->
  (forall result,
      has_entry c n i
        (_process_python_packages
           (_parse_requirements_txt
              (Fs.read_file (project_entries p) "requirements.txt")) result)) ->
  has_technology c n i
    (_convert_technologies_data (analyze_tech_data p found_libraries)).
Proof.
  intros E H. unfold analyze_tech_data, detect_technologies. cbv zeta.
  apply has_entry_from_packages. unfold _analyze_package_files. cbv zeta.
  rewrite E. kept.
  destruct (Fs.file_exists (project_entries p) "package.json"); [kept|]; kept; apply H.
Qed.



(** X10. The two prefix rules.  A requirement whose lower-cased name
    starts with "django" makes Django a framework of the project with
    importance 5, and one that starts with "flask" does the same for
    Flask, whether or not the requirement is in the table. *)
Theorem X10_requirements_prefixes (p : project)
  (found_libraries : Dict.t (string * string)) (package : package)
  (prefix name : string) :
  Fs.file_exists (project_entries p) "requirements.txt" = true ->
  In package
    (_parse_requirements_txt (Fs.read_file (project_entries p) "requirements.txt")) ->
  In (prefix, name) python_prefix_rules ->
  Str.startswith (Str.lower (pk_name package)) prefix = true ->
  has_technology "framework" name 5
    (_convert_technologies_data (analyze_tech_data p found_libraries)).
Proof.
  intros E H R S. apply has_entry_from_requirements; [exact E|]. intros result.
  now apply python_prefix with (package := package) (prefix := prefix).
Qed.

Lemma X10_requirements_prefixes_witness :
  has_technology "framework" "Django" 5
    (_convert_technologies_data (analyze_tech_data django_project [])).
Proof.
  apply (X10_requirements_prefixes django_project []
           (mk_package "django-rest-framework" "") "django" "Django").
  - reflexivity.
  - vm_compute. right. left. reflexivity.
  - simpl. auto.
  - reflexivity.
Defined.

(** *** The directory scanner and the ignored paths *)

Lemma split_char_cons sep s : exists h t, Str.split_char sep s = h :: t.
Proof.
  induction s as [|c s [h [t IH]]]; simpl; [now exists EmptyString, []|].
  destruct (Ascii.eqb c sep); [now eexists; eexists|].
  rewrite IH. now eexists; eexists.
Qed.

Lemma split_char_app_sep sep a b :
  Str.split_char sep (a ++ String sep b)%string
  = Str.split_char sep a ++ Str.split_char sep b.
Proof.
  induction a as [|c a IH]; simpl.
  - now rewrite Ascii.eqb_refl.
  - destruct (Ascii.eqb c sep); [now rewrite IH|].
    rewrite IH. destruct (split_char_cons sep a) as [h [t ->]]. reflexivity.
Qed.

Lemma append_assoc (a b c : string) : ((a ++ b) ++ c = a ++ (b ++ c))%string.
Proof. induction a as [|x a IH]; simpl; [reflexivity | now rewrite IH]. Qed.

Lemma endswith_split s c :
  Str.endswith s (String c EmptyString) = true ->
  exists s', s = (s' ++ String c EmptyString)%string.
Proof.
  induction s as [|d s IH]; [discriminate|].
  cbn [Str.endswith]. intros H. apply orb_true_iff in H. destruct H as [H|H].
  - apply String.eqb_eq in H. exists EmptyString. exact H.
  - destruct (IH H) as [s' ->]. now exists (String d s').
Qed.

Lemma components_join a b x :
  x <> EmptyString ->
  In x (Str.split_char "/"%char a) ->
  In x (Str.split_char "/"%char (Str.path_join a b)).
Proof.
  intros N H. unfold Str.path_join.
  destruct a as [|c a]; [simpl in H; intuition congruence|].
  cbn [Str.is_empty orb].
  destruct (Str.endswith (String c a) "/") eqn:E.
  - apply endswith_split in E. destruct E as [s' E]. rewrite E in *.
    rewrite append_assoc. cbn [String.append].
    rewrite split_char_app_sep in *. apply in_app_or in H. apply in_or_app.
    destruct H as [H|H]; [now left|]. simpl in H. intuition congruence.
  - change (String c a ++ "/" ++ b)%string
      with (String c a ++ String "/"%char b)%string.
    rewrite split_char_app_sep. apply in_or_app. now left.
Qed.

Lemma ignored_join a b :
  _is_ignored_dir a = true -> _is_ignored_dir (Str.path_join a b) = true.
Proof.
  unfold _is_ignored_dir. rewrite !existsb_exists.
  intros [x [Hx M]]. exists x. split; [exact Hx|].
  apply mem_In. apply mem_In in M. apply components_join; [|exact M].
  intros ->. vm_compute in Hx. intuition discriminate.
Qed.

Lemma walk_roots_ignored keep path e :
  _is_ignored_dir path = true ->
  Forall (fun item => _is_ignored_dir (Fs.root item) = true)
    (Fs.walk_entry keep path e).
Proof.
  revert path. induction e as [n s c|n children IH] using entry_induction;
    intros path H; [constructor|].
  cbn [Fs.walk_entry]. constructor; [exact H|].
  apply Forall_forall. intros item Hin. apply in_flat_map in Hin.
  destruct Hin as [c [Hc Hin]]. rewrite Forall_forall in IH.
  destruct c as [n0 s0 c0|n0 cs]; [contradiction|].
  destruct (keep n0); [|contradiction].
  specialize (IH _ Hc (Str.path_join path n0) (ignored_join _ _ H)).
  rewrite Forall_forall in IH. now apply IH.
Qed.

Lemma fold_left_skip {A S : Type} (f : S -> A -> S) l s :
  Forall (fun x => forall s, f s x = s) l -> fold_left f l s = s.
Proof.
  intros F. revert s. induction F as [|x l H _ IH]; intros s; simpl; [reflexivity|].
  now rewrite H.
Qed.

(** X11. A project whose own path has a component with the name of an
    ignored directory (a project kept under [/srv/build], say) is invisible
    to the two detectors that walk the tree: the census of the file
    extensions adds no language and the directory scanner adds no
    technology. *)
Theorem X11_ignored_project_path (extensions_config : Dict.t string)
  (project_path : string) (es : list Fs.entry) (result : registry) :
  _is_ignored_dir project_path = true ->
  _analyze_file_extensions extensions_config project_path es result = result
  /\ _check_framework_directories project_path es result = result.
Proof.
  intros H.
  pose proof (walk_roots_ignored (fun _ => true) project_path
                (Fs.Dir EmptyString es) H) as W.
  fold (Fs.walk_pruned (fun _ => true) project_path es) in W.
  fold (Fs.walk project_path es) in W. split.
  - unfold _analyze_file_extensions, extension_counts. cbv zeta.
    rewrite fold_left_skip; [reflexivity|].
    eapply Forall_impl; [|exact W]. intros item I s. cbv beta. now rewrite I.
  - unfold _check_framework_directories. apply fold_left_skip.
    eapply Forall_impl; [|exact W]. intros item I s. cbv beta. rewrite I.
    now destruct (_ >? _).
Qed.

Lemma X11_ignored_project_path_witness :
  _analyze_file_extensions [("py", "Python")] "/srv/build/app"
    [Fs.File "main.py" (Some 10) (Some "print(1)"); Fs.Dir "routes" []]
    initial_result = initial_result
  /\ _check_framework_directories "/srv/build/app"
       [Fs.File "main.py" (Some 10) (Some "print(1)"); Fs.Dir "routes" []]
       initial_result = initial_result.
Proof.
  apply (X11_ignored_project_path [("py", "Python")] "/srv/build/app"
           [Fs.File "main.py" (Some 10) (Some "print(1)"); Fs.Dir "routes" []]
           initial_result).
  reflexivity.
Defined.

Lemma remove_from_all old s : Str.remove_from old (String.length s) s = EmptyString.
Proof. induction s as [|c s IH]; simpl; [reflexivity | exact IH]. Qed.

Lemma prefix_refl s : String.prefix s s = true.
Proof. induction s as [|c s IH]; simpl; [reflexivity|]. now destruct (Ascii.ascii_dec c c). Qed.

Lemma root_depth_self project_path : root_depth project_path project_path = 1.
Proof.
  unfold root_depth.
  assert (E : Str.remove_all project_path project_path = EmptyString).
  { unfold Str.remove_all. destruct project_path as [|c s]; [reflexivity|].
    cbn [Str.is_empty Str.remove_from]. rewrite prefix_refl.
    cbn [String.length Nat.pred]. apply remove_from_all. }
  rewrite E. reflexivity.
Qed.

Lemma check_directory_kept c n i result dir_name :
  has_entry c n i result -> has_entry c n i (check_directory result dir_name).
Proof.
  apply (P_check_directory (has_entry c n i) (fun _ _ => True)).
  - intros ? ? ? ? _. apply has_entry_upsert_kept.
  - intros; exact I.
Qed.

Lemma table_keys_not_hidden k info :
  Dict.get directory_to_tech k = Some info
  \/ Dict.get framework_directory_names k = Some info ->
  Str.startswith k "." = false.
Proof.
  intros [G|G]; apply get_In in G; vm_compute in G;
    repeat (destruct G as [[= <- _]|G]; [reflexivity|]); contradiction.
Qed.

Lemma check_directory_finds result dir_name info :
  Dict.get directory_to_tech (Str.lower dir_name) = Some info
  \/ Dict.get framework_directory_names (Str.lower dir_name) = Some info ->
  has_entry (li_category info) (li_name info) (li_importance info)
    (check_directory result dir_name).
Proof.
  intros G. unfold check_directory. cbv zeta.
  rewrite (table_keys_not_hidden _ _ G). destruct G as [G|G]; rewrite G.
  - destruct (Dict.get framework_directory_names _);
      [apply has_entry_upsert_kept|]; apply has_entry_add_lib.
  - apply has_entry_add_lib.
Qed.

(** X12. A directory directly under the root of a project whose path is
    not ignored is looked up by its lower-cased name: when the name is a
    key of the table of directories or one of the ten framework names, the
    technology of the table is among the technologies of the project, with
    its category and at least its importance. *)
Theorem X12_root_directories (p : project)
  (found_libraries : Dict.t (string * string)) (dir_name : string)
  (info : lib_info) :
  _is_ignored_dir (project_path p) = false ->
  In dir_name (root_directories p) ->
  Dict.get directory_to_tech (Str.lower dir_name) = Some info
  \/ Dict.get framework_directory_names (Str.lower dir_name) = Some info ->
  has_technology (li_category info) (li_name info) (li_importance info)
    (_convert_technologies_data (analyze_tech_data p found_libraries)).
Proof.
  intros N D G. unfold analyze_tech_data, detect_technologies. cbv zeta.
  apply has_entry_technology. unfold _analyze_project_files, _analyze_config_files.
  cbv zeta. do 3 kept.
  unfold _check_framework_directories, Fs.walk, Fs.walk_pruned.
  cbn [Fs.walk_entry fold_left Fs.root Fs.dirs].
  rewrite root_depth_self, N. cbn [Z.gtb Z.compare].
  apply fold_left_invariant.
  - intros s item H. destruct (_ >? _); [exact H|].
    destruct (_is_ignored_dir (Fs.root item)); [exact H|].
    apply fold_left_invariant; [|exact H]. intros s' d. apply check_directory_kept.
  - apply (fold_left_reaches _ _ dir_name).
    + intros s d. apply check_directory_kept.
    + intros s. now apply check_directory_finds.
    + apply filter_In. split; [exact D | reflexivity].
Qed.

Lemma X12_root_directories_witness :
  has_technology "backend" "Routing" 3
    (_convert_technologies_data (analyze_tech_data express_project [])).
Proof.
  apply (X12_root_directories express_project [] "routes"
           (mk_lib "backend" 3 "Routing")).
  - reflexivity.
  - simpl. auto.
  - left. reflexivity.
Defined.

(** *** The two ways of ignoring a file *)

Lemma fnmatch_literal pattern s :
  no_wildcard pattern = true -> Str.fnmatch s pattern = String.eqb s pattern.
Proof.
  revert s. induction pattern as [|c pattern IH]; intros s H.
  - now destruct s.
  - cbn [no_wildcard] in H. apply andb_true_iff in H. destruct H as [H Hp].
    apply andb_true_iff in H. destruct H as [H1 H2].
    apply negb_true_iff in H1, H2. cbn [Str.fnmatch]. rewrite H1, H2.
    destruct s as [|d s]; [reflexivity|]. cbn [orb String.eqb].
    rewrite (Ascii.eqb_sym c d), IH by exact Hp.
    now destruct (Ascii.eqb d c).
Qed.

Lemma fnmatch_star suffix s :
  no_wildcard suffix = true ->
  Str.fnmatch s (String "*"%char suffix) = Str.endswith s suffix.
Proof.
  intros H. cbn [Str.fnmatch]. rewrite Ascii.eqb_refl.
  induction s as [|d s IH]; cbn [Str.endswith].
  - now rewrite fnmatch_literal.
  - rewrite fnmatch_literal by exact H. now rewrite IH.
Qed.

Lemma endswith_refl s : Str.endswith s s = true.
Proof. destruct s; cbn [Str.endswith]; now rewrite String.eqb_refl. Qed.

Lemma ignore_lists_agree (names : list string) (item : string) :
  forallb simple_pattern names = true ->
  existsb (fun pattern => Str.fnmatch item pattern) names = is_ignored names item.
Proof.
  unfold is_ignored, Str.mem.
  induction names as [|pattern names IH]; intros H; [reflexivity|].
  cbn [forallb] in H. apply andb_true_iff in H. destruct H as [Hp Hn].
  specialize (IH Hn). cbn [existsb filter]. rewrite IH. clear IH.
  unfold simple_pattern in Hp. apply orb_true_iff in Hp.
  destruct Hp as [Hp|Hp].
  - rewrite fnmatch_literal by exact Hp.
    assert (S : Str.startswith pattern "*" = false).
    { destruct pattern as [|c pattern]; [reflexivity|].
      cbn [no_wildcard] in Hp. apply andb_true_iff in Hp. destruct Hp as [Hp _].
      apply andb_true_iff in Hp. destruct Hp as [Hp _]. apply negb_true_iff in Hp.
      unfold Str.startswith. cbn [String.prefix]. destruct (Ascii.ascii_dec "*"%char c) as [<-|]; [|reflexivity].
      discriminate Hp. }
    rewrite S. now rewrite orb_assoc.
  - destruct pattern as [|c suffix]; [discriminate|].
    apply andb_true_iff in Hp. destruct Hp as [Hc Hs].
    apply Ascii.eqb_eq in Hc. subst c. rewrite fnmatch_star by exact Hs.
    assert (S : Str.startswith (String "*"%char suffix) "*" = true).
    { unfold Str.startswith. simpl. now destruct suffix. }
    rewrite S. cbn [existsb Str.drop].
    destruct (String.eqb item (String "*"%char suffix)) eqn:E.
    + apply String.eqb_eq in E. subst item. cbn [Str.endswith].
      rewrite endswith_refl. now rewrite !orb_true_r.
    + cbn [orb]. destruct (Str.endswith item suffix); cbn [orb];
        [now rewrite orb_true_r|reflexivity].
Qed.

(** X13. The two analyzers ignore the same files.  The technology
    analyzer matches a file name against the patterns with [fnmatch], the
    structure analyzer looks for the name in the list and for the suffixes
    of the starred patterns; on the list they share the two tests give the
    same answer for every file name. *)
Theorem X13_ignored_files_agree (filename : string) :
  _is_ignored_file filename = is_ignored ignored_files filename.
Proof.
  unfold _is_ignored_file, ignored_files. now apply ignore_lists_agree.
Qed.

(** ** The methods of [Project] *)

Lemma by_category_get (l : list Technology) (category : string) :
  Dict.get (get_technologies_by_category (mk_Project "" "" "" l [])) category
  = match of_category category l with
    | [] => None
    | group => Some group
    end.
Proof.
  unfold get_technologies_by_category. cbn [technologies].
  set (step := fun (result : Dict.t (list Technology)) tech =>
                 let result :=
                   if Dict.mem result (tech_category tech) then result
                   else Dict.set result (tech_category tech) [] in
                 Dict.set result (tech_category tech)
                   (match Dict.get result (tech_category tech) with
                    | Some l => l
                    | None => []
                    end ++ [tech])).
  assert (G : forall l seen d,
             (forall c, Dict.get d c = match of_category c seen with
                                       | [] => None
                                       | group => Some group
                                       end) ->
             forall c, Dict.get (fold_left step l d) c
                       = match of_category c (seen ++ l) with
                         | [] => None
                         | group => Some group
                         end).
  { clear l. induction l as [|tech l IH]; intros seen d H c; simpl.
    - now rewrite app_nil_r.
    - replace (seen ++ tech :: l) with ((seen ++ [tech]) ++ l)
        by now rewrite <- app_assoc.
      apply IH. clear IH c. intros c. unfold step. cbv zeta.
      unfold of_category. rewrite filter_app. cbn [filter].
      fold (of_category c seen).
      destruct (String.eqb (tech_category tech) c) eqn:E.
      + apply String.eqb_eq in E. subst c. rewrite get_set_eq.
        unfold Dict.mem. rewrite H.
        destruct (of_category (tech_category tech) seen) as [|t0 g] eqn:O.
        * now rewrite get_set_eq.
        * now rewrite H, O.
      + rewrite app_nil_r. apply String.eqb_neq in E.
        rewrite get_set_ne by exact E.
        destruct (Dict.mem d (tech_category tech));
          [apply H | rewrite get_set_ne by exact E; apply H]. }
  apply (G l [] []). reflexivity.
Qed.

(** X14. [get_technologies_by_category] groups without loss and without
    reordering: under a category the mapping has exactly the technologies
    of that category, in the order they have in the list, and a category
    that no technology has is not a key. *)
Theorem X14_technologies_by_category (self : Project) (category : string) :
  Dict.get (get_technologies_by_category self) category
  = match of_category category (technologies self) with
    | [] => None
    | group => Some group
    end.
Proof.
  destruct self as [n p d l f]. cbn [technologies].
  exact (by_category_get l category).
Qed.

(** X15. [get_feature_descriptions] has one entry for each feature name:
    the description of the last feature of that name; a name that no
    feature has is not a key. *)
Theorem X15_feature_descriptions (self : Project) (name : string) :
  Dict.get (get_feature_descriptions self) name
  = option_map feat_description (last_named name (features self)).
Proof.
  unfold get_feature_descriptions, last_named.
  induction (features self) as [|feature l IH] using rev_ind; [reflexivity|].
  rewrite fold_left_app, rev_app_distr. cbn [fold_left rev app find].
  destruct (String.eqb (feat_name feature) name) eqn:E.
  - apply String.eqb_eq in E. subst name. now rewrite get_set_eq.
  - apply String.eqb_neq in E. rewrite get_set_ne by exact E. exact IH.
Qed.

Lemma sorted_desc_first {A : Type} (key : A -> Z) (l : list A) first rest :
  Py.sorted_desc key l = first :: rest -> first_largest key l first.
Proof.
  revert first rest. induction l as [|x l IH]; intros first rest; [discriminate|].
  cbn [Py.sorted_desc]. destruct (Py.sorted_desc key l) as [|h t] eqn:S.
  - apply sorted_desc_nil in S. subst l. intros [= <- _].
    exists [], []. repeat split; constructor.
  - destruct (IH h t eq_refl) as [before [after [E [B A']]]].
    cbn [Py.insert_desc]. destruct (key x <? key h) eqn:L; intros [= <- _].
    + apply Z.ltb_lt in L. exists (x :: before), after. rewrite E.
      repeat split; [constructor; assumption | assumption].
    + apply Z.ltb_ge in L. exists [], l. repeat split; [constructor|].
      rewrite E. apply Forall_app. split.
      * eapply Forall_impl; [|exact B]. cbv beta. intros; lia.
      * constructor; [lia|]. eapply Forall_impl; [|exact A']. cbv beta. intros; lia.
Qed.

Lemma primary_first (sel : Technology -> bool) (l : list Technology) :
  match
    match filter sel l with
    | [] => None
    | _ :: _ =>
        match Py.sorted_desc tech_importance (filter sel l) with
        | first :: _ => Some (tech_name first)
        | [] => None
        end
    end
  with
  | None => filter sel l = []
  | Some name =>
      exists first,
        name = tech_name first
        /\ first_largest tech_importance (filter sel l) first
  end.
Proof.
  destruct (filter sel l) as [|t0 l'] eqn:F; [reflexivity|].
  destruct (Py.sorted_desc tech_importance (t0 :: l')) as [|first rest] eqn:S.
  - apply sorted_desc_nil in S. discriminate.
  - exists first. split; [reflexivity|]. now apply sorted_desc_first in S.
Qed.

(** X16. [get_primary_framework] returns nothing exactly when the project
    has no framework; otherwise it returns the name of the first, in the
    order of the list, of the frameworks with the largest importance: a
    tie goes to the framework that was detected first.
    [get_primary_language] does the same with the languages. *)
Theorem X16_primary_first_largest (self : Project) :
  match get_primary_framework self with
  | None => of_category "framework" (technologies self) = []
  | Some name =>
      exists first,
        name = tech_name first
        /\ first_largest tech_importance
             (of_category "framework" (technologies self)) first
  end
  /\ match get_primary_language self with
     | None => of_category "language" (technologies self) = []
     | Some name =>
         exists first,
           name = tech_name first
           /\ first_largest tech_importance
                (of_category "language" (technologies self)) first
     end.
Proof.
  split.
  - exact (primary_first is_framework (technologies self)).
  - exact (primary_first is_language (technologies self)).
Qed.
